(** * llm-paper-reviewer: result normalisation, scoring, retry and fallback

    A shallow embedding of the decision logic of the paper-analysis
    service: the result parser/normaliser and the confidence scorer of
    [adapters/ai/ai_analysis_engine.py], the retry wrapper and the
    credential check of [adapters/ai/base.py] and
    [adapters/ai/deepseek_adapter.py], the orchestrator and the batch
    collectors of [core/analyzer.py] and [interfaces/cli/commands.py].

    Conventions.
    - A Python [str] is a [string]; one [ascii] stands for one character,
      so [String.length] is [len] and [substring 0 n] is the slice [[:n]].
      Texts with characters above code point 255 are outside the model.
    - A Python [float] is a binary64 [float] of the kernel.
    - A Python [dict] with string keys is a [gmap string _].
    - A call that may raise returns an [outcome]; [exn] stands for the
      instances of [Exception] (signals deriving from [BaseException]
      only, such as task cancellation, are outside the model).
    - Calls into the interpreter's libraries and into the network
      (json.loads, json.dumps, repr, the provider client) are parameters
      of the definitions that use them. *)

From Stdlib Require Import ZArith String Ascii List Bool Floats Lia.
From stdpp Require Import gmap strings pretty.
Import ListNotations.

Set Warnings "-inexact-float,-register-all,-abstract-large-number".

Open Scope string_scope.

(** ** Exceptions and outcomes *)

Inductive exn_class : Type :=
| JSONDecodeError
| ValueError
| TypeError
| AttributeError
| AIServiceError
| PaperAnalysisError
| AnalysisConfigurationError
| OtherError (name : string).

(** An exception instance: its class and [str(e)]. *)
Record exn : Type := Exn { exn_cls : exn_class; exn_msg : string }.

Inductive outcome (A : Type) : Type :=
| Ok (a : A)
| Raise (e : exn).
Arguments Ok {A} a.
Arguments Raise {A} e.

Definition bind {A B : Type} (c : outcome A) (k : A -> outcome B) : outcome B :=
  match c with
  | Ok a => k a
  | Raise e => Raise e
  end.

Notation "'let*' x ':=' c 'in' k" := (bind c (fun x => k))
  (at level 10, x name, c at level 100, k at level 200).

(** [try: body / except <classes>: handler]: [catches] tells which
    exceptions the clause matches. *)
Definition try_except {A : Type} (body : outcome A) (catches : exn -> bool)
    (handler : exn -> outcome A) : outcome A :=
  match body with
  | Ok a => Ok a
  | Raise e => if catches e then handler e else Raise e
  end.

Definition is_JSONDecodeError (e : exn) : bool :=
  match exn_cls e with JSONDecodeError => true | _ => false end.

(** [except Exception] *)
Definition any_Exception (e : exn) : bool := true.

Definition raises {A : Type} (c : outcome A) : Prop :=
  match c with Ok _ => False | Raise _ => True end.

Definition returns {A : Type} (c : outcome A) : Prop :=
  match c with Ok _ => True | Raise _ => False end.

(** ** Strings *)

Definition nl : ascii := "010"%char.

Definition dquote : string := String (ascii_of_nat 34) EmptyString.

(** [s[:n]] *)
Definition str_take (n : nat) (s : string) : string := substring 0 n s.

(** [s.endswith(suffix)] *)
Definition endswith (s suffix : string) : bool :=
  (String.length suffix <=? String.length s)%nat &&
  String.eqb (substring (String.length s - String.length suffix)
                        (String.length suffix) s) suffix.

(** The characters [str.strip()] removes, among code points below 256. *)
Definition is_space (c : ascii) : bool :=
  let n := nat_of_ascii c in
  ((9 <=? n) && (n <=? 13) || (28 <=? n) && (n <=? 32) ||
   (n =? 133) || (n =? 160))%nat.

Fixpoint lstrip (s : string) : string :=
  match s with
  | String c s' => if is_space c then lstrip s' else s
  | EmptyString => EmptyString
  end.

Fixpoint rstrip (s : string) : string :=
  match s with
  | String c s' =>
      match rstrip s' with
      | EmptyString => if is_space c then EmptyString else String c EmptyString
      | r => String c r
      end
  | EmptyString => EmptyString
  end.

(** [s.strip()] *)
Definition strip (s : string) : string := rstrip (lstrip s).

(** [s.split('\n')]: never empty, the empty text splits to one empty line. *)
Fixpoint split_lines (s : string) : list string :=
  match s with
  | EmptyString => [EmptyString]
  | String c s' =>
      if Ascii.eqb c nl then EmptyString :: split_lines s'
      else match split_lines s' with
           | l :: ls => String c l :: ls
           | [] => [String c EmptyString]
           end
  end.

(** The longest prefix of [s] that ends with ["}"], if any. *)
Fixpoint upto_last_close (s : string) : option string :=
  match s with
  | EmptyString => None
  | String c s' =>
      match upto_last_close s' with
      | Some r => Some (String c r)
      | None => if Ascii.eqb c "}"%char then Some (String c EmptyString) else None
      end
  end.

(** [re.search(r'\{[\s\S]*\}', text)]: the leftmost match starts at the
    first ["{"] and, the star being greedy over every character, ends at
    the last ["}"] behind it; there is no match when no ["}"] follows the
    first ["{"]. The result is [json_match.group()]. *)
Fixpoint re_search_braces (text : string) : option string :=
  match text with
  | EmptyString => None
  | String c s' =>
      if Ascii.eqb c "{"%char then
        match upto_last_close s' with
        | Some r => Some (String c r)
        | None => None
        end
      else re_search_braces s'
  end.

(** [needle in haystack] on strings. *)
Fixpoint str_contains (needle haystack : string) : bool :=
  String.prefix needle haystack ||
  match haystack with
  | EmptyString => false
  | String _ h' => str_contains needle h'
  end.

(** [s[n:]] *)
Definition str_drop (n : nat) (s : string) : string :=
  substring n (String.length s - n) s.

(** [c.lower()] for a code point below 256: the letters [A] to [Z] and
    the accented capitals 192 to 222, the multiplication sign 215
    excepted, move up by 32. *)
Definition lower_char (c : ascii) : ascii :=
  let n := nat_of_ascii c in
  if ((65 <=? n) && (n <=? 90) ||
      (192 <=? n) && (n <=? 222) && negb (n =? 215))%nat
  then ascii_of_nat (n + 32) else c.

(** [s.lower()] *)
Fixpoint lower (s : string) : string :=
  match s with
  | EmptyString => EmptyString
  | String c s' => String (lower_char c) (lower s')
  end.

(** ** Python values as [json.loads] produces them *)

Inductive pyval : Type :=
| PNone
| PBool (b : bool)
| PInt (z : Z)
| PFloat (f : float)
| PStr (s : string)
| PList (l : list pyval)
| PDict (d : gmap string pyval).

(** [bool(v)] *)
Definition truthy (v : pyval) : bool :=
  match v with
  | PNone => false
  | PBool b => b
  | PInt z => negb (z =? 0)%Z
  | PFloat f => negb (PrimFloat.eqb f 0%float)
  | PStr s => negb (String.eqb s EmptyString)
  | PList l => match l with [] => false | _ => true end
  | PDict d => negb (bool_decide (d = ∅))
  end.

(** [type(v).__name__] *)
Definition type_name (v : pyval) : string :=
  match v with
  | PNone => "NoneType"
  | PBool _ => "bool"
  | PInt _ => "int"
  | PFloat _ => "float"
  | PStr _ => "str"
  | PList _ => "list"
  | PDict _ => "dict"
  end.

Definition is_PStr (k : string) (v : pyval) : bool :=
  match v with PStr s => String.eqb s k | _ => false end.

(** The messages of the errors raised by the interpreter are those of
    CPython 3.11. *)
Definition type_error (msg : string) : exn := Exn TypeError msg.

(** [k in r] for a string key [k]. *)
Definition py_contains (k : string) (r : pyval) : outcome bool :=
  match r with
  | PDict d => Ok (bool_decide (is_Some (d !! k)))
  | PList l => Ok (existsb (is_PStr k) l)
  | PStr s => Ok (str_contains k s)
  | _ => Raise (type_error ("argument of type '" ++ type_name r ++ "' is not iterable"))
  end.

(** [r[k]] for a string key [k]. *)
Definition py_getitem (r : pyval) (k : string) : outcome pyval :=
  match r with
  | PDict d =>
      match d !! k with
      | Some v => Ok v
      | None => Raise (Exn (OtherError "KeyError") ("'" ++ k ++ "'"))
      end
  | PList _ => Raise (type_error "list indices must be integers or slices, not str")
  | PStr _ => Raise (type_error "string indices must be integers, not 'str'")
  | _ => Raise (type_error ("'" ++ type_name r ++ "' object is not subscriptable"))
  end.

(** [r.get(k, default)] *)
Definition py_get (r : pyval) (k : string) (default : pyval) : outcome pyval :=
  match r with
  | PDict d => Ok (match d !! k with Some v => v | None => default end)
  | _ => Raise (Exn AttributeError
                  ("'" ++ type_name r ++ "' object has no attribute 'get'"))
  end.

(** [v[:n]] *)
Definition py_slice_to (n : nat) (v : pyval) : outcome pyval :=
  match v with
  | PStr s => Ok (PStr (str_take n s))
  | PList l => Ok (PList (firstn n l))
  | PDict _ => Raise (type_error "unhashable type: 'slice'")
  | _ => Raise (type_error ("'" ++ type_name v ++ "' object is not subscriptable"))
  end.

(** [v + w] where [w] is a string. *)
Definition py_add_str (v : pyval) (w : string) : outcome pyval :=
  match v with
  | PStr s => Ok (PStr (s ++ w))
  | PList _ => Raise (type_error ("can only concatenate list (not " ++ dquote ++
                                  "str" ++ dquote ++ ") to list"))
  | _ => Raise (type_error ("unsupported operand type(s) for +: '" ++
                            type_name v ++ "' and 'str'"))
  end.

(** [str(v)]. The renderings of floats, lists and dicts are produced by
    the interpreter's [repr] and enter as the parameter [py_repr]. *)
Definition py_str (py_repr : pyval -> string) (v : pyval) : string :=
  match v with
  | PNone => "None"
  | PBool true => "True"
  | PBool false => "False"
  | PInt z => pretty z
  | PStr s => s
  | PFloat _ | PList _ | PDict _ => py_repr v
  end.

(** ** Domain models (domain/models/paper.py, domain/models/analysis.py)

    [PaperAnalysis.id] is the identifier passed to the constructor; the
    empty one stands for the identifier [__post_init__] derives from an
    MD5 digest and the clock. The analysis date and the metrics that
    [__post_init__] and the engine derive from the clock and from word
    counts are left out, [token_count] and [confidence_score] apart. *)

Module Paper.
Record Paper : Type := mk {
  id : string;
  file_path : string;
  content : string;
  metadata_title : option string
}.

(** The loop of [_extract_title_from_content] over the lines it looks
    at. *)
Fixpoint title_among (lines : list string) : option string :=
  match lines with
  | [] => None
  | line :: rest =>
      let line := strip line in
      if String.prefix "# " line then Some (strip (str_drop 2 line))
      else if negb (String.eqb line EmptyString) && negb (String.prefix "#" line) &&
              (String.length line <? 100)%nat
      then Some line
      else title_among rest
  end.

(** [for line in lines[:10]: ...]; [None] when no line qualifies. *)
Definition _extract_title_from_content (content : string) : option string :=
  title_among (firstn 10 (split_lines content)).

(** [Paper(id=.., file_path=.., content=.., paper_type=..)] with a
    non-empty [id] and the default metadata: [__post_init__] finds no
    title there and takes the one of the content. *)
Definition new (id file_path content : string) : Paper :=
  mk id file_path content (_extract_title_from_content content).
End Paper.

Inductive AnalysisStatus : Type := PENDING | IN_PROGRESS | COMPLETED | FAILED.

Module PaperAnalysis.
Record PaperAnalysis : Type := mk {
  id : string;
  paper_id : string;
  title : pyval;
  summary : pyval;
  problem : pyval;
  solution : pyval;
  limitations : pyval;
  key_contributions : pyval;
  research_significance : pyval;
  status : AnalysisStatus;
  raw_response : option string;
  error_message : option string;
  prompt_version : string;
  model_used : string;
  token_count : nat;
  confidence_score : float
}.

(** [self.raw_response = r] *)
Definition set_raw_response (r : option string) (a : PaperAnalysis) : PaperAnalysis :=
  mk (id a) (paper_id a) (title a) (summary a) (problem a) (solution a)
     (limitations a) (key_contributions a) (research_significance a) (status a)
     r (error_message a) (prompt_version a) (model_used a) (token_count a)
     (confidence_score a).

(** The result the engines, the orchestrator and the batch collectors
    build for a failure:
    [PaperAnalysis(id=.., paper_id=.., title=.., summary="", ..,
    status=AnalysisStatus.FAILED, error_message=..)]. *)
Definition failed (id paper_id title error_message : string) : PaperAnalysis :=
  mk id paper_id (PStr title) (PStr EmptyString) (PStr EmptyString)
     (PStr EmptyString) (PStr EmptyString) (PStr EmptyString) PNone FAILED
     None (Some error_message) "EN_2_0" EmptyString 0 0%float.

(** The names an instance answers to: the fields of the dataclass and
    the methods of the class (those inherited from [object] aside). No
    code of the repository sets another attribute on an analysis. *)
Definition attributes : list string :=
  [ "id"; "paper_id"; "title"; "summary"; "problem"; "solution"; "limitations";
    "key_contributions"; "research_significance"; "status"; "analysis_date";
    "metrics"; "raw_response"; "error_message"; "prompt_version"; "model_used";
    "__post_init__"; "_generate_id"; "_calculate_metrics";
    "_calculate_coherence_score"; "_estimate_technical_depth";
    "get_total_word_count"; "is_valid"; "get_quality_score"; "to_dict";
    "to_json"; "from_dict" ].

(** Reading [analysis.<name>]: an [AttributeError] for a name the
    instance does not answer to. The value read is not modelled. *)
Definition read_attribute (name : string) : outcome unit :=
  if existsb (String.eqb name) attributes then Ok tt
  else Raise (Exn AttributeError
                ("'PaperAnalysis' object has no attribute '" ++ name ++ "'")).
End PaperAnalysis.

(** ** The provider adapter ([BaseAIAdapter] in adapters/ai/base.py) *)

Module BaseAIAdapter.

(** What an adapter does to the outside world, in order. *)
Inductive event : Type :=
| Invoked
| Slept (seconds : Z).

(** An awaited call: it reads the history so far, extends it and returns
    or raises. *)
Definition io (A : Type) : Type := list event -> outcome A * list event.

Section Retry.

Context {A : Type}.

(** The operation handed to [with_retry]: its outcome may depend on
    everything that happened before the call. *)
Variable func : list event -> outcome A.

Definition invoke : io A := fun h => (func h, (h ++ [Invoked])%list).

(** [await asyncio.sleep(wait_time)] *)
Definition sleep (wait_time : Z) : io unit := fun h => (Ok tt, (h ++ [Slept wait_time])%list).

(** [range(n)] *)
Definition range (n : Z) : list Z := map Z.of_nat (seq 0 (Z.to_nat n)).

(** [raise last_error] behind the loop; [last_error] is still [None]
    when the loop body never ran. *)
Definition raise_last (last_error : option exn) : exn :=
  match last_error with
  | Some e => e
  | None => Exn TypeError "exceptions must derive from BaseException"
  end.

(** The loop of [with_retry] over the remaining attempts. *)
Fixpoint retry_loop (max_retries : Z) (attempts : list Z) (last_error : option exn)
    : io A :=
  fun h =>
    match attempts with
    | [] => (Raise (raise_last last_error), h)
    | attempt :: rest =>
        match invoke h with
        | (Ok r, h1) => (Ok r, h1)
        | (Raise e, h1) =>
            if (attempt <? max_retries - 1)%Z then
              let wait_time := (2 ^ attempt)%Z in
              let '(_, h2) := sleep wait_time h1 in
              retry_loop max_retries rest (Some e) h2
            else (Raise e, h1)
        end
    end.

Definition with_retry (max_retries : Z) : io A :=
  retry_loop max_retries (range max_retries) None.

End Retry.

Record adapter : Type := Adapter {
  api_key : string;
  model : string;
  max_retries : Z
}.

(** [__init__] sets [max_retries = 3]. *)
Definition init (api_key model : string) : adapter := Adapter api_key model 3.

Definition validate_api_key (self : adapter) : bool :=
  if String.eqb (api_key self) EmptyString then false
  else if (String.length (api_key self) <? 10)%nat then false
  else true.

Definition estimate_tokens (text : string) : nat :=
  Nat.max 1 (String.length text / 4).

End BaseAIAdapter.

(** ** The DeepSeek adapter (adapters/ai/deepseek_adapter.py); the OpenAI
    adapter differs in the prefix of its error message only. *)

Module DeepSeekAdapter.

Import BaseAIAdapter.

(** The keyword arguments of [client.chat.completions.create]. *)
Record request : Type := Request {
  req_model : string;
  req_prompt : string;
  req_temperature : float;
  req_max_tokens : Z;
  req_functions : option (pyval * pyval)
}.

(** The first choice of a completion. *)
Record message : Type := Message {
  function_call : option (string * string);
  content : option string
}.

Section Generate.

(** The provider: [client.chat.completions.create], answering with the
    list of choices. *)
Variable create : request -> list event -> outcome (list message).
Variable json_dumps : pyval -> outcome string.

Definition _extract_content (response : list message) : outcome string :=
  match response with
  | [] => Raise (Exn (OtherError "IndexError") "list index out of range")
  | msg :: _ =>
      match function_call msg with
      | Some (name, arguments) =>
          json_dumps (PDict (<["name" := PStr name]>
                              (<["arguments" := PStr arguments]> ∅)))
      | None => Ok (default EmptyString (content msg))
      end
  end.

Definition generate_response (self : adapter) (prompt : string)
    (tools : option pyval) : io string :=
  fun h =>
    if negb (validate_api_key self) then
      (Raise (Exn AIServiceError "Invalid API key"), h)
    else
      let functions :=
        match tools with
        | Some t =>
            if truthy t then
              let* fs := py_get t "functions" (PList []) in
              let* fc := py_get t "function_call"
                           (PDict (<["name" := PStr "analyze_paper"]> ∅)) in
              Ok (Some (fs, fc))
            else Ok None
        | None => Ok None
        end in
      match functions with
      | Raise e => (Raise e, h)
      | Ok fns =>
          let kwargs := Request (model self) prompt 0.1 4000 fns in
          let '(r, h1) := with_retry (create kwargs) (max_retries self) h in
          (try_except (let* response := r in _extract_content response)
             any_Exception
             (fun e => Raise (Exn AIServiceError ("DeepSeek API error: " ++ exn_msg e))),
           h1)
      end.

End Generate.

Section Structured.

Variable create : request -> list event -> outcome (list message).
Variable json_dumps : pyval -> outcome string.
(** [json.dumps(schema, indent=2)] *)
Variable json_dumps_indent : pyval -> outcome string.
Variable json_loads : string -> outcome pyval.

(** [json.loads(v)] for a value that need not be a string. *)
Definition loads_value (v : pyval) : outcome pyval :=
  match v with
  | PStr s => json_loads s
  | _ => Raise (type_error ("the JSON object must be str, bytes or bytearray, not " ++
                            type_name v))
  end.

(** [except (json.JSONDecodeError, KeyError)] *)
Definition is_decode_or_key_error (e : exn) : bool :=
  match exn_cls e with
  | JSONDecodeError => true
  | OtherError name => String.eqb name "KeyError"
  | _ => false
  end.

(** [None] is [PNone]. *)
Definition _extract_function_call (response : string) : outcome pyval :=
  try_except
    (let* data := json_loads response in
     match data with
     | PDict d =>
         if bool_decide (is_Some (d !! "name")) &&
            bool_decide (is_Some (d !! "arguments"))
         then let* arguments := py_getitem data "arguments" in
              loads_value arguments
         else Ok PNone
     | _ => Ok PNone
     end)
    is_decode_or_key_error
    (fun _ => Ok PNone).

Definition _extract_json_from_response (response : string) : outcome pyval :=
  let no_json := Raise (Exn AIServiceError "No valid JSON found in response") in
  try_except (json_loads response) is_JSONDecodeError
    (fun _ =>
       match re_search_braces response with
       | Some group =>
           try_except (json_loads group) is_JSONDecodeError (fun _ => no_json)
       | None => no_json
       end).

(** The tools configuration [generate_structured_response] builds from
    the schema. *)
Definition tools_of_schema (schema : pyval) : pyval :=
  PDict (list_to_map
    [ ("functions",
       PList [PDict (list_to_map
                [ ("name", PStr "analyze_paper");
                  ("description",
                   PStr "Analyze academic paper and extract key information");
                  ("parameters", schema) ])]);
      ("function_call", PDict (<["name" := PStr "analyze_paper"]> ∅)) ]).

Definition json_prompt (prompt rendered_schema : string) : string :=
  prompt ++ String nl (String nl
    "Please provide your analysis as a valid JSON object with the following schema:")
  ++ String nl rendered_schema.

Definition generate_structured_response (self : adapter) (prompt : string)
    (schema : pyval) : io pyval :=
  fun h =>
    let tools := tools_of_schema schema in
    (* the first [try]: a truthy function-call payload is returned, every
       exception is logged and dropped *)
    let '(r1, h1) := generate_response create json_dumps self prompt (Some tools) h in
    let function_data :=
      try_except
        (let* response := r1 in
         let* function_data := _extract_function_call response in
         Ok (if truthy function_data then Some function_data else None))
        any_Exception
        (fun _ => Ok None) in
    match function_data with
    | Ok (Some data) => (Ok data, h1)
    | Raise e => (Raise e, h1)
    | Ok None =>
        match json_dumps_indent schema with
        | Raise e => (Raise e, h1)
        | Ok rendered =>
            let '(r2, h2) :=
              generate_response create json_dumps self (json_prompt prompt rendered)
                None h1 in
            (try_except
               (let* response := r2 in _extract_json_from_response response)
               any_Exception
               (fun e => Raise (Exn AIServiceError
                                  ("Failed to generate structured response: " ++
                                   exn_msg e))),
             h2)
        end
    end.

End Structured.

End DeepSeekAdapter.

(** ** The result parser and normaliser, the confidence scorer
    ([AIAnalysisEngine] in adapters/ai/ai_analysis_engine.py) *)

Module AIAnalysisEngine.

Section Parser.

(** [json.loads]: returns the decoded value or raises, [JSONDecodeError]
    on malformed text. *)
Variable json_loads : string -> outcome pyval.
Variable py_repr : pyval -> string.

Definition field_mapping : gmap string (list string) :=
  list_to_map
    [ ("title", ["title"]);
      ("summary", ["summary"; "paper_overview"; "overview"]);
      ("problem", ["problem"; "research_problem"; "challenge"]);
      ("solution", ["solution"; "methodology"; "method"; "approach"]);
      ("limitations", ["limitations"; "limitations_analysis"; "weaknesses"]);
      ("key_contributions",
         ["key_contributions"; "contributions"; "academic_contributions"]);
      ("research_significance",
         ["research_significance"; "significance"; "impact"]) ].

Definition expected_fields (prompt_version : string) : list string :=
  ["title"; "summary"; "problem"; "solution"; "limitations"; "key_contributions"]
  ++ (if endswith prompt_version "_2_0" then ["research_significance"] else []).

(** The inner loop of [_normalize_analysis_result]:
    [for possible_field in ...: if possible_field in result and
    result[possible_field]: value = str(result[possible_field]); break];
    [PNone] when the loop ends without a value. *)
Fixpoint first_alias_value (result : pyval) (aliases : list string) : outcome pyval :=
  match aliases with
  | [] => Ok PNone
  | possible_field :: rest =>
      let* present := py_contains possible_field result in
      if present then
        let* v := py_getitem result possible_field in
        if truthy v then Ok (PStr (py_str py_repr v))
        else first_alias_value result rest
      else first_alias_value result rest
  end.

Definition _generate_field_value (field : string) (r : pyval) : outcome pyval :=
  if String.eqb field "title" then
    let* s := py_get r "summary" PNone in
    if truthy s then
      let* s0 := py_get r "summary" (PStr EmptyString) in
      let* cut := py_slice_to 100 s0 in
      py_add_str cut "..."
    else Ok PNone
  else if String.eqb field "summary" then
    let* p := py_get r "problem" (PStr "a research challenge") in
    let* s := py_get r "solution" (PStr "a novel approach") in
    Ok (PStr ("This paper addresses " ++ py_str py_repr p ++ " using " ++
              py_str py_repr s ++ "."))
  else if String.eqb field "problem" then
    Ok (PStr "Research problem not explicitly stated.")
  else if String.eqb field "solution" then
    Ok (PStr "Solution approach not explicitly described.")
  else if String.eqb field "limitations" then
    Ok (PStr "Limitations not explicitly discussed.")
  else if String.eqb field "key_contributions" then
    Ok (PStr "Contributions not explicitly summarized.")
  else if String.eqb field "research_significance" then
    Ok (PStr "Research significance not explicitly stated.")
  else Ok PNone.

(** One turn of the loop over [expected_fields]: the value stored under
    [field]. *)
Definition normalize_field (result : pyval) (field : string) : outcome pyval :=
  let* value :=
    first_alias_value result (default [field] (field_mapping !! field)) in
  let* value :=
    (if truthy value then Ok value else _generate_field_value field result) in
  Ok (if truthy value then value else PStr EmptyString).

Fixpoint normalize_fields (result : pyval) (fields : list string)
    (normalized : gmap string pyval) : outcome (gmap string pyval) :=
  match fields with
  | [] => Ok normalized
  | field :: rest =>
      let* value := normalize_field result field in
      normalize_fields result rest (<[field := value]> normalized)
  end.

Definition _normalize_analysis_result (result : pyval) (prompt_version : string)
    : outcome (gmap string pyval) :=
  normalize_fields result (expected_fields prompt_version) ∅.

Definition _extract_json_from_text (text : string) : outcome pyval :=
  let no_json := Raise (Exn ValueError "No valid JSON found in text") in
  match re_search_braces text with
  | Some group =>
      try_except (json_loads group) is_JSONDecodeError (fun _ => no_json)
  | None => no_json
  end.

Definition _create_basic_result_from_text (text : string) : gmap string pyval :=
  let lines := split_lines text in
  let first_line := match lines with l :: _ => strip l | [] => EmptyString end in
  list_to_map
    [ ("title", PStr (if String.eqb first_line EmptyString then "Untitled"
                      else str_take 100 first_line));
      ("summary", PStr (if (500 <? String.length text)%nat
                        then str_take 500 text ++ "..." else text));
      ("problem", PStr "Unable to extract specific problem statement");
      ("solution", PStr "Unable to extract specific solution");
      ("limitations", PStr "Unable to extract limitations");
      ("key_contributions", PStr "Unable to extract contributions");
      ("research_significance", PNone) ].

Definition _parse_analysis_result (result : string) (prompt_version : string)
    : outcome (gmap string pyval) :=
  try_except
    (let* parsed := json_loads result in
     _normalize_analysis_result parsed prompt_version)
    is_JSONDecodeError
    (fun _ =>
       try_except
         (let* json_data := _extract_json_from_text result in
          _normalize_analysis_result json_data prompt_version)
         any_Exception
         (fun _ => Ok (_create_basic_result_from_text result))).

(** [field in result and result[field] and len(str(result[field])) > 20] *)
Definition field_counts (result : gmap string pyval) (field : string) : bool :=
  match result !! field with
  | Some v => truthy v && (20 <? String.length (py_str py_repr v))%nat
  | None => false
  end.

Definition score_fields : list string :=
  ["title"; "summary"; "problem"; "solution"; "limitations"; "key_contributions"].

Definition score_weights : list float := [0.15; 0.25; 0.15; 0.2; 0.1; 0.15]%float.

(** The loop over [zip(fields, weights)], carrying [(score, total_weight)]. *)
Fixpoint score_loop (result : gmap string pyval) (fw : list (string * float))
    (acc : float * float) : float * float :=
  match fw with
  | [] => acc
  | (field, weight) :: rest =>
      let '(score, total_weight) := acc in
      let score := if field_counts result field then (score + weight)%float
                   else score in
      score_loop result rest (score, (total_weight + weight)%float)
  end.

Definition has_significance (result : gmap string pyval) : bool :=
  match result !! "research_significance" with
  | Some v => truthy v
  | None => false
  end.

Definition _calculate_confidence_score (result : gmap string pyval) : float :=
  let '(score, total_weight) :=
    score_loop result (combine score_fields score_weights) (0, 0)%float in
  let '(score, total_weight) :=
    if has_significance result
    then ((score + 0.1)%float, (total_weight + 0.1)%float)
    else (score, total_weight) in
  if PrimFloat.ltb 0 total_weight then (score / total_weight)%float else 0%float.

End Parser.

Section Analyze.

(** The world the awaited adapter calls act on. *)
Variable W : Type.
Variable json_loads : string -> outcome pyval.
Variable json_dumps : pyval -> outcome string.
Variable py_repr : pyval -> string.

Record ai_adapter : Type := AIAdapter {
  model : string;
  generate_response : string -> W -> outcome string * W;
  generate_structured_response : string -> pyval -> W -> outcome pyval * W
}.

Record config : Type := Config {
  prompt_version : string;
  max_paper_length : nat;
  enable_function_calling : bool
}.

Variable ai_adapter_ : ai_adapter.
Variable config_ : config.

(** [PromptManager.get_analysis_prompt]: the template of the configured
    version with the paper text filled in. *)
Variable get_analysis_prompt : string -> string.

(** [ToolsLoader]: the [parameters] schema of the single function of the
    tools configuration ["1.0"] or ["2.0"]. *)
Variable tool_parameters : string -> pyval.

Definition get_tools_for_analysis (prompt_version : string) : option pyval :=
  let version := if endswith prompt_version "_2_0" then "2.0" else "1.0" in
  Some (tool_parameters version).

Definition _generate_analysis (prompt : string) (tools : option pyval)
    : W -> outcome string * W :=
  fun w =>
    (* the inner try around the function-calling attempt *)
    let '(early, w1) :=
      match tools with
      | Some schema =>
          if enable_function_calling config_ then
            match generate_structured_response ai_adapter_ prompt schema w with
            | (Ok result, w') =>
                match json_dumps result with
                | Ok s => (Some s, w')
                | Raise _ => (None, w')
                end
            | (Raise _, w') => (None, w')
            end
          else (None, w)
      | None => (None, w)
      end in
    match early with
    | Some s => (Ok s, w1)
    | None =>
        match generate_response ai_adapter_ prompt w1 with
        | (Ok result, w2) =>
            (Ok (match (let* parsed := _extract_json_from_text json_loads result in
                        json_dumps parsed) with
                 | Ok s => s
                 | Raise _ => result
                 end), w2)
        | (Raise e, w2) =>
            (Raise (Exn AIServiceError ("Failed to generate analysis: " ++ exn_msg e)), w2)
        end
    end.

Definition truncation_note : string :=
  String nl (String nl "[Note: Paper truncated due to length limitations]").

(** The body of the [try] of [analyze_paper]. *)
Definition analyze_paper_body (paper : Paper.Paper)
    : W -> outcome PaperAnalysis.PaperAnalysis * W :=
  fun w =>
    let version := prompt_version config_ in
    let max_length := max_paper_length config_ in
    let content := Paper.content paper in
    let content :=
      if (max_length <? String.length content)%nat
      then str_take max_length content ++ truncation_note else content in
    let prompt := get_analysis_prompt content in
    let tools := get_tools_for_analysis version in
    match _generate_analysis prompt tools w with
    | (Raise e, w1) => (Raise e, w1)
    | (Ok result, w1) =>
        match _parse_analysis_result json_loads py_repr result version with
        | Raise e => (Raise e, w1)
        | Ok parsed_result =>
            let get k d := default d (parsed_result !! k) in
            (Ok (PaperAnalysis.mk EmptyString (Paper.id paper)
                   (get "title" (PStr (match Paper.metadata_title paper with
                                        | Some t => if String.eqb t EmptyString
                                                    then "Untitled Paper" else t
                                        | None => "Untitled Paper"
                                        end)))
                   (get "summary" (PStr EmptyString))
                   (get "problem" (PStr EmptyString))
                   (get "solution" (PStr EmptyString))
                   (get "limitations" (PStr EmptyString))
                   (get "key_contributions" (PStr EmptyString))
                   (get "research_significance" PNone)
                   COMPLETED (Some result) None version (model ai_adapter_)
                   (BaseAIAdapter.estimate_tokens (content ++ result))
                   (_calculate_confidence_score py_repr parsed_result)), w1)
        end
    end.

(** [try: ... except Exception as e: return PaperAnalysis(.. FAILED ..)] *)
Definition analyze_paper (paper : Paper.Paper)
    : W -> outcome PaperAnalysis.PaperAnalysis * W :=
  fun w =>
    match analyze_paper_body paper w with
    | (Ok analysis, w1) => (Ok analysis, w1)
    | (Raise e, w1) =>
        (Ok (PaperAnalysis.failed EmptyString (Paper.id paper) "Analysis Failed"
               (exn_msg e)), w1)
    end.

End Analyze.

(** The three settings the engine reads off its configuration
    dictionary, each with [self.config.get(key, default)]. Values of
    another type than the defaults have are outside the record
    [config]. *)
Definition read_config (config_dict : gmap string pyval) : option config :=
  let get key dflt := default dflt (config_dict !! key) in
  match get "prompt_version" (PStr "EN_2_0"),
        get "max_paper_length" (PInt 128000) with
  | PStr version, PInt max_length =>
      if (0 <=? max_length)%Z
      then Some (Config version (Z.to_nat max_length)
                   (truthy (get "enable_function_calling" (PBool true))))
      else None
  | _, _ => None
  end.

End AIAnalysisEngine.

(** ** The tools configuration ([ToolsLoader] in
    adapters/ai/ai_analysis_engine.py) *)

Module ToolsLoader.

Definition property (description : string) : pyval :=
  PDict (list_to_map [("type", PStr "string"); ("description", PStr description)]).

Definition base_properties : list (string * pyval) :=
  [ ("title", property "Paper title");
    ("summary", property "Brief summary of the paper's content");
    ("problem", property "What problem the paper addresses");
    ("solution", property "How the paper solves the problem");
    ("limitations", property "Limitations or unresolved issues");
    ("key_contributions", property "Main contributions of the paper") ].

Definition parameters_object (properties : list (string * pyval))
    (required : list string) : pyval :=
  PDict (list_to_map
    [ ("type", PStr "object");
      ("properties", PDict (list_to_map properties));
      ("required", PList (map PStr required)) ]).

Definition functions_of (description : string) (parameters : pyval) : pyval :=
  PDict (list_to_map
    [ ("functions",
       PList [PDict (list_to_map
                [ ("name", PStr "analyze_paper");
                  ("description", PStr description);
                  ("parameters", parameters) ])]) ]).

Definition _load_tools_config : pyval :=
  PDict (list_to_map
    [ ("versions",
       PDict (list_to_map
         [ ("1.0",
            functions_of "Analyze and extract key information from an academic paper"
              (parameters_object base_properties
                 ["title"; "summary"; "problem"; "solution"; "limitations";
                  "key_contributions"]));
           ("2.0",
            functions_of
              "Analyze and extract key information from an academic paper with enhanced analysis"
              (parameters_object
                 (base_properties ++
                  [("research_significance",
                    property "Research significance and impact")])
                 ["title"; "summary"; "problem"; "solution"; "limitations";
                  "key_contributions"; "research_significance"])) ]) ) ]).

(** [self.tools_config["versions"].get(version)] *)
Definition get_tools_for_analysis (prompt_version : string) : outcome pyval :=
  let version := if endswith prompt_version "_2_0" then "2.0" else "1.0" in
  let* versions := py_getitem _load_tools_config "versions" in
  py_get versions version PNone.

(** [tools['functions'][0]['parameters']], as [_generate_analysis] reads
    the schema. *)
Definition function_parameters (tools : pyval) : outcome pyval :=
  let* functions := py_getitem tools "functions" in
  match functions with
  | PList (f :: _) => py_getitem f "parameters"
  | PList [] => Raise (Exn (OtherError "IndexError") "list index out of range")
  | PDict _ => Raise (Exn (OtherError "KeyError") "0")
  | PStr EmptyString => Raise (Exn (OtherError "IndexError") "string index out of range")
  | PStr _ => Raise (type_error "string indices must be integers, not 'str'")
  | _ => Raise (type_error ("'" ++ type_name functions ++ "' object is not subscriptable"))
  end.

End ToolsLoader.

(** ** Settings and the container (infrastructure/config/settings.py,
    infrastructure/container.py) *)

Module Settings.

Record AISettings : Type := mkAI {
  provider : string;
  model : string;
  api_key : string;
  base_url : option string;
  temperature : float;
  max_tokens : Z;
  timeout : Z;
  max_retries : Z
}.

Record AnalysisSettings : Type := mkAnalysis {
  max_paper_length : Z;
  prompt_version : string;
  enable_function_calling : bool;
  confidence_threshold : float;
  field_mapping : gmap string (list string)
}.

Record LoggingSettings : Type := mkLogging {
  level : string;
  format : string;
  file_path : option string;
  max_file_size : string;
  backup_count : Z
}.

Record StorageSettings : Type := mkStorage {
  output_dir : string;
  temp_dir : string;
  image_dir : string;
  enable_caching : bool;
  cache_ttl : Z
}.

Record Settings : Type := mk {
  ai : AISettings;
  analysis : AnalysisSettings;
  logging : LoggingSettings;
  storage : StorageSettings
}.

Definition optional (s : option string) : pyval :=
  match s with Some v => PStr v | None => PNone end.

(** [self.ai.__dict__] and the like. *)
Definition ai_dict (s : AISettings) : pyval :=
  PDict (list_to_map
    [ ("provider", PStr (provider s)); ("model", PStr (model s));
      ("api_key", PStr (api_key s)); ("base_url", optional (base_url s));
      ("temperature", PFloat (temperature s)); ("max_tokens", PInt (max_tokens s));
      ("timeout", PInt (timeout s)); ("max_retries", PInt (max_retries s)) ]).

Definition analysis_dict (s : AnalysisSettings) : pyval :=
  PDict (list_to_map
    [ ("max_paper_length", PInt (max_paper_length s));
      ("prompt_version", PStr (prompt_version s));
      ("enable_function_calling", PBool (enable_function_calling s));
      ("confidence_threshold", PFloat (confidence_threshold s));
      ("field_mapping",
       PDict ((fun names => PList (map PStr names)) <$> field_mapping s)) ]).

Definition logging_dict (s : LoggingSettings) : pyval :=
  PDict (list_to_map
    [ ("level", PStr (level s)); ("format", PStr (format s));
      ("file_path", optional (file_path s));
      ("max_file_size", PStr (max_file_size s));
      ("backup_count", PInt (backup_count s)) ]).

Definition storage_dict (s : StorageSettings) : pyval :=
  PDict (list_to_map
    [ ("output_dir", PStr (output_dir s)); ("temp_dir", PStr (temp_dir s));
      ("image_dir", PStr (image_dir s)); ("enable_caching", PBool (enable_caching s));
      ("cache_ttl", PInt (cache_ttl s)) ]).

Definition to_dict (self : Settings) : gmap string pyval :=
  list_to_map
    [ ("ai", ai_dict (ai self)); ("analysis", analysis_dict (analysis self));
      ("logging", logging_dict (logging self));
      ("storage", storage_dict (storage self)) ].

End Settings.

Module DIContainer.

Inductive adapter_class : Type := OpenAIAdapter | DeepSeekAdapter.

(** [_create_ai_adapter]: both adapter classes hand [api_key] and
    [model] to [BaseAIAdapter.__init__]. *)
Definition _create_ai_adapter (ai_config : Settings.AISettings)
    : outcome (adapter_class * BaseAIAdapter.adapter) :=
  let adapter :=
    BaseAIAdapter.init (Settings.api_key ai_config) (Settings.model ai_config) in
  if String.eqb (lower (Settings.provider ai_config)) "openai"
  then Ok (OpenAIAdapter, adapter)
  else if String.eqb (lower (Settings.provider ai_config)) "deepseek"
  then Ok (DeepSeekAdapter, adapter)
  else Raise (Exn PaperAnalysisError
                ("Unsupported AI provider: " ++ Settings.provider ai_config)).

(** [_create_analysis_engine] builds the engine with
    [config=self.config.to_dict()]: the settings the engine reads. *)
Definition engine_config (config : Settings.Settings) : option AIAnalysisEngine.config :=
  AIAnalysisEngine.read_config (Settings.to_dict config).

End DIContainer.

(** ** A reference decoder for JSON texts

    [Json.loads] follows the standard library's decoder ([json.loads] with
    its default, strict settings) on texts of the character model: the
    JSON grammar plus the constants [NaN], [Infinity] and [-Infinity],
    numerals with a fraction or an exponent rounded to the nearest
    binary64 value, later duplicates of a key replacing earlier ones.
    A [\u] escape above code point 255 denotes a character outside the
    model and is reported as [OutsideModel]. The text of the message of
    a decode error, which carries a position, is not modelled, nor are
    the interpreter's limits on nesting depth and on the digits of an
    integer. The statements about the parser below hold for every
    decoder; this one instantiates them on concrete texts. *)

Module Json.

Inductive scan (A : Type) : Type :=
| Got (a : A) (rest : string)
| Malformed
| OutsideModel.
Arguments Got {A} a rest.
Arguments Malformed {A}.
Arguments OutsideModel {A}.

Definition is_ws (c : ascii) : bool :=
  let n := nat_of_ascii c in ((n =? 32) || (n =? 9) || (n =? 10) || (n =? 13))%nat.

Fixpoint skip_ws (s : string) : string :=
  match s with
  | String c s' => if is_ws c then skip_ws s' else s
  | EmptyString => EmptyString
  end.

Definition digit_of (c : ascii) : option Z :=
  let n := nat_of_ascii c in
  if ((48 <=? n) && (n <=? 57))%nat then Some (Z.of_nat n - 48)%Z else None.

Definition hex_of (c : ascii) : option nat :=
  let n := nat_of_ascii c in
  if ((48 <=? n) && (n <=? 57))%nat then Some (n - 48)%nat
  else if ((65 <=? n) && (n <=? 70))%nat then Some (n - 55)%nat
  else if ((97 <=? n) && (n <=? 102))%nat then Some (n - 87)%nat
  else None.

(** The digits at the head of [s]: their value on top of [acc], how many
    they are, and the rest. *)
Fixpoint digits (s : string) (acc : Z) (count : nat) : Z * nat * string :=
  match s with
  | String c s' =>
      match digit_of c with
      | Some d => digits s' (10 * acc + d)%Z (S count)
      | None => (acc, count, s)
      end
  | EmptyString => (acc, count, s)
  end.

(** The binary64 value nearest to [m * 10 ^ e], ties to even. For a
    negative exponent the quotient is cut after more than 53 significant
    bits and a sticky bit records whether anything was lost. *)
Definition float_of_decimal (negative : bool) (m e : Z) : float :=
  let magnitude :=
    if (m =? 0)%Z then 0%float
    else if (0 <=? e)%Z then
      SF2Prim (binary_normalize prec emax (m * 10 ^ e) 0 false)
    else
      let d := (10 ^ (- e))%Z in
      let s := Z.max 0 (Z.log2 d + 64 - Z.log2 m)%Z in
      let q := ((m * 2 ^ s) / d)%Z in
      let sticky := if ((m * 2 ^ s) mod d =? 0)%Z then 0%Z else 1%Z in
      SF2Prim (binary_normalize prec emax (2 * q + sticky) (- s - 1) false) in
  if negative then (- magnitude)%float else magnitude.

(** A numeral, after its optional minus sign has been read. *)
Definition number (negative : bool) (s : string) : scan pyval :=
  let '(int_part, n, rest) :=
    match s with
    | String "0" s' => (0%Z, 1%nat, s')
    | _ => digits s 0 0
    end in
  if (n =? 0)%nat then Malformed
  else
    let '(m, frac_len, rest1, has_frac) :=
      match rest with
      | String "." r =>
          let '(m, k, r') := digits r int_part 0 in
          if (k =? 0)%nat then (int_part, 0%nat, rest, false) else (m, k, r', true)
      | _ => (int_part, 0%nat, rest, false)
      end in
    let '(ex, rest2, has_exp) :=
      match rest1 with
      | String c r =>
          if (Ascii.eqb c "e" || Ascii.eqb c "E") then
            let '(neg_e, r0) :=
              match r with
              | String "-" r' => (true, r')
              | String "+" r' => (false, r')
              | _ => (false, r)
              end in
            let '(x, k, r') := digits r0 0 0 in
            if (k =? 0)%nat then (0%Z, rest1, false)
            else ((if neg_e then - x else x)%Z, r', true)
          else (0%Z, rest1, false)
      | EmptyString => (0%Z, rest1, false)
      end in
    if has_frac || has_exp
    then Got (PFloat (float_of_decimal negative m (ex - Z.of_nat frac_len))) rest2
    else Got (PInt (if negative then - int_part else int_part)%Z) rest2.

(** The characters of a string literal after its opening quote. *)
Fixpoint string_body (s : string) : scan string :=
  match s with
  | EmptyString => Malformed
  | String c s' =>
      if (nat_of_ascii c =? 34)%nat then Got EmptyString s'
      else if (nat_of_ascii c <? 32)%nat then Malformed
      else if (nat_of_ascii c =? 92)%nat then
        match s' with
        | String "u" (String h1 (String h2 (String h3 (String h4 s'')))) =>
            match hex_of h1, hex_of h2, hex_of h3, hex_of h4 with
            | Some a, Some b, Some c3, Some d =>
                if ((a =? 0) && (b =? 0))%nat then
                  match string_body s'' with
                  | Got r rest => Got (String (ascii_of_nat (16 * c3 + d)) r) rest
                  | other => other
                  end
                else OutsideModel
            | _, _, _, _ => Malformed
            end
        | String e s'' =>
            let esc (n : nat) :=
              match string_body s'' with
              | Got r rest => Got (String (ascii_of_nat n) r) rest
              | other => other
              end in
            if (nat_of_ascii e =? 34)%nat then esc 34%nat
            else if (nat_of_ascii e =? 92)%nat then esc 92%nat
            else if Ascii.eqb e "/" then esc 47%nat
            else if Ascii.eqb e "b" then esc 8%nat
            else if Ascii.eqb e "f" then esc 12%nat
            else if Ascii.eqb e "n" then esc 10%nat
            else if Ascii.eqb e "r" then esc 13%nat
            else if Ascii.eqb e "t" then esc 9%nat
            else Malformed
        | EmptyString => Malformed
        end
      else
        match string_body s' with
        | Got r rest => Got (String c r) rest
        | other => other
        end
  end.

Definition expect_prefix (word : string) (v : pyval) (s : string) : scan pyval :=
  if String.prefix word s
  then Got v (substring (String.length word) (String.length s - String.length word) s)
  else Malformed.

(** A value at the head of [s]; [members] and [elements] continue inside
    an object or an array, where the first key or element is about to be
    read. Every call is preceded by the consumption of a character, so a
    fuel above the length of the text is never used up. *)
Fixpoint value (fuel : nat) (s : string) : scan pyval :=
  match fuel with
  | O => Malformed
  | S fuel' =>
      match s with
      | String c s' =>
          if Ascii.eqb c "{" then
            match skip_ws s' with
            | String "}" rest => Got (PDict ∅) rest
            | body => members fuel' body ∅
            end
          else if Ascii.eqb c "[" then
            match skip_ws s' with
            | String "]" rest => Got (PList []) rest
            | body => elements fuel' body []
            end
          else if (nat_of_ascii c =? 34)%nat then
            match string_body s' with
            | Got str rest => Got (PStr str) rest
            | Malformed => Malformed
            | OutsideModel => OutsideModel
            end
          else if Ascii.eqb c "n" then expect_prefix "null" PNone s
          else if Ascii.eqb c "t" then expect_prefix "true" (PBool true) s
          else if Ascii.eqb c "f" then expect_prefix "false" (PBool false) s
          else if Ascii.eqb c "N" then expect_prefix "NaN" (PFloat nan) s
          else if Ascii.eqb c "I" then expect_prefix "Infinity" (PFloat infinity) s
          else if Ascii.eqb c "-" then
            if String.prefix "-Infinity" s
            then expect_prefix "-Infinity" (PFloat neg_infinity) s
            else number true s'
          else number false s
      | EmptyString => Malformed
      end
  end
with members (fuel : nat) (s : string) (acc : gmap string pyval) : scan pyval :=
  match fuel with
  | O => Malformed
  | S fuel' =>
      match s with
      | String q s' =>
          if (nat_of_ascii q =? 34)%nat then
            match string_body s' with
            | Got key rest =>
                match skip_ws rest with
                | String ":" rest1 =>
                    match value fuel' (skip_ws rest1) with
                    | Got v rest2 =>
                        match skip_ws rest2 with
                        | String "}" rest3 => Got (PDict (<[key := v]> acc)) rest3
                        | String "," rest3 =>
                            members fuel' (skip_ws rest3) (<[key := v]> acc)
                        | _ => Malformed
                        end
                    | other => other
                    end
                | _ => Malformed
                end
            | Malformed => Malformed
            | OutsideModel => OutsideModel
            end
          else Malformed
      | EmptyString => Malformed
      end
  end
with elements (fuel : nat) (s : string) (acc : list pyval) : scan pyval :=
  match fuel with
  | O => Malformed
  | S fuel' =>
      match value fuel' s with
      | Got v rest =>
          match skip_ws rest with
          | String "]" rest1 => Got (PList (acc ++ [v])) rest1
          | String "," rest1 => elements fuel' (skip_ws rest1) (acc ++ [v])
          | _ => Malformed
          end
      | other => other
      end
  end.

Definition decode_error : exn := Exn JSONDecodeError "Expecting value".

Definition loads (text : string) : outcome pyval :=
  match value (2 * String.length text + 2) (skip_ws text) with
  | Got v rest =>
      match skip_ws rest with
      | EmptyString => Ok v
      | _ => Raise (Exn JSONDecodeError "Extra data")
      end
  | Malformed => Raise decode_error
  | OutsideModel => Raise (Exn (OtherError "OutsideModel") "character above code point 255")
  end.

(** [repr] of the values [Json.loads] builds in the examples below, none
    of which is a float, a list or a dict inside a field. *)
Definition repr_unused (v : pyval) : string := "<" ++ type_name v ++ ">".

End Json.

(** ** The orchestrator and the base engine (core/analyzer.py) *)

Module AnalysisOrchestrator.

Section Orchestrator.

(** The world the engines act on; an engine call threads it. *)
Variable W : Type.

Definition engine : Type :=
  Paper.Paper -> W -> outcome PaperAnalysis.PaperAnalysis * W.

Variable primary_engine : engine.
Variable fallback_engine : option engine.

Definition fallback_note (primary_error : exn) (raw : option string) : string :=
  "FALLBACK ANALYSIS (Primary failed: " ++ exn_msg primary_error ++ ")" ++
  String nl (String nl (default EmptyString raw)).

Definition analyze_paper (paper : Paper.Paper)
    : W -> outcome PaperAnalysis.PaperAnalysis * W :=
  fun w =>
    match primary_engine paper w with
    | (Ok result, w1) => (Ok result, w1)
    | (Raise primary_error, w1) =>
        match fallback_engine with
        | Some fallback =>
            match fallback paper w1 with
            | (Ok fallback_result, w2) =>
                (Ok (PaperAnalysis.set_raw_response
                       (Some (fallback_note primary_error
                                (PaperAnalysis.raw_response fallback_result)))
                       fallback_result), w2)
            | (Raise fallback_error, w2) =>
                (Ok (PaperAnalysis.failed EmptyString (Paper.id paper)
                       "Analysis Failed"
                       ("Primary: " ++ exn_msg primary_error ++ ", Fallback: " ++
                        exn_msg fallback_error)), w2)
            end
        | None =>
            (Ok (PaperAnalysis.failed EmptyString (Paper.id paper)
                   "Analysis Failed" (exn_msg primary_error)), w1)
        end
    end.

End Orchestrator.

Section Batch.

(** The outcome of the task [self.analyze_paper(paper)]. *)
Variable analyze_paper : Paper.Paper -> outcome PaperAnalysis.PaperAnalysis.

(** [await asyncio.gather( *tasks )], without [return_exceptions]: the
    results in the order of the tasks when every task returns, else the
    exception of the task that raised first. Which task that is depends
    on the schedule; the tasks are taken here to raise in the order of
    the list. *)
Fixpoint gather (results : list (outcome PaperAnalysis.PaperAnalysis))
    : outcome (list PaperAnalysis.PaperAnalysis) :=
  match results with
  | [] => Ok []
  | Raise e :: _ => Raise e
  | Ok a :: rest =>
      match gather rest with
      | Ok l => Ok (a :: l)
      | Raise e => Raise e
      end
  end.

Definition batch_analyze (papers : list Paper.Paper)
    : outcome (list PaperAnalysis.PaperAnalysis) :=
  let tasks := map analyze_paper papers in
  gather tasks.

End Batch.

End AnalysisOrchestrator.

Module BaseAnalysisEngine.

Section Batch.

(** The outcome of the task [self.analyze_paper(paper)];
    [asyncio.gather] with [return_exceptions=True] lists the outcomes in
    the order of the tasks. *)
Variable analyze_paper : Paper.Paper -> outcome PaperAnalysis.PaperAnalysis.

Definition gather (papers : list Paper.Paper)
    : list (outcome PaperAnalysis.PaperAnalysis) :=
  map analyze_paper papers.

(** The loop over [zip(papers, results)]. In the branch of an exception
    the failed analysis is built and bound to [analysis]; nothing is
    appended. *)
Fixpoint process_results
    (pairs : list (Paper.Paper * outcome PaperAnalysis.PaperAnalysis))
    (processed_results : list PaperAnalysis.PaperAnalysis)
    : list PaperAnalysis.PaperAnalysis :=
  match pairs with
  | [] => processed_results
  | (paper, Raise e) :: rest =>
      let analysis :=
        PaperAnalysis.failed EmptyString (Paper.id paper) "Analysis Failed"
          (exn_msg e) in
      process_results rest processed_results
  | (paper, Ok result) :: rest =>
      process_results rest (processed_results ++ [result])
  end.

Definition batch_analyze (papers : list Paper.Paper)
    : list PaperAnalysis.PaperAnalysis :=
  process_results (combine papers (gather papers)) [].

End Batch.

End BaseAnalysisEngine.

(** ** The parser registry (adapters/parsers/registry.py) *)

Module ParserRegistry.

(** A parser, as far as the registry looks at it: its class and the
    extensions it lists. *)
Record parser : Type := Parser {
  class_name : string;
  supported_extensions : list string
}.

Definition PDFParser : parser := Parser "PDFParser" [".pdf"].
Definition TextParser : parser := Parser "TextParser" [".txt"; ".md"; ".markdown"].

Record registry : Type := Registry {
  parsers : list parser;
  _extension_map : gmap string parser
}.

Definition init : registry := Registry [] ∅.

Definition register_parser (self : registry) (p : parser) : registry :=
  Registry (parsers self ++ [p])
           (fold_left (fun map ext => <[lower ext := p]> map)
                      (supported_extensions p) (_extension_map self)).

(** [_create_parser_registry] of infrastructure/container.py. *)
Definition _create_parser_registry : registry :=
  register_parser (register_parser init PDFParser) TextParser.

Section Files.

(** [Path(file_path).suffix] *)
Variable path_suffix : string -> string.

Definition get_parser (self : registry) (file_path : string) : option parser :=
  _extension_map self !! lower (path_suffix file_path).

Definition can_parse (self : registry) (file_path : string) : bool :=
  match get_parser self file_path with Some _ => true | None => false end.

Variable W : Type.
(** [parser.validate_file(file_path)] and [await parser.parse(file_path)]. *)
Variable validate_file : parser -> string -> W -> bool.
Variable parse : parser -> string -> W -> outcome Paper.Paper * W.

Definition parse_file (self : registry) (file_path : string)
    : W -> outcome Paper.Paper * W :=
  fun w =>
    match get_parser self file_path with
    | None =>
        (Raise (Exn PaperAnalysisError ("No parser found for file: " ++ file_path)), w)
    | Some parser =>
        if negb (validate_file parser file_path w) then
          (Raise (Exn PaperAnalysisError
                    ("File not found or not readable: " ++ file_path)), w)
        else
          match parse parser file_path w with
          | (Ok paper, w1) => (Ok paper, w1)
          | (Raise e, w1) =>
              (Raise (Exn PaperAnalysisError
                        ("Failed to parse file " ++ file_path ++ ": " ++ exn_msg e)), w1)
          end
    end.

End Files.

End ParserRegistry.

(** ** The batch coordinator (interfaces/cli/commands.py) *)

Module AnalysisCommands.

Section BatchAnalyze.

(** [Path(file).name] *)
Variable path_name : string -> string.

(** The loop over [enumerate(results)], from index [i] on. *)
Fixpoint collect (paper_files : list string) (i : nat)
    (results : list (outcome PaperAnalysis.PaperAnalysis))
    (analyses : list PaperAnalysis.PaperAnalysis)
    : outcome (list PaperAnalysis.PaperAnalysis) :=
  match results with
  | [] => Ok analyses
  | Raise e :: rest =>
      match paper_files !! i with
      | Some file =>
          let failed_analysis :=
            PaperAnalysis.failed ("failed_" ++ pretty i) file
              ("Failed: " ++ path_name file) (exn_msg e) in
          collect paper_files (S i) rest (analyses ++ [failed_analysis])
      | None => Raise (Exn (OtherError "IndexError") "list index out of range")
      end
  | Ok result :: rest => collect paper_files (S i) rest (analyses ++ [result])
  end.

End BatchAnalyze.

Section SinglePaper.

(** The world the awaited calls act on: the file system and the
    provider. *)
Variable W : Type.
(** [self.parser_registry.parse_file(file_path, extract_images=..)] *)
Variable parse_file : string -> W -> outcome Paper.Paper * W.
(** [self.orchestrator.analyze_paper(paper)] *)
Variable orchestrator_analyze_paper :
  Paper.Paper -> W -> outcome PaperAnalysis.PaperAnalysis * W.
(** [output_file.parent.mkdir(parents=True, exist_ok=True)] *)
Variable mkdir_parent : string -> W -> outcome unit * W.
(** [open(output_file, 'w')] and [json.dump] of the dictionary built
    from the analysis. *)
Variable dump : string -> PaperAnalysis.PaperAnalysis -> W -> outcome unit * W.
(** [str(Path(output_dir) / f"{Path(file_path).stem}_analysis.json")] *)
Variable analysis_file : string -> string -> string.

Definition _parse_paper (file_path : string) : W -> outcome Paper.Paper * W :=
  fun w =>
    match parse_file file_path w with
    | (Ok paper, w1) => (Ok paper, w1)
    | (Raise e, w1) =>
        (Raise (Exn PaperAnalysisError ("Failed to parse paper: " ++ exn_msg e)), w1)
    end.

(** The attributes the dictionary display of [_save_analysis] reads off
    the analysis, in the order of evaluation. *)
Definition saved_attributes : list string :=
  [ "id"; "paper_id"; "title"; "summary"; "problem"; "solution"; "limitations";
    "key_contributions"; "research_significance"; "status"; "model_used";
    "prompt_version"; "created_at"; "updated_at"; "error_message"; "metrics";
    "metrics"; "metrics"; "get_quality_score" ].

Fixpoint read_attributes (names : list string) : outcome unit :=
  match names with
  | [] => Ok tt
  | name :: rest =>
      let* _ := PaperAnalysis.read_attribute name in
      read_attributes rest
  end.

Definition _save_analysis (analysis : PaperAnalysis.PaperAnalysis)
    (output_path : string) : W -> outcome unit * W :=
  fun w =>
    let failed (e : exn) : outcome unit :=
      Raise (Exn PaperAnalysisError ("Failed to save analysis: " ++ exn_msg e)) in
    match mkdir_parent output_path w with
    | (Raise e, w1) => (failed e, w1)
    | (Ok _, w1) =>
        match read_attributes saved_attributes with
        | Raise e => (failed e, w1)
        | Ok _ =>
            match dump output_path analysis w1 with
            | (Raise e, w2) => (failed e, w2)
            | (Ok _, w2) => (Ok tt, w2)
            end
        end
    end.

(** [if output_path:] *)
Definition given (output_path : option string) : option string :=
  match output_path with
  | Some p => if String.eqb p EmptyString then None else Some p
  | None => None
  end.

(** Parse, analyse and save: the three awaited steps that
    [analyze_paper] and [_analyze_single_paper_with_semaphore] share. *)
Definition parse_analyze_save (file_path : string) (output_path : option string)
    : W -> outcome PaperAnalysis.PaperAnalysis * W :=
  fun w =>
    match _parse_paper file_path w with
    | (Raise e, w1) => (Raise e, w1)
    | (Ok paper, w1) =>
        match orchestrator_analyze_paper paper w1 with
        | (Raise e, w2) => (Raise e, w2)
        | (Ok analysis, w2) =>
            match given output_path with
            | Some p =>
                match _save_analysis analysis p w2 with
                | (Raise e, w3) => (Raise e, w3)
                | (Ok _, w3) => (Ok analysis, w3)
                end
            | None => (Ok analysis, w2)
            end
        end
    end.

(** [analyze_paper] of the command line; the runtime options it copies
    into the configuration first are left out. *)
Definition analyze_paper (input_path : string) (output_path : option string)
    : W -> outcome PaperAnalysis.PaperAnalysis * W :=
  fun w =>
    match parse_analyze_save input_path output_path w with
    | (Ok analysis, w1) => (Ok analysis, w1)
    | (Raise e, w1) =>
        (Raise (Exn PaperAnalysisError ("Failed to analyze paper: " ++ exn_msg e)), w1)
    end.

(** The body of [_analyze_single_paper_with_semaphore] inside
    [async with semaphore]; [except Exception: raise] hands the
    exception on as it is. *)
Definition _analyze_single_paper_with_semaphore (file_path : string)
    (output_dir : option string) : W -> outcome PaperAnalysis.PaperAnalysis * W :=
  fun w =>
    let output_path :=
      match given output_dir with
      | Some dir => Some (analysis_file dir file_path)
      | None => None
      end in
    parse_analyze_save file_path output_path w.

Definition test_paper : Paper.Paper :=
  Paper.new "test_connection" "test.txt"
    "This is a test paper for connection verification.".

Definition test_connection : W -> bool * W :=
  fun w =>
    match orchestrator_analyze_paper test_paper w with
    | (Ok analysis, w1) =>
        (match PaperAnalysis.status analysis with COMPLETED => true | _ => false end, w1)
    | (Raise _, w1) => (false, w1)
    end.

End SinglePaper.

(** What awaiting a coroutine comes to: it returns or raises, or it is
    never resumed. *)
Inductive awaited (A : Type) : Type :=
| Completed (o : outcome A)
| NeverCompletes.
Arguments Completed {A} o.
Arguments NeverCompletes {A}.

(** [asyncio.Semaphore(value)]: a negative initial value is refused. *)
Definition Semaphore (value : Z) : outcome Z :=
  if (value <? 0)%Z
  then Raise (Exn ValueError "Semaphore initial value must be >= 0")
  else Ok value.

(** [await asyncio.gather( *tasks, return_exceptions=True)] over tasks
    whose whole body runs inside [async with semaphore]: the outcomes of
    the tasks in the order of the tasks. A task can only start once it
    has acquired the semaphore; on a semaphore whose value is 0 no task
    ever does, nothing is ever released, and the call is never resumed
    ([None]). The gate below spells the steps out. *)
Definition gather {A : Type} (semaphore : Z) (tasks : list (outcome A))
    : option (list (outcome A)) :=
  match tasks with
  | [] => Some []
  | _ :: _ => if (0 <? semaphore)%Z then Some tasks else None
  end.

Section Batch.

(** The outcome of the task [_analyze_single_paper_with_semaphore] for a
    file and the output directory once it is inside the semaphore,
    [Path(file).name], the outcome of [await
    self._find_paper_files(input_dir)] and the outcome of
    [Path(output_dir).mkdir(parents=True, exist_ok=True)]. *)
Variable run_task : string -> option string -> outcome PaperAnalysis.PaperAnalysis.
Variable path_name : string -> string.
Variable _find_paper_files : string -> outcome (list string).
Variable mkdir_output : string -> outcome unit.

(** [batch_analyze_papers]; the runtime options it copies into the
    configuration first are left out. Everything from the listing of
    the files to the loop over the results stands inside the [try]. *)
Definition batch_analyze_papers (input_dir : string) (output_dir : option string)
    (concurrent : Z) : awaited (list PaperAnalysis.PaperAnalysis) :=
  let except_Exception (body : outcome (list PaperAnalysis.PaperAnalysis)) :=
    try_except body any_Exception
      (fun e => Raise (Exn PaperAnalysisError ("Batch analysis failed: " ++ exn_msg e))) in
  let before_gather :=
    let* paper_files := _find_paper_files input_dir in
    let* _ := match paper_files with
              | [] => Raise (Exn PaperAnalysisError
                               ("No paper files found in " ++ input_dir))
              | _ => Ok tt
              end in
    let* _ := match given output_dir with
              | Some dir => mkdir_output dir
              | None => Ok tt
              end in
    let* semaphore := Semaphore concurrent in
    Ok (paper_files, semaphore) in
  match before_gather with
  | Raise e => Completed (except_Exception (Raise e))
  | Ok (paper_files, semaphore) =>
      let tasks := map (fun file_path => run_task file_path output_dir) paper_files in
      match gather semaphore tasks with
      | None => NeverCompletes
      | Some results =>
          Completed (except_Exception (collect path_name paper_files 0 results []))
      end
  end.

End Batch.

(** The suffixes [_find_paper_files] keeps:
    [file_path.suffix.lower() in supported_extensions]. *)
Definition supported_extensions : list string := [".pdf"; ".txt"; ".md"; ".markdown"].

Definition is_paper_suffix (suffix : string) : bool :=
  existsb (String.eqb (lower suffix)) supported_extensions.

(** *** The admission gate

    [semaphore = asyncio.Semaphore(concurrent)] and one task per file whose
    whole body, the orchestrator invocation included, runs inside
    [async with semaphore]. A task is queued until it acquires the
    semaphore, running while it holds it and finished once it has released
    it; acquiring needs a positive counter and decrements it, leaving the
    block (normally or by the re-raised exception) increments it. The
    event loop interleaves these steps in any order. *)

Inductive phase : Type := Queued | Running | Finished.

Record gate : Type := Gate {
  value : nat;
  tasks : list phase
}.

Definition start (concurrent : nat) (files : nat) : gate :=
  Gate concurrent (repeat Queued files).

Definition is_running (p : phase) : bool :=
  match p with Running => true | _ => false end.

Fixpoint count_running (ps : list phase) : nat :=
  match ps with
  | [] => 0
  | p :: ps' => (if is_running p then 1 else 0) + count_running ps'
  end.

(** The number of tasks inside [async with semaphore]. *)
Definition in_flight (g : gate) : nat := count_running (tasks g).

Inductive step : gate -> gate -> Prop :=
| step_acquire (g : gate) (i : nat) :
    tasks g !! i = Some Queued ->
    0 < value g ->
    step g (Gate (value g - 1) (<[i := Running]> (tasks g)))
| step_release (g : gate) (i : nat) :
    tasks g !! i = Some Running ->
    step g (Gate (value g + 1) (<[i := Finished]> (tasks g))).

Inductive reachable (concurrent files : nat) : gate -> Prop :=
| reachable_start : reachable concurrent files (start concurrent files)
| reachable_step (g g' : gate) :
    reachable concurrent files g -> step g g' -> reachable concurrent files g'.

End AnalysisCommands.

(** * Specification vocabulary *)

(** The mapping [m] holds a string under [field]. *)
Definition is_text (m : gmap string pyval) (field : string) : Prop :=
  ∃ s, m !! field = Some (PStr s).

(** The mapping [m] holds a non-empty string under [field]. *)
Definition nonempty_text (m : gmap string pyval) (field : string) : Prop :=
  ∃ s, m !! field = Some (PStr s) ∧ s ≠ EmptyString.


(** The first present, truthy value among the alias keys, as a string;
    [PNone] when there is none. *)
Fixpoint alias_value (py_repr : pyval -> string) (d : gmap string pyval)
    (aliases : list string) : pyval :=
  match aliases with
  | [] => PNone
  | a :: rest =>
      match d !! a with
      | Some v => if truthy v then PStr (py_str py_repr v)
                  else alias_value py_repr d rest
      | None => alias_value py_repr d rest
      end
  end.

Definition aliases_of (field : string) : list string :=
  default [field] (AIAnalysisEngine.field_mapping !! field).

Definition is_str (v : pyval) : bool :=
  match v with PStr _ => true | _ => false end.

(** The title of [d] can be settled without slicing a summary that is
    not a string: an alias gives a non-empty title, or the entry
    ["summary"] is absent, falsy, or a string. *)
Definition title_settles (py_repr : pyval -> string) (d : gmap string pyval) : bool :=
  truthy (alias_value py_repr d (aliases_of "title")) ||
  match d !! "summary" with
  | Some v => negb (truthy v) || is_str v
  | None => true
  end.

(** Strict decoding of [text] is rejected with [JSONDecodeError]. *)
Definition decode_fails (json_loads : string -> outcome pyval) (text : string) : Prop :=
  ∃ e, json_loads text = Raise e ∧ is_JSONDecodeError e = true.

(** The fields whose fallback is a fixed or composed sentence. *)
Definition sentence_fields : list string :=
  ["summary"; "problem"; "solution"; "limitations"; "key_contributions";
   "research_significance"].

(** The claimed title of a degraded result: the first line that is not
    empty once stripped, cut to 100 characters. *)
Definition first_nonempty_line (text : string) : string :=
  match filter (fun l => l ≠ EmptyString) (map strip (split_lines text)) with
  | l :: _ => l
  | [] => EmptyString
  end.

Definition claimed_title (text : string) : string :=
  str_take 100 (first_nonempty_line text).

(** The first element of [text.split('\n')]. *)
Definition first_line (text : string) : string :=
  match split_lines text with
  | l :: _ => l
  | [] => EmptyString
  end.

(** [n] times the character [c]. *)
Fixpoint replicate_char (n : nat) (c : ascii) : string :=
  match n with
  | O => EmptyString
  | S n' => String c (replicate_char n' c)
  end.

Fixpoint no_newline (s : string) : bool :=
  match s with
  | EmptyString => true
  | String c s' => negb (Ascii.eqb c nl) && no_newline s'
  end.

(** The values of a mapping the parser returns: strings, or [None]. *)
Definition values_are_text (m : gmap string pyval) : Prop :=
  ∀ k v, m !! k = Some v → v = PNone ∨ ∃ s, v = PStr s.

(** [field] is present in [m] with a string longer than 20 characters. *)
Definition long_text (m : gmap string pyval) (field : string) : bool :=
  match m !! field with
  | Some (PStr s) => (20 <? String.length s)%nat
  | _ => false
  end.

(** [research_significance] is present and not empty. *)
Definition significance_present (m : gmap string pyval) : bool :=
  match m !! "research_significance" with
  | Some (PStr s) => negb (String.eqb s EmptyString)
  | _ => false
  end.

(** The sum of a list of weights, accumulated from the left. *)
Definition weight_sum (ws : list float) : float := fold_left PrimFloat.add ws 0%float.

Definition field_weights : list (string * float) :=
  [ ("title", 0.15); ("summary", 0.25); ("problem", 0.15); ("solution", 0.2);
    ("limitations", 0.1); ("key_contributions", 0.15) ]%float.

Definition bonus (m : gmap string pyval) : list float :=
  if significance_present m then [0.1%float] else [].

(** The weights earned: those of the long fields, plus the bonus. *)
Definition earned_weight (m : gmap string pyval) : float :=
  weight_sum (map snd (filter (fun fw => long_text m (fst fw) = true) field_weights)
              ++ bonus m).

(** The weights offered: those of the six fields, plus the bonus. *)
Definition offered_weight (m : gmap string pyval) : float :=
  weight_sum (map snd field_weights ++ bonus m).

Definition claimed_confidence (m : gmap string pyval) : float :=
  (earned_weight m / offered_weight m)%float.

(** What [with_retry] has done before its attempt number [i], counted
    from 0: [i] invocations, each followed by a sleep of [2 ^ attempt]
    seconds. *)
Definition history_before (i : nat) : list BaseAIAdapter.event :=
  flat_map (fun attempt => [BaseAIAdapter.Invoked;
                            BaseAIAdapter.Slept (2 ^ Z.of_nat attempt)])
           (seq 0 i).

(** A provider that cannot be reached: every call raises. *)
Definition unreachable_provider (_ : DeepSeekAdapter.request)
    (_ : list BaseAIAdapter.event) : outcome (list DeepSeekAdapter.message) :=
  Raise (Exn (OtherError "APIConnectionError") "unreachable").

(** The entry of the returned list for the file at index [i]: the result
    of its task, or the failed analysis built from its error. *)
Definition batch_entry (run_task : string -> outcome PaperAnalysis.PaperAnalysis)
    (path_name : string -> string) (i : nat) (file : string)
    : PaperAnalysis.PaperAnalysis :=
  match run_task file with
  | Ok result => result
  | Raise e =>
      PaperAnalysis.failed ("failed_" ++ pretty i) file
        ("Failed: " ++ path_name file) (exn_msg e)
  end.

(** The result of an engine call that returned. *)
Definition returned (o : outcome PaperAnalysis.PaperAnalysis)
    : option PaperAnalysis.PaperAnalysis :=
  match o with Ok r => Some r | Raise _ => None end.

Definition sample_paper (id : string) : Paper.Paper :=
  Paper.mk id (id ++ ".txt") "We study kernels on graphs." None.

Definition sample_analysis (paper : Paper.Paper) : PaperAnalysis.PaperAnalysis :=
  PaperAnalysis.mk EmptyString (Paper.id paper) (PStr "Kernels on graphs")
    (PStr "A study.") (PStr "Comparison.") (PStr "A kernel.") (PStr "Small data.")
    (PStr "A benchmark.") PNone COMPLETED (Some "{}") None "EN_2_0" "gpt-4o" 7 1%float.

(** An engine that raises on the paper ["p3"] and returns otherwise. *)
Definition fails_on_p3 (paper : Paper.Paper) : outcome PaperAnalysis.PaperAnalysis :=
  if String.eqb (Paper.id paper) "p3"
  then Raise (Exn AIServiceError "rate limit exceeded")
  else Ok (sample_analysis paper).

Definition five_papers : list Paper.Paper :=
  map sample_paper ["p1"; "p2"; "p3"; "p4"; "p5"].

(** The tasks of five files, the third of which fails. *)
Definition five_files : list string :=
  ["p1.txt"; "p2.txt"; "p3.txt"; "p4.txt"; "p5.txt"].

Definition task_fails_on_p3 (file : string) : outcome PaperAnalysis.PaperAnalysis :=
  if String.eqb file "p3.txt"
  then Raise (Exn PaperAnalysisError "Failed to parse paper: unreadable")
  else Ok (sample_analysis (sample_paper file)).

(** An adapter whose calls fail, over a world that counts the calls. *)
Definition failing_adapter : AIAnalysisEngine.ai_adapter nat :=
  AIAnalysisEngine.AIAdapter nat "deepseek-chat"
    (fun _ calls => (Raise (Exn AIServiceError "DeepSeek API error: timeout"), S calls))
    (fun _ _ calls =>
       (Raise (Exn AIServiceError "Failed to generate structured response: timeout"),
        S calls)).

(** A fallback engine that would return, and count its call. *)
Definition counting_fallback (paper : Paper.Paper) (calls : nat)
    : outcome PaperAnalysis.PaperAnalysis * nat :=
  (Ok (sample_analysis paper), S calls).

Definition default_config : AIAnalysisEngine.config :=
  AIAnalysisEngine.Config "EN_2_0" 128000 true.

(** An analysis with every field long and a significance. *)
Definition complete_analysis : gmap string pyval :=
  <["title" := PStr "Graph kernels for molecular property prediction"]>
  (<["summary" := PStr "The paper compares graph kernels on molecule data."]>
  (<["problem" := PStr "Molecular graphs lack a natural vector form."]>
  (<["solution" := PStr "A kernel on labelled subtrees of bounded depth."]>
  (<["limitations" := PStr "The kernel ignores three-dimensional shape."]>
  (<["key_contributions" := PStr "A linear-time kernel and a benchmark suite."]>
  (<["research_significance" := PStr "Faster screening of drug candidates."]> ∅)))))).

(** [0 <= x <= 1] on floats. *)
Definition in_unit_interval (x : float) : Prop :=
  PrimFloat.leb 0 x = true ∧ PrimFloat.leb x 1 = true.

(** The JSON text of an object whose only entry is a numeric summary. *)
Definition numeric_summary_text : string :=
  "{" ++ dquote ++ "summary" ++ dquote ++ ": 5}".

(** What the fallback rule of a field yields on a dict whose summary, if
    any, can be sliced. *)
Definition fallback_value (py_repr : pyval -> string) (d : gmap string pyval)
    (field : string) : pyval :=
  if String.eqb field "title" then
    match d !! "summary" with
    | Some (PStr s) =>
        if String.eqb s EmptyString then PNone else PStr (str_take 100 s ++ "...")
    | _ => PNone
    end
  else if String.eqb field "summary" then
    PStr ("This paper addresses " ++
          py_str py_repr (default (PStr "a research challenge") (d !! "problem")) ++
          " using " ++
          py_str py_repr (default (PStr "a novel approach") (d !! "solution")) ++ ".")
  else if String.eqb field "problem" then PStr "Research problem not explicitly stated."
  else if String.eqb field "solution" then PStr "Solution approach not explicitly described."
  else if String.eqb field "limitations" then PStr "Limitations not explicitly discussed."
  else if String.eqb field "key_contributions" then PStr "Contributions not explicitly summarized."
  else if String.eqb field "research_significance" then
    PStr "Research significance not explicitly stated."
  else PNone.

(** The value field resolution is claimed to store: the first alias value
    when there is one, otherwise the fallback, the empty string standing
    for no value at all. *)
Definition resolved_value (py_repr : pyval -> string) (d : gmap string pyval)
    (field : string) : pyval :=
  let a := alias_value py_repr d (aliases_of field) in
  if truthy a then a
  else let v := fallback_value py_repr d field in
       if truthy v then v else PStr EmptyString.

(** The value a returned mapping holds under [field]. *)
Definition field_of (o : outcome (gmap string pyval)) (field : string) : option pyval :=
  match o with
  | Ok m => m !! field
  | Raise _ => None
  end.

Definition is_dict (v : pyval) : bool :=
  match v with PDict _ => true | _ => false end.




(** The number of invocations of the provider in a history, and the
    seconds slept in it. *)
Fixpoint invocations (h : list BaseAIAdapter.event) : nat :=
  match h with
  | [] => 0
  | BaseAIAdapter.Invoked :: h' => S (invocations h')
  | BaseAIAdapter.Slept _ :: h' => invocations h'
  end.

Fixpoint total_slept (h : list BaseAIAdapter.event) : Z :=
  match h with
  | [] => 0
  | BaseAIAdapter.Invoked :: h' => total_slept h'
  | BaseAIAdapter.Slept seconds :: h' => seconds + total_slept h'
  end.

(** [c in s] for a character [c]. *)
Fixpoint has_char (c : ascii) (s : string) : bool :=
  match s with
  | EmptyString => false
  | String c' s' => Ascii.eqb c' c || has_char c s'
  end.

Definition backslash : string := String (ascii_of_nat 92) EmptyString.

(** Two analyses that agree on every field but the raw response. *)
Definition same_but_raw_response (a b : PaperAnalysis.PaperAnalysis) : Prop :=
  PaperAnalysis.id a = PaperAnalysis.id b ∧
  PaperAnalysis.paper_id a = PaperAnalysis.paper_id b ∧
  PaperAnalysis.title a = PaperAnalysis.title b ∧
  PaperAnalysis.summary a = PaperAnalysis.summary b ∧
  PaperAnalysis.problem a = PaperAnalysis.problem b ∧
  PaperAnalysis.solution a = PaperAnalysis.solution b ∧
  PaperAnalysis.limitations a = PaperAnalysis.limitations b ∧
  PaperAnalysis.key_contributions a = PaperAnalysis.key_contributions b ∧
  PaperAnalysis.research_significance a = PaperAnalysis.research_significance b ∧
  PaperAnalysis.status a = PaperAnalysis.status b ∧
  PaperAnalysis.error_message a = PaperAnalysis.error_message b ∧
  PaperAnalysis.prompt_version a = PaperAnalysis.prompt_version b ∧
  PaperAnalysis.model_used a = PaperAnalysis.model_used b ∧
  PaperAnalysis.token_count a = PaperAnalysis.token_count b ∧
  PaperAnalysis.confidence_score a = PaperAnalysis.confidence_score b.

(** [json.loads] on an interpreter that gives up at the nesting depth
    [limit]: a text that opens with more than [limit] brackets raises
    [RecursionError], which is not a [JSONDecodeError]. Other texts are
    decoded by the reference decoder. *)
Fixpoint leading_brackets (s : string) : nat :=
  match s with
  | String "[" s' => S (leading_brackets s')
  | _ => 0
  end.

Definition recursion_error : exn :=
  Exn (OtherError "RecursionError")
    "maximum recursion depth exceeded while decoding a JSON array from a unicode string".

Definition loads_with_limit (limit : nat) (text : string) : outcome pyval :=
  if (limit <? leading_brackets text)%nat then Raise recursion_error
  else Json.loads text.

(** ["[" * n] *)
Fixpoint brackets (n : nat) : string :=
  match n with
  | O => EmptyString
  | S n' => String "[" (brackets n')
  end.

(** The arguments of a function call, a JSON text, and the text
    [json.dumps] renders for the call. *)
Definition sample_arguments : string :=
  "{" ++ dquote ++ "title" ++ dquote ++ ": " ++ dquote ++ "Graph kernels" ++ dquote ++ "}".

Definition sample_call_text : string :=
  "{" ++ dquote ++ "name" ++ dquote ++ ": " ++ dquote ++ "analyze_paper" ++ dquote ++ ", " ++
  dquote ++ "arguments" ++ dquote ++ ": " ++ dquote ++
  "{" ++ backslash ++ dquote ++ "title" ++ backslash ++ dquote ++ ": " ++
  backslash ++ dquote ++ "Graph kernels" ++ backslash ++ dquote ++ "}" ++ dquote ++ "}".

Definition calling_provider (_ : DeepSeekAdapter.request)
    (_ : list BaseAIAdapter.event) : outcome (list DeepSeekAdapter.message) :=
  Ok [DeepSeekAdapter.Message (Some ("analyze_paper", sample_arguments)) None].

Definition short_key_adapter : BaseAIAdapter.adapter :=
  BaseAIAdapter.init "sk-12" "deepseek-chat".

Definition sample_adapter : BaseAIAdapter.adapter :=
  BaseAIAdapter.init "sk-0123456789" "deepseek-chat".

(** The score as a function of the six field flags and the significance
    flag. *)
Definition score_of_flags (flags : list bool) (significance : bool) : float :=
  let '(score, total_weight) :=
    fold_left (fun (acc : float * float) (fw : bool * float) =>
                 let '(score, total_weight) := acc in
                 ((if fst fw then score + snd fw else score)%float,
                  (total_weight + snd fw)%float))
              (combine flags AIAnalysisEngine.score_weights) (0, 0)%float in
  let '(score, total_weight) :=
    if significance then ((score + 0.1)%float, (total_weight + 0.1)%float)
    else (score, total_weight) in
  if PrimFloat.ltb 0 total_weight then (score / total_weight)%float else 0%float.

(** Every list of [n] flags. *)
Fixpoint all_flags (n : nat) : list (list bool) :=
  match n with
  | O => [[]]
  | S n' => flat_map (fun l => [true :: l; false :: l]) (all_flags n')
  end.

(** [a] implies [b], flag by flag. *)
Definition flags_le (a b : list bool) : bool :=
  forallb (fun p => implb (fst p) (snd p)) (combine a b).

Definition score_monotone_on_flags : bool :=
  forallb (fun a => forallb (fun b =>
    forallb (fun s => forallb (fun s' =>
      implb (flags_le a b && implb s s')
            (PrimFloat.leb (score_of_flags a s) (score_of_flags b s')))
      [true; false]) [true; false]) (all_flags 6)) (all_flags 6).

(** The normalisation of the empty object. *)
Definition normalized_empty_object : gmap string pyval :=
  match AIAnalysisEngine._normalize_analysis_result Json.repr_unused (PDict ∅) "EN" with
  | Ok m => m
  | Raise _ => ∅
  end.

(** A parser that reads every file as the sample paper, and an
    orchestrator that returns the sample analysis and counts its calls. *)
Definition sample_parse_file (file_path : string) (w : nat)
    : outcome Paper.Paper * nat :=
  (Ok (sample_paper file_path), w).

Definition sample_orchestrator (paper : Paper.Paper) (calls : nat)
    : outcome PaperAnalysis.PaperAnalysis * nat :=
  (Ok (sample_analysis paper), S calls).

Definition sample_mkdir (_ : string) (w : nat) : outcome unit * nat := (Ok tt, w).

Definition sample_dump (_ : string) (_ : PaperAnalysis.PaperAnalysis) (w : nat)
    : outcome unit * nat := (Ok tt, w).

Definition sample_analysis_file (output_dir file_path : string) : string :=
  output_dir ++ "/" ++ file_path ++ "_analysis.json".

(** The message of the [AttributeError] of [analysis.created_at]. *)
Definition missing_created_at : string :=
  "'PaperAnalysis' object has no attribute 'created_at'".

(** The engine's adapter as infrastructure/container.py wires it: a
    DeepSeek adapter over the history of provider events. *)
Definition deepseek_adapter
    (create : DeepSeekAdapter.request -> list BaseAIAdapter.event ->
              outcome (list DeepSeekAdapter.message))
    (json_dumps json_dumps_indent : pyval -> outcome string)
    (json_loads : string -> outcome pyval) (self : BaseAIAdapter.adapter)
    : AIAnalysisEngine.ai_adapter (list BaseAIAdapter.event) :=
  AIAnalysisEngine.AIAdapter (list BaseAIAdapter.event) (BaseAIAdapter.model self)
    (fun prompt => DeepSeekAdapter.generate_response create json_dumps self prompt None)
    (DeepSeekAdapter.generate_structured_response create json_dumps json_dumps_indent
       json_loads self).

(** Every character is one that [strip] removes. *)
Fixpoint all_space (s : string) : bool :=
  match s with
  | EmptyString => true
  | String c s' => is_space c && all_space s'
  end.

(** A paper in markdown: a heading and a first paragraph. *)
Definition sample_markdown : string :=
  "  # Graph kernels  " ++ String nl (String nl "We study kernels on graphs.").

(** The acquisitions and releases a gate still has ahead of it: two for
    a queued task, one for a running one. *)
Fixpoint steps_ahead (ps : list AnalysisCommands.phase) : nat :=
  match ps with
  | [] => 0
  | AnalysisCommands.Queued :: ps' => 2 + steps_ahead ps'
  | AnalysisCommands.Running :: ps' => 1 + steps_ahead ps'
  | AnalysisCommands.Finished :: ps' => steps_ahead ps'
  end.

(** * Facts about the normaliser *)

Section NormaliserFacts.

Variable json_loads : string -> outcome pyval.
Variable py_repr : pyval -> string.

Local Abbreviation first_alias_value := (AIAnalysisEngine.first_alias_value py_repr).
Local Abbreviation _generate_field_value := (AIAnalysisEngine._generate_field_value py_repr).
Local Abbreviation normalize_field := (AIAnalysisEngine.normalize_field py_repr).
Local Abbreviation normalize_fields := (AIAnalysisEngine.normalize_fields py_repr).
Local Abbreviation _normalize_analysis_result :=
  (AIAnalysisEngine._normalize_analysis_result py_repr).
Local Abbreviation _extract_json_from_text :=
  (AIAnalysisEngine._extract_json_from_text json_loads).
Local Abbreviation _parse_analysis_result :=
  (AIAnalysisEngine._parse_analysis_result json_loads py_repr).
Local Abbreviation _create_basic_result_from_text :=
  AIAnalysisEngine._create_basic_result_from_text.

Lemma first_alias_value_dict (d : gmap string pyval) (aliases : list string) :
  first_alias_value (PDict d) aliases = Ok (alias_value py_repr d aliases).
Proof.
  induction aliases as [|a rest IH]; simpl; [reflexivity|].
  destruct (d !! a) as [v|] eqn:Hd.
  - rewrite bool_decide_eq_true_2 by eauto. simpl.
    destruct (truthy v); [reflexivity | exact IH].
  - rewrite bool_decide_eq_false_2 by (intros [? ?]; discriminate). exact IH.
Qed.

Lemma alias_value_shape (d : gmap string pyval) (aliases : list string) :
  alias_value py_repr d aliases = PNone ∨
  ∃ v, alias_value py_repr d aliases = PStr (py_str py_repr v).
Proof.
  induction aliases as [|a rest IH]; simpl; [by left|].
  destruct (d !! a) as [v|]; [|exact IH].
  destruct (truthy v); [right; eauto | exact IH].
Qed.

(** What one turn of the loop stores for a dict: the alias value when it is
    a non-empty string, otherwise the fallback, otherwise the empty
    string. *)
Lemma normalize_field_dict (d : gmap string pyval) (field : string) :
  normalize_field (PDict d) field =
    let a := alias_value py_repr d (aliases_of field) in
    if truthy a then Ok a
    else let* v := _generate_field_value field (PDict d) in
         Ok (if truthy v then v else PStr EmptyString).
Proof.
  unfold AIAnalysisEngine.normalize_field. fold (aliases_of field).
  rewrite first_alias_value_dict. simpl.
  destruct (truthy (alias_value py_repr d (aliases_of field))) eqn:Ht; simpl.
  - rewrite Ht. reflexivity.
  - reflexivity.
Qed.

Lemma truthy_PStr (s : string) : truthy (PStr s) = true ↔ s ≠ EmptyString.
Proof.
  simpl. destruct (String.eqb_spec s EmptyString); simpl; split; congruence.
Qed.

Lemma store_shape (s : string) :
  ∃ s0, (if truthy (PStr s) then PStr s else PStr EmptyString) = PStr s0.
Proof. destruct (truthy (PStr s)); eauto. Qed.

Lemma append_nonempty_r (s t : string) : t ≠ EmptyString → s ++ t ≠ EmptyString.
Proof. destruct s; simpl; [auto | discriminate]. Qed.

Lemma aliases_of_title : aliases_of "title" = ["title"].
Proof. vm_compute. reflexivity. Qed.

Lemma generate_sentence (d : gmap string pyval) (field : string) :
  In field sentence_fields →
  ∃ s, _generate_field_value field (PDict d) = Ok (PStr s) ∧ s ≠ EmptyString.
Proof.
  intros Hin. simpl in Hin.
  destruct Hin as [<-|[<-|[<-|[<-|[<-|[<-|[]]]]]]];
    (eexists; split; [reflexivity | discriminate]).
Qed.

Lemma normalize_field_dict_sentence (d : gmap string pyval) (field : string) :
  In field sentence_fields →
  ∃ s, normalize_field (PDict d) field = Ok (PStr s) ∧ s ≠ EmptyString.
Proof.
  intros Hin. rewrite normalize_field_dict. cbv zeta.
  destruct (truthy (alias_value py_repr d (aliases_of field))) eqn:Ht.
  - destruct (alias_value_shape d (aliases_of field)) as [Hn|[v Hv]].
    + rewrite Hn in Ht. discriminate.
    + rewrite Hv in Ht |- *. exists (py_str py_repr v). split; [reflexivity|].
      by apply truthy_PStr.
  - destruct (generate_sentence d field Hin) as (s & -> & Hs).
    exists s. simpl. split; [|exact Hs].
    apply truthy_PStr in Hs. simpl in Hs. rewrite Hs. reflexivity.
Qed.

Lemma normalize_field_dict_title (d : gmap string pyval) :
  title_settles py_repr d = true →
  ∃ s, normalize_field (PDict d) "title" = Ok (PStr s).
Proof.
  intros Hsafe. rewrite normalize_field_dict. cbv zeta.
  unfold title_settles in Hsafe.
  destruct (truthy (alias_value py_repr d (aliases_of "title"))) eqn:Ht.
  - destruct (alias_value_shape d (aliases_of "title")) as [Hn|[v Hv]].
    + rewrite Hn in Ht. discriminate.
    + rewrite Hv. eauto.
  - simpl in Hsafe. unfold AIAnalysisEngine._generate_field_value. simpl.
    destruct (d !! "summary") as [v|] eqn:Hs; simpl.
    + destruct (truthy v) eqn:Hv; simpl.
      * destruct v; simpl in Hsafe; try discriminate. simpl.
        destruct (negb _); eauto.
      * eauto.
    + eauto.
Qed.

Lemma normalize_field_title_needs_dict (r v : pyval) :
  normalize_field r "title" = Ok v → ∃ d, r = PDict d.
Proof.
  unfold AIAnalysisEngine.normalize_field. fold (aliases_of "title").
  rewrite aliases_of_title.
  destruct r; simpl; try discriminate; [| |eauto].
  - destruct (str_contains "title" s); simpl; discriminate.
  - destruct (existsb (is_PStr "title") l); simpl; discriminate.
Qed.

(** The loop stores under each field what its turn computes and leaves
    the other keys alone. *)
Lemma normalize_fields_lookup (r : pyval) (fields : list string) :
  ∀ (acc m : gmap string pyval),
    normalize_fields r fields acc = Ok m →
    ∀ f, (In f fields → ∃ v, normalize_field r f = Ok v ∧ m !! f = Some v) ∧
         (¬ In f fields → m !! f = acc !! f).
Proof.
  induction fields as [|g rest IH]; intros acc m Hm f; simpl in Hm.
  - injection Hm as <-. split; [intros []|reflexivity].
  - destruct (normalize_field r g) as [vg|e] eqn:Hg; simpl in Hm; [|discriminate].
    destruct (IH _ _ Hm f) as [Hin Hout]. split.
    + intros [->|Hf].
      * destruct (in_dec string_dec f rest) as [Hr|Hr]; [auto|].
        exists vg. split; [exact Hg|]. rewrite (Hout Hr). apply lookup_insert_eq.
      * auto.
    + intros Hnot. rewrite Hout by (intros ?; apply Hnot; by right).
      apply lookup_insert_ne. intros ->. apply Hnot. by left.
Qed.

Lemma normalize_fields_returns (r : pyval) (fields : list string) :
  (∀ f, In f fields → ∃ v, normalize_field r f = Ok v) →
  ∀ acc, ∃ m, normalize_fields r fields acc = Ok m.
Proof.
  induction fields as [|g rest IH]; intros Hall acc; simpl; [eauto|].
  destruct (Hall g (or_introl eq_refl)) as [v ->]. simpl.
  apply IH. intros f Hf. apply Hall. by right.
Qed.

Lemma normalize_needs_dict (r : pyval) (version : string) (m : gmap string pyval) :
  _normalize_analysis_result r version = Ok m → ∃ d, r = PDict d.
Proof.
  unfold AIAnalysisEngine._normalize_analysis_result,
    AIAnalysisEngine.expected_fields. simpl.
  destruct (normalize_field r "title") as [v|e] eqn:Ht; simpl; [|discriminate].
  intros _. eapply normalize_field_title_needs_dict, Ht.
Qed.

Lemma expected_fields_sentence (version field : string) :
  In field (AIAnalysisEngine.expected_fields version) →
  field = "title" ∨ In field sentence_fields.
Proof.
  unfold AIAnalysisEngine.expected_fields, sentence_fields.
  rewrite in_app_iff. simpl.
  destruct (endswith version "_2_0"); simpl; intros H;
    decompose [or] H; subst; auto 10; contradiction.
Qed.

(** The shape of what normalisation returns, whenever it returns. *)
Lemma normalize_result_shape (r : pyval) (version : string) (m : gmap string pyval) :
  _normalize_analysis_result r version = Ok m →
  (∀ f, In f (AIAnalysisEngine.expected_fields version) → is_text m f) ∧
  (∀ f, In f (AIAnalysisEngine.expected_fields version) → In f sentence_fields →
        nonempty_text m f) ∧
  (∀ f, ¬ In f (AIAnalysisEngine.expected_fields version) → m !! f = None).
Proof.
  intros Hm. destruct (normalize_needs_dict _ _ _ Hm) as [d ->].
  pose proof (normalize_fields_lookup _ _ _ _ Hm) as Hl.
  assert (Hsent : ∀ f, In f (AIAnalysisEngine.expected_fields version) →
                       In f sentence_fields → nonempty_text m f).
  { intros f Hf Hs. destruct (proj1 (Hl f) Hf) as (v & Hv & Hlook).
    destruct (normalize_field_dict_sentence d f Hs) as (s & Hs1 & Hs2).
    rewrite Hs1 in Hv. injection Hv as <-. exists s. auto. }
  split; [|split].
  - intros f Hf. destruct (expected_fields_sentence _ _ Hf) as [->|Hs].
    + destruct (proj1 (Hl "title") Hf) as (v & Hv & Hlook).
      rewrite normalize_field_dict in Hv. cbv zeta in Hv.
      destruct (truthy (alias_value py_repr d (aliases_of "title"))) eqn:Ht.
      * destruct (alias_value_shape d (aliases_of "title")) as [Hn|[w Hw]].
        -- rewrite Hn in Ht. discriminate.
        -- rewrite Hw in Hv. injection Hv as <-. eexists; eauto.
      * destruct (_generate_field_value "title" (PDict d)) as [g|e] eqn:Hg;
          simpl in Hv; [|discriminate].
        injection Hv as <-.
        unfold AIAnalysisEngine._generate_field_value in Hg. simpl in Hg.
        destruct (d !! "summary") as [sv|]; simpl in Hg.
        -- destruct (truthy sv) eqn:Hsum.
           ++ destruct sv; simpl in Hg; try discriminate.
              injection Hg as <-.
              destruct (store_shape (str_take 100 s ++ "...")) as [s0 Hs0].
              rewrite Hs0 in Hlook. exists s0. exact Hlook.
           ++ injection Hg as <-. simpl in Hlook. eexists; eauto.
        -- injection Hg as <-. simpl in Hlook. eexists; eauto.
    + destruct (Hsent f Hf Hs) as (s & ? & ?). eexists; eauto.
  - exact Hsent.
  - intros f Hf. rewrite (proj2 (Hl f) Hf). apply lookup_empty.
Qed.

(** ** The degraded result *)

Lemma split_lines_first (text : string) :
  ∃ l ls, split_lines text = l :: ls ∧ no_newline l = true ∧
          (text = l ∨ ∃ r, text = l ++ String nl r).
Proof.
  induction text as [|c text IH]; simpl.
  - exists EmptyString, []. auto.
  - destruct IH as (l & ls & Hsplit & Hno & Hrest).
    destruct (Ascii.eqb c nl) eqn:Hc.
    + apply Ascii.eqb_eq in Hc as ->.
      exists EmptyString, (split_lines text). repeat split; eauto.
    + rewrite Hsplit. exists (String c l), ls. simpl. rewrite Hc, Hno.
      repeat split. destruct Hrest as [->|[r ->]]; eauto.
Qed.

Lemma first_line_spec (text : string) :
  no_newline (first_line text) = true ∧
  (text = first_line text ∨ ∃ r, text = first_line text ++ String nl r).
Proof.
  unfold first_line. destruct (split_lines_first text) as (l & ls & -> & ? & ?).
  auto.
Qed.

Ltac map_lookup :=
  repeat rewrite list_to_map_cons; cbn [fst snd];
  repeat first [ rewrite lookup_insert_eq
               | rewrite lookup_insert_ne by discriminate ].

Lemma basic_result_title (text : string) :
  _create_basic_result_from_text text !! "title" =
    Some (PStr (if String.eqb (strip (first_line text)) EmptyString then "Untitled"
                else str_take 100 (strip (first_line text)))).
Proof.
  unfold AIAnalysisEngine._create_basic_result_from_text, first_line. cbv zeta.
  destruct (split_lines_first text) as (l & ls & -> & _ & _).
  map_lookup. reflexivity.
Qed.

Lemma basic_result_summary (text : string) :
  _create_basic_result_from_text text !! "summary" =
    Some (PStr (if (500 <? String.length text)%nat
                then str_take 500 text ++ "..." else text)).
Proof.
  unfold AIAnalysisEngine._create_basic_result_from_text. cbv zeta.
  map_lookup. reflexivity.
Qed.

Lemma basic_result_placeholders (text : string) :
  let m := _create_basic_result_from_text text in
  m !! "problem" = Some (PStr "Unable to extract specific problem statement") ∧
  m !! "solution" = Some (PStr "Unable to extract specific solution") ∧
  m !! "limitations" = Some (PStr "Unable to extract limitations") ∧
  m !! "key_contributions" = Some (PStr "Unable to extract contributions") ∧
  m !! "research_significance" = Some PNone.
Proof.
  unfold AIAnalysisEngine._create_basic_result_from_text. cbv zeta.
  repeat split; map_lookup; reflexivity.
Qed.

(** ** The parser *)



Lemma normalize_dict_returns (d : gmap string pyval) (version : string) :
  title_settles py_repr d = true →
  ∃ m, _normalize_analysis_result (PDict d) version = Ok m.
Proof.
  intros Hsafe. apply normalize_fields_returns. intros f Hf.
  destruct (expected_fields_sentence _ _ Hf) as [->|Hs].
  - destruct (normalize_field_dict_title d Hsafe) as [s ->]. eauto.
  - destruct (normalize_field_dict_sentence d f Hs) as (s & -> & _). eauto.
Qed.



End NormaliserFacts.

(** ** When the parser raises *)

Section ParserRaises.

Variable json_loads : string -> outcome pyval.
Variable py_repr : pyval -> string.





End ParserRaises.

(** * The result parser: C1, C4, C6 *)




(** A number is valid JSON; the parser raises on it. *)
Example parse_analysis_result_raises_on_number :
  AIAnalysisEngine._parse_analysis_result Json.loads Json.repr_unused "123" "EN" =
    Raise (Exn TypeError "argument of type 'int' is not iterable").
Proof. vm_compute. reflexivity. Qed.

(** C4, as amended. When strict decoding and the extraction of an
    embedded object both fail, the parser returns the degraded result:
    its title is the first line of the text, stripped and cut to 100
    characters, or ["Untitled"] when that line is blank; its summary is
    the text itself up to 500 characters and otherwise the first 500
    characters followed by ["..."]; problem, solution, limitations and
    key_contributions hold fixed sentences and research_significance is
    [None]. *)
Theorem degraded_result_from_text
    (json_loads : string -> outcome pyval) (py_repr : pyval -> string)
    (text version : string) :
  decode_fails json_loads text →
  raises (AIAnalysisEngine._extract_json_from_text json_loads text) →
  ∃ m, AIAnalysisEngine._parse_analysis_result json_loads py_repr text version = Ok m ∧
       (∃ line, no_newline line = true ∧
                (text = line ∨ ∃ rest, text = line ++ String nl rest) ∧
                m !! "title" =
                  Some (PStr (if String.eqb (strip line) EmptyString then "Untitled"
                              else str_take 100 (strip line)))) ∧
       m !! "summary" =
         Some (PStr (if (500 <? String.length text)%nat
                     then str_take 500 text ++ "..." else text)) ∧
       m !! "problem" = Some (PStr "Unable to extract specific problem statement") ∧
       m !! "solution" = Some (PStr "Unable to extract specific solution") ∧
       m !! "limitations" = Some (PStr "Unable to extract limitations") ∧
       m !! "key_contributions" = Some (PStr "Unable to extract contributions") ∧
       m !! "research_significance" = Some PNone.
Proof.
  intros (e & He & Hcls) Hx.
  exists (AIAnalysisEngine._create_basic_result_from_text text). split.
  - unfold AIAnalysisEngine._parse_analysis_result. rewrite He. simpl. rewrite Hcls.
    destruct (AIAnalysisEngine._extract_json_from_text json_loads text);
      [contradiction | reflexivity].
  - split; [|split; [apply basic_result_summary | apply basic_result_placeholders]].
    exists (first_line text). destruct (first_line_spec text) as [Hno Hrest].
    repeat split; [exact Hno | exact Hrest | apply basic_result_title].
Qed.

Lemma degraded_result_from_text_witness :
  decode_fails Json.loads "Graph kernels" ∧
  raises (AIAnalysisEngine._extract_json_from_text Json.loads "Graph kernels") ∧
  ∃ m, AIAnalysisEngine._parse_analysis_result Json.loads Json.repr_unused
         "Graph kernels" "EN" = Ok m ∧
       (∃ line, no_newline line = true ∧
                ("Graph kernels" = line ∨ ∃ rest, "Graph kernels" = line ++ String nl rest) ∧
                m !! "title" =
                  Some (PStr (if String.eqb (strip line) EmptyString then "Untitled"
                              else str_take 100 (strip line)))) ∧
       m !! "summary" =
         Some (PStr (if (500 <? String.length "Graph kernels")%nat
                     then str_take 500 "Graph kernels" ++ "..." else "Graph kernels")) ∧
       m !! "problem" = Some (PStr "Unable to extract specific problem statement") ∧
       m !! "solution" = Some (PStr "Unable to extract specific solution") ∧
       m !! "limitations" = Some (PStr "Unable to extract limitations") ∧
       m !! "key_contributions" = Some (PStr "Unable to extract contributions") ∧
       m !! "research_significance" = Some PNone.
Proof.
  assert (H1 : decode_fails Json.loads "Graph kernels").
  { exists Json.decode_error. split; vm_compute; reflexivity. }
  assert (H2 : raises (AIAnalysisEngine._extract_json_from_text Json.loads "Graph kernels")).
  { vm_compute. exact I. }
  split; [exact H1|]. split; [exact H2|].
  exact (degraded_result_from_text Json.loads Json.repr_unused "Graph kernels" "EN" H1 H2).
Defined.

(** C4 as stated fails. A text whose first line is blank gets the title
    ["Untitled"], not its first non-empty line, and [None], not a
    placeholder, as research_significance; a text of 501 characters gets
    as summary its first 500 characters followed by ["..."]. Both texts
    fail strict decoding and extraction. *)
Lemma degraded_result_differs_from_claim :
  let parse := AIAnalysisEngine._parse_analysis_result Json.loads Json.repr_unused in
  let extract := AIAnalysisEngine._extract_json_from_text Json.loads in
  let blank_first := String nl "Hello" in
  let long := replicate_char 501 "a" in
  (Json.loads blank_first = Raise Json.decode_error ∧
   raises (extract blank_first) ∧
   claimed_title blank_first = "Hello" ∧
   field_of (parse blank_first "EN") "title" = Some (PStr "Untitled") ∧
   field_of (parse blank_first "EN") "research_significance" = Some PNone) ∧
  (Json.loads long = Raise Json.decode_error ∧
   raises (extract long) ∧
   str_take 500 long = replicate_char 500 "a" ∧
   field_of (parse long "EN") "summary" = Some (PStr (replicate_char 500 "a" ++ "..."))).
Proof.
  cbv zeta. split.
  - split; [vm_compute; reflexivity|]. split; [vm_compute; exact I|].
    split; [vm_compute; reflexivity|]. split; vm_compute; reflexivity.
  - split; [vm_compute; reflexivity|]. split; [vm_compute; exact I|].
    split; vm_compute; reflexivity.
Qed.

(** ** Field resolution *)

Section Resolution.

Variable py_repr : pyval -> string.

Lemma generate_title_settled (d : gmap string pyval) :
  truthy (alias_value py_repr d (aliases_of "title")) = false →
  title_settles py_repr d = true →
  AIAnalysisEngine._generate_field_value py_repr "title" (PDict d) =
    Ok (fallback_value py_repr d "title").
Proof.
  intros Ht Hsafe. unfold title_settles in Hsafe. rewrite Ht in Hsafe.
  unfold AIAnalysisEngine._generate_field_value, fallback_value. simpl.
  destruct (d !! "summary") as [v|]; simpl; [|reflexivity].
  simpl in Hsafe. destruct (truthy v) eqn:Hv; simpl in Hsafe |- *.
  - destruct v; try discriminate. simpl in Hv |- *.
    destruct (String.eqb s EmptyString); [discriminate | reflexivity].
  - destruct v; try reflexivity. simpl in Hv.
    destruct (String.eqb s EmptyString); [reflexivity | discriminate].
Qed.

Lemma generate_sentence_value (d : gmap string pyval) (field : string) :
  In field sentence_fields →
  AIAnalysisEngine._generate_field_value py_repr field (PDict d) =
    Ok (fallback_value py_repr d field).
Proof.
  intros Hin. simpl in Hin.
  destruct Hin as [<-|[<-|[<-|[<-|[<-|[<-|[]]]]]]]; reflexivity.
Qed.

(** One turn of the loop stores the resolved value. *)
Lemma normalize_field_resolved (d : gmap string pyval) (field : string) :
  title_settles py_repr d = true →
  field = "title" ∨ In field sentence_fields →
  AIAnalysisEngine.normalize_field py_repr (PDict d) field =
    Ok (resolved_value py_repr d field).
Proof.
  intros Hsafe Hf. rewrite normalize_field_dict. unfold resolved_value. cbv zeta.
  destruct (truthy (alias_value py_repr d (aliases_of field))) eqn:Ht; [reflexivity|].
  destruct Hf as [->|Hs].
  - rewrite generate_title_settled by assumption. reflexivity.
  - rewrite generate_sentence_value by assumption. reflexivity.
Qed.

(** On a dict whose title can be settled, normalisation returns the
    mapping that holds, under each field of the schema version and under
    no other key, the first truthy alias value as a string or else the
    fallback of the field. *)
Lemma field_resolution_on_settled_dicts (d : gmap string pyval) (version : string) :
  title_settles py_repr d = true →
  ∃ m, AIAnalysisEngine._normalize_analysis_result py_repr (PDict d) version = Ok m ∧
       (∀ f, In f (AIAnalysisEngine.expected_fields version) →
             m !! f = Some (resolved_value py_repr d f)) ∧
       (∀ f, ¬ In f (AIAnalysisEngine.expected_fields version) → m !! f = None).
Proof.
  intros Hsafe. destruct (normalize_dict_returns py_repr d version Hsafe) as [m Hm].
  exists m. split; [exact Hm|].
  pose proof (normalize_fields_lookup py_repr _ _ _ _ Hm) as Hl. split.
  - intros f Hf. destruct (proj1 (Hl f) Hf) as (v & Hv & Hlook).
    rewrite (normalize_field_resolved d f Hsafe (expected_fields_sentence _ _ Hf)) in Hv.
    congruence.
  - intros f Hf. rewrite (proj2 (Hl f) Hf). apply lookup_empty.
Qed.

End Resolution.

(** Alias resolution: the value under ["paper_overview"] becomes the
    summary. *)
Example alias_resolution_paper_overview (py_repr : pyval -> string) (version : string) :
  ∃ m, AIAnalysisEngine._normalize_analysis_result py_repr
         (PDict {[ "paper_overview" := PStr "X" ]}) version = Ok m ∧
       m !! "summary" = Some (PStr "X").
Proof.
  destruct (field_resolution_on_settled_dicts py_repr
              {[ "paper_overview" := PStr "X" ]} version) as (m & Hm & Hin & _).
  { vm_compute. reflexivity. }
  exists m. split; [exact Hm|]. rewrite Hin.
  - vm_compute. reflexivity.
  - unfold AIAnalysisEngine.expected_fields. apply in_app_iff. left. simpl. tauto.
Qed.

(** Fallback synthesis: the empty object gets the fixed problem sentence. *)
Example fallback_synthesis_problem (py_repr : pyval -> string) (version : string) :
  ∃ m, AIAnalysisEngine._normalize_analysis_result py_repr (PDict ∅) version = Ok m ∧
       m !! "problem" = Some (PStr "Research problem not explicitly stated.").
Proof.
  destruct (field_resolution_on_settled_dicts py_repr ∅ version) as (m & Hm & Hin & _).
  { vm_compute. reflexivity. }
  exists m. split; [exact Hm|]. rewrite Hin.
  - vm_compute. reflexivity.
  - unfold AIAnalysisEngine.expected_fields. apply in_app_iff. left. simpl. tauto.
Qed.

(** C6 at the failing input. The object [{"summary": 5}] has no title, so
    the fallback of the title slices the summary; the summary is a
    number and normalisation raises a [TypeError] instead of storing a
    value under each field. The parser lets the error through. *)
Theorem normalize_raises_on_numeric_summary (py_repr : pyval -> string) (version : string) :
  AIAnalysisEngine._normalize_analysis_result py_repr
    (PDict {[ "summary" := PInt 5 ]}) version =
    Raise (Exn TypeError "'int' object is not subscriptable") ∧
  Json.loads numeric_summary_text = Ok (PDict {[ "summary" := PInt 5 ]}) ∧
  AIAnalysisEngine._parse_analysis_result Json.loads py_repr numeric_summary_text version =
    Raise (Exn TypeError "'int' object is not subscriptable").
Proof.
  repeat split; vm_compute; reflexivity.
Qed.

(** * The confidence scorer: C5 *)

Section Scorer.

Variable py_repr : pyval -> string.

Local Abbreviation field_counts := (AIAnalysisEngine.field_counts py_repr).
Local Abbreviation _calculate_confidence_score :=
  (AIAnalysisEngine._calculate_confidence_score py_repr).

Lemma long_string_nonempty (s : string) :
  (20 <? String.length s)%nat = true → negb (String.eqb s EmptyString) = true.
Proof. destruct s; [discriminate | reflexivity]. Qed.

Lemma field_counts_long_text (m : gmap string pyval) (field : string) :
  values_are_text m → field_counts m field = long_text m field.
Proof.
  intros Hm. unfold AIAnalysisEngine.field_counts, long_text.
  destruct (m !! field) as [v|] eqn:Hv; [|reflexivity].
  destruct (Hm _ _ Hv) as [->|[s ->]]; [reflexivity|]. simpl.
  destruct (20 <? String.length s)%nat eqn:Hl.
  - rewrite long_string_nonempty by exact Hl. reflexivity.
  - apply andb_false_r.
Qed.

Lemma has_significance_present (m : gmap string pyval) :
  values_are_text m →
  AIAnalysisEngine.has_significance m = significance_present m.
Proof.
  intros Hm. unfold AIAnalysisEngine.has_significance, significance_present.
  destruct (m !! "research_significance") as [v|] eqn:Hv; [|reflexivity].
  destruct (Hm _ _ Hv) as [->|[s ->]]; reflexivity.
Qed.

(** The score is a function of seven flags; each of the 128 cases is
    computed. *)
Ltac by_flags m :=
  destruct (field_counts m "title"), (field_counts m "summary"),
    (field_counts m "problem"), (field_counts m "solution"),
    (field_counts m "limitations"), (field_counts m "key_contributions"),
    (AIAnalysisEngine.has_significance m).

Lemma confidence_score_bounds (m : gmap string pyval) :
  in_unit_interval (_calculate_confidence_score m).
Proof.
  unfold in_unit_interval, AIAnalysisEngine._calculate_confidence_score.
  cbn [AIAnalysisEngine.score_loop combine AIAnalysisEngine.score_fields
       AIAnalysisEngine.score_weights].
  by_flags m; vm_compute; split; reflexivity.
Qed.

Lemma confidence_score_claimed (m : gmap string pyval) :
  values_are_text m →
  _calculate_confidence_score m = claimed_confidence m.
Proof.
  intros Hm.
  unfold claimed_confidence, earned_weight, offered_weight, bonus, field_weights.
  unfold AIAnalysisEngine._calculate_confidence_score.
  cbn [AIAnalysisEngine.score_loop combine AIAnalysisEngine.score_fields
       AIAnalysisEngine.score_weights].
  rewrite !(field_counts_long_text m) by exact Hm.
  rewrite has_significance_present by exact Hm.
  cbn [filter list_filter fst snd map].
  destruct (long_text m "title"), (long_text m "summary"),
    (long_text m "problem"), (long_text m "solution"),
    (long_text m "limitations"), (long_text m "key_contributions"),
    (significance_present m); vm_compute; reflexivity.
Qed.

Lemma values_are_text_empty : values_are_text ∅.
Proof. intros k v Hk. rewrite lookup_empty in Hk. discriminate. Qed.

Lemma values_are_text_insert (m : gmap string pyval) (k : string) (v : pyval) :
  (v = PNone ∨ ∃ s, v = PStr s) → values_are_text m →
  values_are_text (<[k := v]> m).
Proof.
  intros Hv Hm k' v' Hk'. destruct (decide (k = k')) as [->|Hne].
  - rewrite lookup_insert_eq in Hk'. injection Hk' as <-. exact Hv.
  - rewrite lookup_insert_ne in Hk' by exact Hne. eauto.
Qed.

Lemma confidence_score_empty : _calculate_confidence_score ∅ = 0%float.
Proof. vm_compute. reflexivity. Qed.

Lemma confidence_score_complete (m : gmap string pyval) :
  values_are_text m →
  forallb (long_text m) AIAnalysisEngine.score_fields = true →
  significance_present m = true →
  _calculate_confidence_score m = 1%float.
Proof.
  intros Hm Hall Hsig. rewrite confidence_score_claimed by exact Hm.
  unfold claimed_confidence, earned_weight, offered_weight, bonus, field_weights.
  cbn [filter list_filter fst snd map].
  simpl in Hall. rewrite !andb_true_iff in Hall.
  destruct Hall as (-> & -> & -> & -> & -> & -> & _). rewrite Hsig.
  vm_compute. reflexivity.
Qed.

End Scorer.

(** The mappings the parser returns hold strings, or [None]. *)
Lemma parse_result_values_are_text (json_loads : string -> outcome pyval)
    (py_repr : pyval -> string) (text version : string) (m : gmap string pyval) :
  AIAnalysisEngine._parse_analysis_result json_loads py_repr text version = Ok m →
  values_are_text m.
Proof.
  intros Hparse.
  assert (Hsrc : (∃ r, AIAnalysisEngine._normalize_analysis_result py_repr r version = Ok m)
                 ∨ m = AIAnalysisEngine._create_basic_result_from_text text).
  { unfold AIAnalysisEngine._parse_analysis_result in Hparse.
    destruct (json_loads text) as [v|e]; simpl in Hparse.
    - destruct (AIAnalysisEngine._normalize_analysis_result py_repr v version)
        as [m'|e'] eqn:Hn; simpl in Hparse.
      + left. exists v. congruence.
      + destruct (is_JSONDecodeError e'); [|discriminate].
        destruct (AIAnalysisEngine._extract_json_from_text json_loads text) as [r|e2];
          simpl in Hparse.
        * destruct (AIAnalysisEngine._normalize_analysis_result py_repr r version)
            as [m2|e3] eqn:Hn2; simpl in Hparse; [left; exists r|right]; congruence.
        * right. congruence.
    - destruct (is_JSONDecodeError e); [|discriminate].
      destruct (AIAnalysisEngine._extract_json_from_text json_loads text) as [r|e2];
        simpl in Hparse.
      + destruct (AIAnalysisEngine._normalize_analysis_result py_repr r version)
          as [m2|e3] eqn:Hn2; simpl in Hparse; [left; exists r|right]; congruence.
      + right. congruence. }
  destruct Hsrc as [[r Hn]| ->].
  - destruct (normalize_result_shape py_repr _ _ _ Hn) as (Htext & _ & Hnone).
    intros k v Hk.
    destruct (in_dec string_dec k (AIAnalysisEngine.expected_fields version)) as [Hin|Hout].
    + destruct (Htext k Hin) as [s Hs]. right. exists s. congruence.
    + rewrite (Hnone k Hout) in Hk. discriminate.
  - unfold AIAnalysisEngine._create_basic_result_from_text. cbv zeta.
    repeat rewrite list_to_map_cons. cbn [fst snd list_to_map foldr].
    repeat (apply values_are_text_insert; [eauto|]).
    apply values_are_text_empty.
Qed.

(** C5. For every mapping whose values are strings or [None], as the
    parser returns them, the confidence score lies in [[0,1]] and is the
    sum of the weights of the fields present with more than 20
    characters, plus 0.1 when research_significance is present and not
    empty, divided by the sum of the weights offered; it is 1.0 when the
    six fields are long and research_significance is present, and 0.0
    for the empty mapping. *)
Theorem confidence_score_of_normalized_mapping
    (py_repr : pyval -> string) (m : gmap string pyval) :
  values_are_text m →
  in_unit_interval (AIAnalysisEngine._calculate_confidence_score py_repr m) ∧
  AIAnalysisEngine._calculate_confidence_score py_repr m = claimed_confidence m ∧
  (forallb (long_text m) AIAnalysisEngine.score_fields = true →
   significance_present m = true →
   AIAnalysisEngine._calculate_confidence_score py_repr m = 1%float) ∧
  AIAnalysisEngine._calculate_confidence_score py_repr ∅ = 0%float.
Proof.
  intros Hm. split; [apply confidence_score_bounds|].
  split; [apply confidence_score_claimed, Hm|].
  split; [apply confidence_score_complete, Hm | apply confidence_score_empty].
Qed.

Lemma confidence_score_of_normalized_mapping_witness :
  values_are_text complete_analysis ∧
  in_unit_interval
    (AIAnalysisEngine._calculate_confidence_score Json.repr_unused complete_analysis) ∧
  AIAnalysisEngine._calculate_confidence_score Json.repr_unused complete_analysis =
    claimed_confidence complete_analysis ∧
  (forallb (long_text complete_analysis) AIAnalysisEngine.score_fields = true →
   significance_present complete_analysis = true →
   AIAnalysisEngine._calculate_confidence_score Json.repr_unused complete_analysis
     = 1%float) ∧
  AIAnalysisEngine._calculate_confidence_score Json.repr_unused ∅ = 0%float.
Proof.
  assert (H : values_are_text complete_analysis).
  { unfold complete_analysis. repeat (apply values_are_text_insert; [eauto|]).
    apply values_are_text_empty. }
  split; [exact H|].
  exact (confidence_score_of_normalized_mapping Json.repr_unused complete_analysis H).
Defined.

(** The complete analysis scores 1.0 and an analysis with a long summary
    only scores 0.25. *)
Example confidence_score_examples :
  AIAnalysisEngine._calculate_confidence_score Json.repr_unused complete_analysis = 1%float ∧
  AIAnalysisEngine._calculate_confidence_score Json.repr_unused
    {[ "summary" := PStr "Kernels on graphs compare molecules." ]} = 0.25%float.
Proof. split; vm_compute; reflexivity. Qed.

(** * The retry wrapper: C7 *)

Section RetryFacts.

Import BaseAIAdapter.

Context {A : Type}.
Variable func : list event -> outcome A.

Lemma history_before_S (i : nat) :
  history_before (S i) = (history_before i ++ [Invoked; Slept (2 ^ Z.of_nat i)])%list.
Proof.
  unfold history_before. rewrite seq_S, flat_map_app. reflexivity.
Qed.

(** The loop from attempt [i] on, with [S j] attempts left: it stops at
    the first attempt that returns, or raises the error of the last
    one. *)
Lemma retry_loop_from (max_retries : Z) (h : list event) :
  ∀ (j i : nat) (last_error : option exn),
    (i + S j = Z.to_nat max_retries)%nat →
    ∃ last, (i <= last < Z.to_nat max_retries)%nat ∧
      (∀ t, (i <= t < last)%nat → raises (func (h ++ history_before t)%list)) ∧
      (match func (h ++ history_before last)%list with
       | Ok _ => True
       | Raise _ => S last = Z.to_nat max_retries
       end) ∧
      retry_loop func max_retries (map Z.of_nat (seq i (S j))) last_error
          (h ++ history_before i)%list =
        (func (h ++ history_before last)%list,
         (h ++ history_before last ++ [Invoked])%list).
Proof.
  induction j as [|j IH]; intros i last_error Hn.
  - exists i. split; [lia|]. split; [intros t Ht; lia|].
    simpl. unfold invoke.
    destruct (func (h ++ history_before i)%list) as [r|e] eqn:Hf.
    + split; [exact I|]. rewrite app_assoc. reflexivity.
    + split; [lia|].
      replace (Z.of_nat i <? max_retries - 1)%Z with false
        by (symmetry; apply Z.ltb_ge; lia).
      rewrite app_assoc. reflexivity.
  - cbn [seq map retry_loop]. unfold invoke.
    destruct (func (h ++ history_before i)%list) as [r|e] eqn:Hf.
    + exists i. split; [lia|]. split; [intros t Ht; lia|].
      rewrite Hf. split; [exact I|]. rewrite app_assoc. reflexivity.
    + replace (Z.of_nat i <? max_retries - 1)%Z with true
        by (symmetry; apply Z.ltb_lt; lia).
      unfold sleep.
      replace (((h ++ history_before i) ++ [Invoked]) ++ [Slept (2 ^ Z.of_nat i)])%list
        with (h ++ history_before (S i))%list
        by (rewrite history_before_S, <- !app_assoc; reflexivity).
      destruct (IH (S i) (Some e)) as (last & Hlast & Hbefore & Hend & Hrun); [lia|].
      exists last. split; [lia|]. split.
      * intros t Ht. destruct (decide (t = i)) as [->|Hne].
        -- rewrite Hf. exact I.
        -- apply Hbefore. lia.
      * split; [exact Hend | exact Hrun].
Qed.

End RetryFacts.

(** C7. [with_retry] invokes the operation at most [max_retries] times;
    every invocation but the last one raised and was followed by a sleep
    of [2 ^ attempt] seconds; a returned result is that of the last
    invocation, the first one to return; an error is raised only after
    [max_retries] invocations and is the error of the last one (with no
    attempt allowed there is nothing to invoke and [raise None] fails
    with a [TypeError]). *)
Theorem with_retry_bounded_backoff {A : Type}
    (func : list BaseAIAdapter.event -> outcome A) (max_retries : Z)
    (h : list BaseAIAdapter.event) :
  ∃ calls : nat,
    (calls <= Z.to_nat max_retries)%nat ∧
    (∀ i, (S i < calls)%nat → raises (func (h ++ history_before i)%list)) ∧
    match BaseAIAdapter.with_retry func max_retries h with
    | (Ok r, h') =>
        ∃ last, calls = S last ∧
                func (h ++ history_before last)%list = Ok r ∧
                h' = (h ++ history_before last ++ [BaseAIAdapter.Invoked])%list
    | (Raise e, h') =>
        calls = Z.to_nat max_retries ∧
        match calls with
        | O => e = BaseAIAdapter.raise_last None ∧ h' = h
        | S last =>
            func (h ++ history_before last)%list = Raise e ∧
            h' = (h ++ history_before last ++ [BaseAIAdapter.Invoked])%list
        end
    end.
Proof.
  unfold BaseAIAdapter.with_retry, BaseAIAdapter.range.
  destruct (Z.to_nat max_retries) as [|j] eqn:Hn.
  - exists 0%nat. simpl. repeat split; [lia | intros i Hi; lia].
  - destruct (retry_loop_from func max_retries h j 0%nat None) as
      (last & Hlast & Hbefore & Hend & Hrun); [lia|].
    change (history_before 0) with (@nil BaseAIAdapter.event) in Hrun.
    rewrite app_nil_r in Hrun. rewrite Hrun.
    exists (S last). split; [lia|]. split.
    + intros i Hi. apply Hbefore. lia.
    + destruct (func (h ++ history_before last)%list) as [r|e] eqn:Hf.
      * exists last. auto.
      * split; [lia|]. auto.
Qed.

(** With the bound 3 of [__init__] an operation that keeps failing is
    invoked three times, with sleeps of 1 and 2 seconds in between, and
    its third error is raised; one that succeeds at the second attempt is
    invoked twice. *)
Example with_retry_default_bound :
  let failing (h : list BaseAIAdapter.event) : outcome Z :=
    Raise (Exn (OtherError "ConnectionError") ("attempt " ++ pretty (length h))) in
  let flaky (h : list BaseAIAdapter.event) : outcome Z :=
    match h with [] => Raise (Exn (OtherError "ConnectionError") "reset") | _ => Ok 7%Z end in
  BaseAIAdapter.max_retries (BaseAIAdapter.init "sk-0123456789" "deepseek-chat") = 3%Z ∧
  BaseAIAdapter.with_retry failing 3 [] =
    (Raise (Exn (OtherError "ConnectionError") "attempt 4"),
     [BaseAIAdapter.Invoked; BaseAIAdapter.Slept 1; BaseAIAdapter.Invoked;
      BaseAIAdapter.Slept 2; BaseAIAdapter.Invoked]) ∧
  BaseAIAdapter.with_retry flaky 3 [] =
    (Ok 7%Z, [BaseAIAdapter.Invoked; BaseAIAdapter.Slept 1; BaseAIAdapter.Invoked]).
Proof. repeat split; vm_compute; reflexivity. Qed.

(** * The credential check: C8 *)

Lemma validate_api_key_length (self : BaseAIAdapter.adapter) :
  BaseAIAdapter.validate_api_key self = false ↔
  (String.length (BaseAIAdapter.api_key self) < 10)%nat.
Proof.
  unfold BaseAIAdapter.validate_api_key.
  destruct (String.eqb_spec (BaseAIAdapter.api_key self) EmptyString) as [->|Hne].
  - simpl. split; [lia | reflexivity].
  - destruct (String.length (BaseAIAdapter.api_key self) <? 10)%nat eqn:Hl.
    + apply Nat.ltb_lt in Hl. tauto.
    + apply Nat.ltb_ge in Hl. split; [discriminate | lia].
Qed.

(** C8, as amended. With a credential that is empty or shorter than 10
    characters [generate_response] raises [AIServiceError("Invalid API
    key")], the service error, and leaves the history untouched: the
    provider is not called. *)
Theorem generate_response_rejects_bad_key
    (create : DeepSeekAdapter.request -> list BaseAIAdapter.event ->
              outcome (list DeepSeekAdapter.message))
    (json_dumps : pyval -> outcome string)
    (self : BaseAIAdapter.adapter) (prompt : string) (tools : option pyval)
    (h : list BaseAIAdapter.event) :
  (String.length (BaseAIAdapter.api_key self) < 10)%nat →
  DeepSeekAdapter.generate_response create json_dumps self prompt tools h =
    (Raise (Exn AIServiceError "Invalid API key"), h).
Proof.
  intros Hshort. apply validate_api_key_length in Hshort.
  unfold DeepSeekAdapter.generate_response. rewrite Hshort. reflexivity.
Qed.

Lemma generate_response_rejects_bad_key_witness :
  (String.length (BaseAIAdapter.api_key (BaseAIAdapter.init "sk-12" "deepseek-chat")) < 10)%nat ∧
  DeepSeekAdapter.generate_response unreachable_provider (fun _ => Ok EmptyString)
      (BaseAIAdapter.init "sk-12" "deepseek-chat") "Summarise the paper." None [] =
    (Raise (Exn AIServiceError "Invalid API key"), []).
Proof.
  assert (H : (String.length
                 (BaseAIAdapter.api_key (BaseAIAdapter.init "sk-12" "deepseek-chat")) < 10)%nat).
  { simpl. lia. }
  split; [exact H|].
  exact (generate_response_rejects_bad_key unreachable_provider (fun _ => Ok EmptyString)
           (BaseAIAdapter.init "sk-12" "deepseek-chat") "Summarise the paper." None [] H).
Defined.

(** C8 as stated fails: with the empty credential the call raises an
    exception of class [AIServiceError], not a configuration error. *)
Lemma generate_response_raises_service_error :
  ∃ e, DeepSeekAdapter.generate_response unreachable_provider (fun _ => Ok EmptyString)
         (BaseAIAdapter.init EmptyString "deepseek-chat") "Summarise the paper." None [] =
       (Raise e, []) ∧
       exn_cls e = AIServiceError ∧
       exn_cls e ≠ AnalysisConfigurationError.
Proof.
  eexists. split; [vm_compute; reflexivity|]. split; [reflexivity | discriminate].
Qed.

(** With a well-formed credential the provider is called, and retried. *)
Example generate_response_calls_provider :
  DeepSeekAdapter.generate_response unreachable_provider (fun _ => Ok EmptyString)
      (BaseAIAdapter.init "sk-0123456789" "deepseek-chat") "Summarise the paper." None [] =
    (Raise (Exn AIServiceError "DeepSeek API error: unreachable"),
     [BaseAIAdapter.Invoked; BaseAIAdapter.Slept 1; BaseAIAdapter.Invoked;
      BaseAIAdapter.Slept 2; BaseAIAdapter.Invoked]).
Proof. vm_compute. reflexivity. Qed.

(** * The orchestrator: C2 *)

(** C2. [AnalysisOrchestrator.analyze_paper] always returns. The result
    of a primary engine that returns is handed on as it is. When the
    primary raises and no fallback is configured the result is a failed
    analysis carrying the message of the primary error. When the fallback
    returns, the result is its result with one field changed: the raw
    response is the note quoting the primary error, followed by the raw
    response the fallback gave (nothing where it gave none). When both
    raise, the result is a failed analysis whose message labels and
    quotes both errors. *)
Theorem orchestrator_two_attempts (W : Type)
    (primary_engine : AnalysisOrchestrator.engine W)
    (fallback_engine : option (AnalysisOrchestrator.engine W))
    (paper : Paper.Paper) (w : W) :
  ∃ result w',
    AnalysisOrchestrator.analyze_paper W primary_engine fallback_engine paper w =
      (Ok result, w') ∧
    match primary_engine paper w with
    | (Ok r, w1) => result = r ∧ w' = w1
    | (Raise primary_error, w1) =>
        match fallback_engine with
        | None =>
            w' = w1 ∧
            PaperAnalysis.status result = FAILED ∧
            PaperAnalysis.paper_id result = Paper.id paper ∧
            PaperAnalysis.error_message result = Some (exn_msg primary_error)
        | Some fallback =>
            match fallback paper w1 with
            | (Ok r, w2) =>
                w' = w2 ∧
                PaperAnalysis.raw_response result =
                  Some ("FALLBACK ANALYSIS (Primary failed: " ++
                        exn_msg primary_error ++ ")" ++
                        String nl (String nl
                          (default EmptyString (PaperAnalysis.raw_response r)))) ∧
                same_but_raw_response result r
            | (Raise fallback_error, w2) =>
                w' = w2 ∧
                PaperAnalysis.status result = FAILED ∧
                PaperAnalysis.paper_id result = Paper.id paper ∧
                PaperAnalysis.error_message result =
                  Some ("Primary: " ++ exn_msg primary_error ++
                        ", Fallback: " ++ exn_msg fallback_error)
            end
        end
    end.
Proof.
  unfold AnalysisOrchestrator.analyze_paper.
  destruct (primary_engine paper w) as [[r|primary_error] w1].
  - eauto.
  - destruct fallback_engine as [fallback|].
    + destruct (fallback paper w1) as [[r|fallback_error] w2].
      * do 2 eexists. split; [reflexivity|]. split; [reflexivity|].
        split; [reflexivity|]. unfold same_but_raw_response. simpl. tauto.
      * do 2 eexists. split; [reflexivity|]. repeat split.
    + do 2 eexists. split; [reflexivity|]. repeat split.
Qed.

(** * Batch collection: C3 *)

Section BaseBatch.

Variable analyze_paper : Paper.Paper -> outcome PaperAnalysis.PaperAnalysis.

Lemma process_results_returned (papers : list Paper.Paper) :
  ∀ processed,
    BaseAnalysisEngine.process_results
      (combine papers (BaseAnalysisEngine.gather analyze_paper papers)) processed =
    (processed ++ omap (fun p => returned (analyze_paper p)) papers)%list.
Proof.
  induction papers as [|p papers IH]; intros processed; simpl.
  - rewrite app_nil_r. reflexivity.
  - destruct (analyze_paper p) as [r|e]; simpl.
    + rewrite IH, <- app_assoc. reflexivity.
    + apply IH.
Qed.

(** The base engine returns the results of the papers whose analysis
    returned, in order, and nothing for the others. *)
Lemma base_batch_analyze_returned (papers : list Paper.Paper) :
  BaseAnalysisEngine.batch_analyze analyze_paper papers =
    omap (fun p => returned (analyze_paper p)) papers.
Proof. apply process_results_returned. Qed.

End BaseBatch.

(** C3 at the failing input. Of five papers the third fails; the base
    engine returns four results, none of them failed, and the fourth
    paper's result stands at index 2. *)
Theorem base_batch_analyze_drops_failed_paper :
  let results := BaseAnalysisEngine.batch_analyze fails_on_p3 five_papers in
  length five_papers = 5%nat ∧
  length results = 4%nat ∧
  Forall (fun a => PaperAnalysis.status a = COMPLETED) results ∧
  PaperAnalysis.paper_id <$> results !! 2%nat = Some "p4".
Proof.
  cbv zeta. split; [reflexivity|]. split; [reflexivity|].
  split; [|reflexivity].
  repeat constructor.
Qed.

Section CliBatch.

Variable run_task : string -> outcome PaperAnalysis.PaperAnalysis.
Variable path_name : string -> string.

Lemma collect_entries (suffix : list string) :
  ∀ (pre : list string) (analyses : list PaperAnalysis.PaperAnalysis),
    AnalysisCommands.collect path_name (pre ++ suffix) (length pre)
      (map run_task suffix) analyses =
    Ok (analyses ++
        imap (fun k => batch_entry run_task path_name (length pre + k)) suffix)%list.
Proof.
  induction suffix as [|file suffix IH]; intros pre analyses; simpl.
  - rewrite app_nil_r. reflexivity.
  - assert (Hstep : ∀ entry,
      AnalysisCommands.collect path_name (pre ++ file :: suffix)
        (S (length pre)) (map run_task suffix) (analyses ++ [entry]) =
      Ok (analyses ++ entry ::
          imap (fun k => batch_entry run_task path_name (length pre + S k)) suffix)%list).
    { intros entry. specialize (IH (pre ++ [file])%list (analyses ++ [entry])%list).
      rewrite <- app_assoc in IH. simpl in IH. rewrite length_app in IH. simpl in IH.
      replace (length pre + 1)%nat with (S (length pre)) in IH by lia.
      rewrite IH, <- app_assoc. simpl. do 3 f_equal.
      apply imap_ext. intros k x _. f_equal. lia. }
    unfold batch_entry at 1. rewrite Nat.add_0_r.
    destruct (run_task file) as [r|e].
    + apply Hstep.
    + rewrite list_lookup_middle by reflexivity. apply Hstep.
Qed.

End CliBatch.

Section CliBatchRun.

Variable run_task : string -> option string -> outcome PaperAnalysis.PaperAnalysis.
Variable path_name : string -> string.
Variable _find_paper_files : string -> outcome (list string).
Variable mkdir_output : string -> outcome unit.

(** The batch in closed form: the files cannot be listed, there is
    none, the output directory cannot be made, the bound is negative,
    the bound is 0, or there is one entry per file. *)
Lemma batch_analyze_papers_run (input_dir : string) (output_dir : option string)
    (concurrent : Z) :
  AnalysisCommands.batch_analyze_papers run_task path_name _find_paper_files
      mkdir_output input_dir output_dir concurrent =
    let failed (message : string) :=
      AnalysisCommands.Completed
        (Raise (Exn PaperAnalysisError ("Batch analysis failed: " ++ message))) in
    match _find_paper_files input_dir with
    | Raise e => failed (exn_msg e)
    | Ok [] => failed ("No paper files found in " ++ input_dir)
    | Ok ((_ :: _) as paper_files) =>
        match (match AnalysisCommands.given output_dir with
               | Some dir => mkdir_output dir
               | None => Ok tt
               end) with
        | Raise e => failed (exn_msg e)
        | Ok _ =>
            if (concurrent <? 0)%Z then failed "Semaphore initial value must be >= 0"
            else if (concurrent =? 0)%Z then AnalysisCommands.NeverCompletes
            else
              AnalysisCommands.Completed
                (Ok (imap (batch_entry (fun file => run_task file output_dir) path_name)
                       paper_files))
        end
    end.
Proof.
  unfold AnalysisCommands.batch_analyze_papers.
  destruct (_find_paper_files input_dir) as [[|file files]|e]; [reflexivity| |reflexivity].
  cbn [bind].
  destruct (match AnalysisCommands.given output_dir with
            | Some dir => mkdir_output dir
            | None => Ok tt
            end) as [[]|e]; [|reflexivity].
  cbn [bind]. unfold AnalysisCommands.Semaphore.
  destruct (Z.ltb_spec concurrent 0) as [Hneg|Hnonneg]; [reflexivity|].
  cbn [bind AnalysisCommands.gather map].
  destruct (Z.eqb_spec concurrent 0) as [->|Hpos]; [reflexivity|].
  destruct (Z.ltb_spec 0 concurrent) as [_|Hle]; [|lia].
  pose proof (collect_entries (fun f => run_task f output_dir) path_name
                (file :: files) [] []) as Hcollect.
  cbn [app length map] in Hcollect. rewrite Hcollect. reflexivity.
Qed.

(** The batch coordinator returns one entry per file, at the index of the
    file: the result of its task, or a failed analysis with its error. *)
Lemma batch_analyze_papers_positional (input_dir : string) (output_dir : option string)
    (concurrent : Z) (paper_files : list string) :
  _find_paper_files input_dir = Ok paper_files →
  paper_files ≠ [] →
  match AnalysisCommands.given output_dir with
  | Some dir => mkdir_output dir = Ok tt
  | None => True
  end →
  (0 < concurrent)%Z →
  ∃ analyses,
    AnalysisCommands.batch_analyze_papers run_task path_name _find_paper_files
      mkdir_output input_dir output_dir concurrent =
      AnalysisCommands.Completed (Ok analyses) ∧
    length analyses = length paper_files ∧
    ∀ i file, paper_files !! i = Some file →
              analyses !! i =
                Some (batch_entry (fun f => run_task f output_dir) path_name i file).
Proof.
  intros Hfiles Hne Hmkdir Hpos.
  exists (imap (batch_entry (fun f => run_task f output_dir) path_name) paper_files).
  split; [|split].
  - rewrite batch_analyze_papers_run, Hfiles. cbv zeta.
    destruct paper_files as [|f fs]; [contradiction|].
    assert (Hdir : match AnalysisCommands.given output_dir with
                   | Some dir => mkdir_output dir
                   | None => Ok tt
                   end = Ok tt).
    { destruct (AnalysisCommands.given output_dir); [exact Hmkdir | reflexivity]. }
    rewrite Hdir.
    destruct (Z.ltb_spec concurrent 0); [lia|].
    destruct (Z.eqb_spec concurrent 0); [lia|]. reflexivity.
  - apply length_imap.
  - intros i file Hi. rewrite list_lookup_imap, Hi. reflexivity.
Qed.

(** Without files the coordinator raises. *)
Lemma batch_analyze_papers_no_files (input_dir : string) (output_dir : option string)
    (concurrent : Z) :
  _find_paper_files input_dir = Ok [] →
  AnalysisCommands.batch_analyze_papers run_task path_name _find_paper_files
      mkdir_output input_dir output_dir concurrent =
    AnalysisCommands.Completed
      (Raise (Exn PaperAnalysisError
                ("Batch analysis failed: No paper files found in " ++ input_dir))).
Proof. intros Hfiles. rewrite batch_analyze_papers_run, Hfiles. reflexivity. Qed.

End CliBatchRun.

(** Five files, the third of which fails, under the default bound of
    three: five entries, the third one failed with the error of its
    task, the others completed. *)
Example batch_analyze_papers_five_files :
  ∃ analyses,
    AnalysisCommands.batch_analyze_papers (fun file _ => task_fails_on_p3 file)
      (fun file => file) (fun _ => Ok five_files) (fun _ => Ok tt)
      "papers" None 3 =
      AnalysisCommands.Completed (Ok analyses) ∧
    map PaperAnalysis.status analyses =
      [COMPLETED; COMPLETED; FAILED; COMPLETED; COMPLETED] ∧
    PaperAnalysis.error_message <$> analyses !! 2%nat =
      Some (Some "Failed to parse paper: unreadable").
Proof.
  exists (imap (batch_entry task_fails_on_p3 (fun file => file)) five_files).
  repeat split; vm_compute; reflexivity.
Qed.

(** The same batch with a negative bound raises before any task is
    created, and with the bound 0 it is never resumed. *)
Example batch_analyze_papers_closed_gate :
  let batch :=
    AnalysisCommands.batch_analyze_papers (fun file _ => task_fails_on_p3 file)
      (fun file => file) (fun _ => Ok five_files) (fun _ => Ok tt) "papers" None in
  batch (-1)%Z =
    AnalysisCommands.Completed
      (Raise (Exn PaperAnalysisError
                "Batch analysis failed: Semaphore initial value must be >= 0")) ∧
  batch 0%Z = AnalysisCommands.NeverCompletes.
Proof. split; vm_compute; reflexivity. Qed.

(** * The admission gate: C9 *)

Section Gate.

Import AnalysisCommands.

Lemma count_running_repeat_queued (n : nat) : count_running (repeat Queued n) = 0%nat.
Proof. induction n as [|n IH]; simpl; [reflexivity | exact IH]. Qed.

(** Replacing the phase of one task moves the count by the difference of
    the two phases. *)
Lemma count_running_insert (ps : list phase) :
  ∀ (i : nat) (old new : phase),
    ps !! i = Some old →
    (count_running (<[i := new]> ps) + (if is_running old then 1 else 0) =
     count_running ps + (if is_running new then 1 else 0))%nat.
Proof.
  induction ps as [|p ps IH]; intros i old new Hi; [discriminate|].
  destruct i as [|i]; simpl in *.
  - injection Hi as ->. lia.
  - specialize (IH i old new Hi). lia.
Qed.

(** The counter of the semaphore and the running tasks add up to the
    bound. *)
Lemma gate_invariant (concurrent files : nat) (g : gate) :
  reachable concurrent files g → (value g + in_flight g = concurrent)%nat.
Proof.
  induction 1 as [|g g' _ IH Hstep].
  - unfold in_flight. simpl. rewrite count_running_repeat_queued. lia.
  - destruct Hstep as [g i Hq Hpos|g i Hr]; unfold in_flight in *; simpl.
    + pose proof (count_running_insert (tasks g) i Queued Running Hq) as Hc.
      simpl in Hc. lia.
    + pose proof (count_running_insert (tasks g) i Running Finished Hr) as Hc.
      simpl in Hc. lia.
Qed.

Lemma step_in_flight (g g' : gate) :
  step g g' →
  (in_flight g' = S (in_flight g) ∧ 0 < value g)%nat ∨
  (S (in_flight g') = in_flight g)%nat.
Proof.
  intros [g0 i Hq Hpos|g0 i Hr]; unfold in_flight; simpl.
  - left. pose proof (count_running_insert (tasks g0) i Queued Running Hq) as Hc.
    simpl in Hc. split; [lia | exact Hpos].
  - right. pose proof (count_running_insert (tasks g0) i Running Finished Hr) as Hc.
    simpl in Hc. lia.
Qed.

End Gate.

(** With the bound 2 and five files, the state in which two tasks are
    inside the gate and three are queued is reached by two
    acquisitions. *)
Lemma reachable_two_of_five :
  AnalysisCommands.reachable 2 5
    (AnalysisCommands.Gate 0
       [AnalysisCommands.Running; AnalysisCommands.Running;
        AnalysisCommands.Queued; AnalysisCommands.Queued;
        AnalysisCommands.Queued]).
Proof.
  eapply AnalysisCommands.reachable_step.
  - eapply AnalysisCommands.reachable_step.
    + apply AnalysisCommands.reachable_start.
    + exact (AnalysisCommands.step_acquire (AnalysisCommands.start 2 5) 0
               eq_refl (le_n_S _ _ (le_0_n _))).
  - exact (AnalysisCommands.step_acquire
             (AnalysisCommands.Gate 1
                [AnalysisCommands.Running; AnalysisCommands.Queued;
                 AnalysisCommands.Queued; AnalysisCommands.Queued;
                 AnalysisCommands.Queued]) 1 eq_refl (le_n _)).
Qed.

(** C9. In every state the batch can reach with the bound [concurrent],
    at most [concurrent] tasks are inside the gate; a step that lets one
    more task in is possible exactly when fewer than [concurrent] are
    inside and a task is queued; and once a running task has left, a
    queued task can be let in, which brings the number inside back to
    what it was. Which of the queued tasks enters is the scheduler's
    choice (the semaphore wakes its waiters in the order of arrival), so
    the statement is made for each of them. *)
Theorem gate_bounds_in_flight (concurrent files : nat) (g : AnalysisCommands.gate) :
  AnalysisCommands.reachable concurrent files g →
  (AnalysisCommands.in_flight g <= concurrent)%nat ∧
  ((∃ g', AnalysisCommands.step g g' ∧
          AnalysisCommands.in_flight g' = S (AnalysisCommands.in_flight g)) ↔
   ((AnalysisCommands.in_flight g < concurrent)%nat ∧
    ∃ i, AnalysisCommands.tasks g !! i = Some AnalysisCommands.Queued)) ∧
  (∀ i j, AnalysisCommands.tasks g !! i = Some AnalysisCommands.Running →
          AnalysisCommands.tasks g !! j = Some AnalysisCommands.Queued →
          ∃ g1 g2, AnalysisCommands.step g g1 ∧ AnalysisCommands.step g1 g2 ∧
                   AnalysisCommands.tasks g1 !! i = Some AnalysisCommands.Finished ∧
                   AnalysisCommands.tasks g2 !! j = Some AnalysisCommands.Running ∧
                   AnalysisCommands.in_flight g2 = AnalysisCommands.in_flight g).
Proof.
  intros Hreach. pose proof (gate_invariant _ _ _ Hreach) as Hinv.
  split; [lia|]. split.
  - split.
    + intros (g' & Hstep & Hup).
      destruct (step_in_flight _ _ Hstep) as [[_ Hpos]|Hdown]; [|lia].
      split; [lia|]. inversion Hstep as [g0 i Hq _|g0 i Hr]; subst.
      * eauto.
      * pose proof (count_running_insert (AnalysisCommands.tasks g) i _
                      AnalysisCommands.Finished Hr) as Hc.
        unfold AnalysisCommands.in_flight in Hup. simpl in *. lia.
    + intros (Hlt & i & Hq).
      assert (Hpos : (0 < AnalysisCommands.value g)%nat) by lia.
      eexists. split; [exact (AnalysisCommands.step_acquire g i Hq Hpos)|].
      pose proof (count_running_insert (AnalysisCommands.tasks g) i _
                    AnalysisCommands.Running Hq) as Hc.
      unfold AnalysisCommands.in_flight. simpl in *. lia.
  - intros i j Hr Hq.
    assert (Hij : i ≠ j) by (intros ->; congruence).
    set (g1 := AnalysisCommands.Gate (AnalysisCommands.value g + 1)
                 (<[i := AnalysisCommands.Finished]> (AnalysisCommands.tasks g))).
    assert (Hq1 : AnalysisCommands.tasks g1 !! j = Some AnalysisCommands.Queued).
    { simpl. rewrite list_lookup_insert_ne by exact Hij. exact Hq. }
    assert (Hpos1 : (0 < AnalysisCommands.value g1)%nat) by (simpl; lia).
    exists g1. eexists.
    split; [exact (AnalysisCommands.step_release g i Hr)|].
    split; [exact (AnalysisCommands.step_acquire g1 j Hq1 Hpos1)|].
    split; [|split].
    + simpl. apply list_lookup_insert_eq. eapply lookup_lt_Some, Hr.
    + simpl. apply list_lookup_insert_eq. rewrite length_insert.
      eapply lookup_lt_Some, Hq.
    + pose proof (count_running_insert (AnalysisCommands.tasks g) i _
                    AnalysisCommands.Finished Hr) as Hc1.
      pose proof (count_running_insert (AnalysisCommands.tasks g1) j _
                    AnalysisCommands.Running Hq1) as Hc2.
      unfold AnalysisCommands.in_flight. simpl in *. lia.
Qed.

Lemma gate_bounds_in_flight_witness :
  let g := AnalysisCommands.Gate 0
             [AnalysisCommands.Running; AnalysisCommands.Running;
              AnalysisCommands.Queued; AnalysisCommands.Queued;
              AnalysisCommands.Queued] in
  AnalysisCommands.reachable 2 5 g ∧
  AnalysisCommands.in_flight g = 2%nat ∧
  (AnalysisCommands.in_flight g <= 2)%nat ∧
  ((∃ g', AnalysisCommands.step g g' ∧
          AnalysisCommands.in_flight g' = S (AnalysisCommands.in_flight g)) ↔
   ((AnalysisCommands.in_flight g < 2)%nat ∧
    ∃ i, AnalysisCommands.tasks g !! i = Some AnalysisCommands.Queued)) ∧
  (¬ ∃ g', AnalysisCommands.step g g' ∧
           AnalysisCommands.in_flight g' = S (AnalysisCommands.in_flight g)) ∧
  AnalysisCommands.tasks g !! 0%nat = Some AnalysisCommands.Running ∧
  AnalysisCommands.tasks g !! 2%nat = Some AnalysisCommands.Queued ∧
  ∃ g1 g2, AnalysisCommands.step g g1 ∧ AnalysisCommands.step g1 g2 ∧
           AnalysisCommands.tasks g1 !! 0%nat = Some AnalysisCommands.Finished ∧
           AnalysisCommands.tasks g2 !! 2%nat = Some AnalysisCommands.Running ∧
           AnalysisCommands.in_flight g2 = AnalysisCommands.in_flight g.
Proof.
  intros g.
  assert (Hreach : AnalysisCommands.reachable 2 5 g) by exact reachable_two_of_five.
  assert (Hrunning : AnalysisCommands.tasks g !! 0%nat = Some AnalysisCommands.Running)
    by reflexivity.
  assert (Hqueued : AnalysisCommands.tasks g !! 2%nat = Some AnalysisCommands.Queued)
    by reflexivity.
  destruct (gate_bounds_in_flight 2 5 g Hreach) as (Hbound & Hadmit & Hnext).
  split; [exact Hreach|]. split; [reflexivity|]. split; [exact Hbound|].
  split; [exact Hadmit|].
  split.
  - intros Hstep. apply (proj1 Hadmit) in Hstep as [Hlt _].
    exact (Nat.lt_irrefl 2 Hlt).
  - split; [exact Hrunning|]. split; [exact Hqueued|].
    exact (Hnext 0%nat 2%nat Hrunning Hqueued).
Defined.

(** With the bound 2 and five files: two tasks enter, the third has to
    wait until one of them leaves. *)
Example gate_two_of_five :
  let g2 := AnalysisCommands.Gate 0
              [AnalysisCommands.Running; AnalysisCommands.Running;
               AnalysisCommands.Queued; AnalysisCommands.Queued;
               AnalysisCommands.Queued] in
  AnalysisCommands.reachable 2 5 g2 ∧
  AnalysisCommands.in_flight g2 = 2%nat ∧
  ¬ ∃ g', AnalysisCommands.step g2 g' ∧
          AnalysisCommands.in_flight g' = S (AnalysisCommands.in_flight g2).
Proof.
  cbv zeta.
  assert (Hreach : AnalysisCommands.reachable 2 5
            (AnalysisCommands.Gate 0
               [AnalysisCommands.Running; AnalysisCommands.Running;
                AnalysisCommands.Queued; AnalysisCommands.Queued;
                AnalysisCommands.Queued])).
  { exact reachable_two_of_five. }
  split; [exact Hreach|]. split; [reflexivity|].
  intros Hex. apply (gate_invariant 2 5) in Hreach as Hinv.
  destruct Hex as (g' & Hstep & Hup).
  destruct (step_in_flight _ _ Hstep) as [[_ Hpos]|Hdown].
  - simpl in Hpos. lia.
  - lia.
Qed.

(** * The engine under the orchestrator: C10 *)

(** C10. [AIAnalysisEngine.analyze_paper] always returns: when the body
    of its [try] raises, the result is the failed analysis carrying the
    message of the error. With this engine as primary the orchestrator
    returns the same result and leaves the world as the engine left it,
    whatever fallback engine is configured: the fallback is not run. *)
Theorem engine_failure_reaches_orchestrator_as_result (W : Type)
    (json_loads : string -> outcome pyval) (json_dumps : pyval -> outcome string)
    (py_repr : pyval -> string) (ai_adapter : AIAnalysisEngine.ai_adapter W)
    (config : AIAnalysisEngine.config) (get_analysis_prompt : string -> string)
    (tool_parameters : string -> pyval) (paper : Paper.Paper) (w : W) :
  let engine :=
    AIAnalysisEngine.analyze_paper W json_loads json_dumps py_repr ai_adapter config
      get_analysis_prompt tool_parameters in
  ∃ analysis w1,
    engine paper w = (Ok analysis, w1) ∧
    match AIAnalysisEngine.analyze_paper_body W json_loads json_dumps py_repr ai_adapter
            config get_analysis_prompt tool_parameters paper w with
    | (Ok a, w') => analysis = a ∧ w1 = w'
    | (Raise e, w') =>
        w1 = w' ∧
        analysis = PaperAnalysis.failed EmptyString (Paper.id paper)
                     "Analysis Failed" (exn_msg e) ∧
        PaperAnalysis.status analysis = FAILED ∧
        PaperAnalysis.error_message analysis = Some (exn_msg e)
    end ∧
    ∀ fallback_engine,
      AnalysisOrchestrator.analyze_paper W engine fallback_engine paper w =
        (Ok analysis, w1).
Proof.
  cbv zeta. unfold AnalysisOrchestrator.analyze_paper, AIAnalysisEngine.analyze_paper.
  destruct (AIAnalysisEngine.analyze_paper_body W json_loads json_dumps py_repr ai_adapter
              config get_analysis_prompt tool_parameters paper w) as [[a|e] w'].
  - exists a, w'. repeat split.
  - eexists. exists w'. repeat split.
Qed.

(** An adapter whose two calls fail: the engine returns the failed
    analysis after both calls, and the orchestrator hands it on without
    running the fallback, which would have counted a third call. *)
Example failing_adapter_skips_fallback :
  let engine :=
    AIAnalysisEngine.analyze_paper nat Json.loads (fun _ => Ok "{}") Json.repr_unused
      failing_adapter default_config (fun content => "Analyze: " ++ content)
      (fun _ => PDict ∅) in
  AnalysisOrchestrator.analyze_paper nat engine (Some counting_fallback)
      (sample_paper "p1") 0%nat =
    (Ok (PaperAnalysis.failed EmptyString "p1" "Analysis Failed"
           "Failed to generate analysis: DeepSeek API error: timeout"), 2%nat).
Proof. vm_compute. reflexivity. Qed.

(** * The retry wrapper: waiting time *)

Section RetryTotals.

Import BaseAIAdapter.

Lemma invocations_app (h1 h2 : list event) :
  invocations (h1 ++ h2) = (invocations h1 + invocations h2)%nat.
Proof.
  induction h1 as [|[|s] h1 IH]; simpl; [reflexivity | rewrite IH; reflexivity | exact IH].
Qed.

Lemma total_slept_app (h1 h2 : list event) :
  total_slept (h1 ++ h2) = (total_slept h1 + total_slept h2)%Z.
Proof.
  induction h1 as [|[|s] h1 IH]; simpl; [reflexivity | exact IH | rewrite IH; lia].
Qed.

Lemma invocations_history_before (i : nat) : invocations (history_before i) = i.
Proof.
  induction i as [|i IH]; [reflexivity|].
  rewrite history_before_S, invocations_app, IH. simpl. lia.
Qed.

Lemma total_slept_history_before (i : nat) :
  (total_slept (history_before i) + 1 = 2 ^ Z.of_nat i)%Z.
Proof.
  induction i as [|i IH]; [reflexivity|].
  rewrite history_before_S, total_slept_app. simpl total_slept.
  rewrite Nat2Z.inj_succ, Z.pow_succ_r by lia. lia.
Qed.

(** What a run of [with_retry] leaves behind: nothing when no attempt
    is allowed, else the invocations up to a last one, with the sleeps
    in between. *)
Lemma with_retry_run {A : Type} (func : list event -> outcome A) (max_retries : Z)
    (h : list event) :
  (Z.to_nat max_retries = 0%nat ∧
   with_retry func max_retries h = (Raise (raise_last None), h)) ∨
  ∃ last, (last < Z.to_nat max_retries)%nat ∧
    with_retry func max_retries h =
      (func (h ++ history_before last)%list,
       (h ++ history_before last ++ [Invoked])%list).
Proof.
  unfold with_retry, range.
  destruct (Z.to_nat max_retries) as [|j] eqn:Hn.
  - left. split; reflexivity.
  - right.
    destruct (retry_loop_from func max_retries h j 0%nat None) as
      (last & Hlast & _ & _ & Hrun); [lia|].
    change (history_before 0) with (@nil event) in Hrun.
    rewrite app_nil_r in Hrun.
    exists last. split; [lia | exact Hrun].
Qed.

End RetryTotals.

(** X1. However the operation behaves, [with_retry] invokes it at most
    [max_retries] times, sleeps [2 ^ (k - 1) - 1] seconds in total when
    it has invoked it [k] times, hence less than [2 ^ (max_retries - 1)]
    seconds, and a result is returned only after an invocation. *)
Theorem with_retry_total_wait {A : Type}
    (func : list BaseAIAdapter.event -> outcome A) (max_retries : Z)
    (h : list BaseAIAdapter.event) :
  let '(r, h') := BaseAIAdapter.with_retry func max_retries h in
  ∃ k : nat,
    invocations h' = (invocations h + k)%nat ∧
    (k <= Z.to_nat max_retries)%nat ∧
    (total_slept h' + 1 = total_slept h + 2 ^ Z.of_nat (pred k))%Z ∧
    (total_slept h' - total_slept h < 2 ^ Z.of_nat (pred (Z.to_nat max_retries)))%Z ∧
    (returns r → (0 < k)%nat).
Proof.
  destruct (with_retry_run func max_retries h) as [[Hn ->]|(last & Hlast & ->)].
  - exists 0%nat. rewrite Hn. simpl. repeat split; lia.
  - exists (S last).
    rewrite !invocations_app, !total_slept_app, invocations_history_before.
    pose proof (total_slept_history_before last) as Hs.
    assert (Hmono : (2 ^ Z.of_nat last <= 2 ^ Z.of_nat (pred (Z.to_nat max_retries)))%Z).
    { apply Z.pow_le_mono_r; lia. }
    simpl. repeat split; try lia.
Qed.

(** * The DeepSeek adapter: errors and provider calls *)

Section AdapterFacts.

Import BaseAIAdapter.

Variable create : DeepSeekAdapter.request -> list event ->
                  outcome (list DeepSeekAdapter.message).
Variable json_dumps : pyval -> outcome string.

Lemma with_retry_invocations {A : Type} (func : list event -> outcome A)
    (max_retries : Z) (h : list event) :
  (invocations (snd (with_retry func max_retries h)) <=
   invocations h + Z.to_nat max_retries)%nat.
Proof.
  destruct (with_retry_run func max_retries h) as [[Hn ->]|(last & Hlast & ->)]; simpl.
  - lia.
  - rewrite !invocations_app, invocations_history_before. simpl. lia.
Qed.

(** A call of [generate_response] whose tools are absent, falsy or a
    dictionary raises service errors only, after at most [max_retries]
    invocations of the provider. *)
Lemma generate_response_service_errors (self : adapter) (prompt : string)
    (tools : option pyval) (h : list event) :
  (∀ t, tools = Some t → truthy t = true → is_dict t = true) →
  (invocations (snd (DeepSeekAdapter.generate_response create json_dumps self prompt tools h))
     <= invocations h + Z.to_nat (max_retries self))%nat ∧
  ∀ e, fst (DeepSeekAdapter.generate_response create json_dumps self prompt tools h)
         = Raise e → exn_cls e = AIServiceError.
Proof.
  intros Htools. unfold DeepSeekAdapter.generate_response.
  destruct (validate_api_key self); simpl.
  2:{ split; [lia|]. intros e He. injection He as <-. reflexivity. }
  set (functions := match tools with Some t => _ | None => _ end).
  assert (Hf : ∃ fns, functions = Ok fns).
  { subst functions. destruct tools as [t|]; [|eauto].
    destruct (truthy t) eqn:Ht; [|eauto].
    specialize (Htools t eq_refl Ht). destruct t; try discriminate. simpl. eauto. }
  destruct Hf as [fns ->].
  pose proof (with_retry_invocations
                (create (DeepSeekAdapter.Request (model self) prompt 0.1 4000 fns))
                (max_retries self) h) as Hinv.
  destruct (with_retry _ (max_retries self) h) as [r h1]. simpl in *.
  split; [exact Hinv|].
  intros e He. destruct r as [response|e0]; simpl in He.
  - destruct (DeepSeekAdapter._extract_content json_dumps response); simpl in He;
      [discriminate|]. injection He as <-. reflexivity.
  - injection He as <-. reflexivity.
Qed.

End AdapterFacts.

(** X2. [generate_response] calls the provider at most [max_retries]
    times and whatever goes wrong there, in the retries or in reading
    the completion, comes out as an [AIServiceError]; the one other
    exception is the [AttributeError] of a truthy [tools] argument that
    is not a dictionary, raised before any call. *)
Theorem generate_response_failures
    (create : DeepSeekAdapter.request -> list BaseAIAdapter.event ->
              outcome (list DeepSeekAdapter.message))
    (json_dumps : pyval -> outcome string)
    (self : BaseAIAdapter.adapter) (prompt : string) (tools : option pyval)
    (h : list BaseAIAdapter.event) :
  let '(r, h') := DeepSeekAdapter.generate_response create json_dumps self prompt tools h in
  (invocations h' <= invocations h + Z.to_nat (BaseAIAdapter.max_retries self))%nat ∧
  ∀ e, r = Raise e →
    exn_cls e = AIServiceError ∨
    (∃ t, tools = Some t ∧ truthy t = true ∧ is_dict t = false ∧
          exn_cls e = AttributeError ∧ h' = h).
Proof.
  destruct (DeepSeekAdapter.generate_response create json_dumps self prompt tools h)
    as [r h'] eqn:Hrun.
  destruct (match tools with
            | Some t => truthy t && negb (is_dict t)
            | None => false
            end) eqn:Hbad.
  - destruct tools as [t|]; [|discriminate].
    apply andb_true_iff in Hbad as [Ht Hd]. apply negb_true_iff in Hd.
    unfold DeepSeekAdapter.generate_response in Hrun.
    destruct (BaseAIAdapter.validate_api_key self); simpl in Hrun.
    + rewrite Ht in Hrun.
      destruct t; try discriminate; simpl in Hrun; injection Hrun as <- <-;
        (split; [lia|]); intros e He; injection He as <-; right; eexists;
        repeat split; reflexivity || assumption.
    + injection Hrun as <- <-. split; [lia|]. intros e He. injection He as <-.
      left. reflexivity.
  - destruct (generate_response_service_errors create json_dumps self prompt tools h)
      as [Hinv Hcls].
    { intros t -> Ht. rewrite Ht in Hbad. simpl in Hbad.
      apply negb_false_iff in Hbad. exact Hbad. }
    rewrite Hrun in Hinv, Hcls. simpl in Hinv, Hcls.
    split; [exact Hinv|]. intros e He. left. apply Hcls. exact He.
Qed.

Section StructuredFacts.

Import BaseAIAdapter.

Variable create : DeepSeekAdapter.request -> list event ->
                  outcome (list DeepSeekAdapter.message).
Variable json_dumps : pyval -> outcome string.
Variable json_dumps_indent : pyval -> outcome string.
Variable json_loads : string -> outcome pyval.

Lemma generate_response_short_key (self : adapter) (prompt : string)
    (tools : option pyval) (h : list event) :
  (String.length (api_key self) < 10)%nat →
  DeepSeekAdapter.generate_response create json_dumps self prompt tools h =
    (Raise (Exn AIServiceError "Invalid API key"), h).
Proof.
  intros Hshort. apply validate_api_key_length in Hshort.
  unfold DeepSeekAdapter.generate_response. rewrite Hshort. reflexivity.
Qed.

Lemma generate_structured_response_short_key (self : adapter) (prompt : string)
    (schema : pyval) (h : list event) :
  (String.length (api_key self) < 10)%nat →
  DeepSeekAdapter.generate_structured_response create json_dumps json_dumps_indent
      json_loads self prompt schema h =
    (match json_dumps_indent schema with
     | Ok _ => Raise (Exn AIServiceError
                        "Failed to generate structured response: Invalid API key")
     | Raise e => Raise e
     end, h).
Proof.
  intros Hshort. unfold DeepSeekAdapter.generate_structured_response.
  rewrite (generate_response_short_key self prompt _ h Hshort).
  simpl. destruct (json_dumps_indent schema) as [rendered|e]; [|reflexivity].
  rewrite (generate_response_short_key self _ None h Hshort).
  reflexivity.
Qed.

Lemma tools_of_schema_dict (schema : pyval) :
  ∀ t, Some (DeepSeekAdapter.tools_of_schema schema) = Some t →
       truthy t = true → is_dict t = true.
Proof. intros t [= <-] _. reflexivity. Qed.

Lemma with_retry_first_success {A : Type} (func : list event -> outcome A)
    (max_retries : Z) (h : list event) (r : A) :
  (0 < max_retries)%Z → func h = Ok r →
  with_retry func max_retries h = (Ok r, (h ++ [Invoked])%list).
Proof.
  intros Hpos Hf. unfold with_retry, range.
  destruct (Z.to_nat max_retries) as [|j] eqn:Hn; [lia|].
  simpl. unfold invoke. rewrite Hf. reflexivity.
Qed.

End StructuredFacts.

(** X3. With a credential shorter than 10 characters
    [generate_structured_response] never reaches the provider: both of
    its attempts are refused, and it raises the service error of the
    second one (or what rendering the schema for the second prompt
    raised). *)
Theorem generate_structured_response_rejects_bad_key
    (create : DeepSeekAdapter.request -> list BaseAIAdapter.event ->
              outcome (list DeepSeekAdapter.message))
    (json_dumps json_dumps_indent : pyval -> outcome string)
    (json_loads : string -> outcome pyval)
    (self : BaseAIAdapter.adapter) (prompt : string) (schema : pyval)
    (h : list BaseAIAdapter.event) :
  (String.length (BaseAIAdapter.api_key self) < 10)%nat →
  DeepSeekAdapter.generate_structured_response create json_dumps json_dumps_indent
      json_loads self prompt schema h =
    (match json_dumps_indent schema with
     | Ok _ => Raise (Exn AIServiceError
                        "Failed to generate structured response: Invalid API key")
     | Raise e => Raise e
     end, h).
Proof.
  apply generate_structured_response_short_key.
Qed.

Lemma generate_structured_response_rejects_bad_key_witness :
  (String.length (BaseAIAdapter.api_key short_key_adapter) < 10)%nat ∧
  DeepSeekAdapter.generate_structured_response unreachable_provider
      (fun _ => Ok EmptyString) (fun _ => Ok "{}") Json.loads short_key_adapter
      "Summarise the paper." (PDict ∅) [] =
    (Raise (Exn AIServiceError
              "Failed to generate structured response: Invalid API key"), []).
Proof.
  assert (H : (String.length (BaseAIAdapter.api_key short_key_adapter) < 10)%nat).
  { simpl. lia. }
  split; [exact H|].
  exact (generate_structured_response_rejects_bad_key unreachable_provider
           (fun _ => Ok EmptyString) (fun _ => Ok "{}") Json.loads short_key_adapter
           "Summarise the paper." (PDict ∅) [] H).
Defined.

(** X4. [generate_structured_response] makes at most two rounds of
    [max_retries] provider calls, and it raises nothing but an
    [AIServiceError] whose message starts with "Failed to generate
    structured response: ", the exception of [json.dumps(schema,
    indent=2)] apart, which is raised as it is. *)
Theorem generate_structured_response_failures
    (create : DeepSeekAdapter.request -> list BaseAIAdapter.event ->
              outcome (list DeepSeekAdapter.message))
    (json_dumps json_dumps_indent : pyval -> outcome string)
    (json_loads : string -> outcome pyval)
    (self : BaseAIAdapter.adapter) (prompt : string) (schema : pyval)
    (h : list BaseAIAdapter.event) :
  let '(r, h') :=
    DeepSeekAdapter.generate_structured_response create json_dumps json_dumps_indent
      json_loads self prompt schema h in
  (invocations h' <= invocations h + 2 * Z.to_nat (BaseAIAdapter.max_retries self))%nat ∧
  ∀ e, r = Raise e →
    json_dumps_indent schema = Raise e ∨
    (exn_cls e = AIServiceError ∧
     ∃ cause, exn_msg e = "Failed to generate structured response: " ++ cause).
Proof.
  unfold DeepSeekAdapter.generate_structured_response.
  pose proof (generate_response_service_errors create json_dumps self prompt
                (Some (DeepSeekAdapter.tools_of_schema schema)) h
                (tools_of_schema_dict schema)) as [Hinv1 _].
  destruct (DeepSeekAdapter.generate_response create json_dumps self prompt
              (Some (DeepSeekAdapter.tools_of_schema schema)) h) as [r1 h1].
  simpl in Hinv1.
  set (first := try_except _ any_Exception _).
  assert (Hfirst : ∃ o, first = Ok o).
  { subst first. destruct r1 as [response|e1]; simpl; [|eauto].
    destruct (DeepSeekAdapter._extract_function_call json_loads response); simpl; eauto. }
  destruct Hfirst as [[data|] ->].
  { split; [lia|]. intros e He. discriminate. }
  destruct (json_dumps_indent schema) as [rendered|e0] eqn:Hrender.
  2:{ split; [lia|]. intros e He. left. injection He as <-. reflexivity. }
  pose proof (generate_response_service_errors create json_dumps self
                (DeepSeekAdapter.json_prompt prompt rendered) None h1) as [Hinv2 _].
  { intros t Ht. discriminate. }
  destruct (DeepSeekAdapter.generate_response create json_dumps self
              (DeepSeekAdapter.json_prompt prompt rendered) None h1) as [r2 h2].
  simpl in Hinv2. split; [lia|].
  intros e He. right.
  destruct (let* response := r2 in
            DeepSeekAdapter._extract_json_from_response json_loads response)
    as [v|e2]; simpl in He; [discriminate|].
  injection He as <-. simpl. eauto.
Qed.

(** X5. The function-call path end to end: when the first completion is
    a function call, [_extract_content] serialises it, and if reading the
    serialisation back gives the call again and its arguments decode to
    a truthy value, [generate_structured_response] returns that value
    after a single provider call: the second prompt is never sent. *)
Theorem generate_structured_response_function_call
    (create : DeepSeekAdapter.request -> list BaseAIAdapter.event ->
              outcome (list DeepSeekAdapter.message))
    (json_dumps json_dumps_indent : pyval -> outcome string)
    (json_loads : string -> outcome pyval)
    (self : BaseAIAdapter.adapter) (prompt : string) (schema : pyval)
    (h : list BaseAIAdapter.event)
    (name arguments text : string) (content : option string)
    (rest : list DeepSeekAdapter.message) (payload : pyval) :
  (10 <= String.length (BaseAIAdapter.api_key self))%nat →
  (0 < BaseAIAdapter.max_retries self)%Z →
  (∀ request, create request h =
              Ok (DeepSeekAdapter.Message (Some (name, arguments)) content :: rest)) →
  json_dumps (PDict (<["name" := PStr name]> (<["arguments" := PStr arguments]> ∅)))
    = Ok text →
  json_loads text =
    Ok (PDict (<["name" := PStr name]> (<["arguments" := PStr arguments]> ∅))) →
  json_loads arguments = Ok payload →
  truthy payload = true →
  DeepSeekAdapter.generate_structured_response create json_dumps json_dumps_indent
      json_loads self prompt schema h =
    (Ok payload, (h ++ [BaseAIAdapter.Invoked])%list).
Proof.
  intros Hkey Hretries Hcreate Hdumps Hloads Hargs Htruthy.
  assert (Hvalid : BaseAIAdapter.validate_api_key self = true).
  { destruct (BaseAIAdapter.validate_api_key self) eqn:Hv; [reflexivity|].
    apply validate_api_key_length in Hv. lia. }
  unfold DeepSeekAdapter.generate_structured_response,
    DeepSeekAdapter.generate_response.
  rewrite Hvalid. simpl negb. cbv iota.
  change (truthy (DeepSeekAdapter.tools_of_schema schema)) with true. cbv iota.
  destruct (let* fs := py_get (DeepSeekAdapter.tools_of_schema schema) "functions"
                         (PList []) in _) as [fns|e] eqn:Hfns.
  2:{ vm_compute in Hfns. discriminate. }
  rewrite (with_retry_first_success _ _ h _ Hretries (Hcreate _)).
  simpl. rewrite Hdumps. simpl.
  unfold DeepSeekAdapter._extract_function_call.
  rewrite Hloads.
  set (d := <["name" := PStr name]> (<["arguments" := PStr arguments]> ∅)).
  assert (Hn : d !! "name" = Some (PStr name)) by apply lookup_insert_eq.
  assert (Ha : d !! "arguments" = Some (PStr arguments)).
  { subst d. rewrite lookup_insert_ne by done. apply lookup_insert_eq. }
  cbv beta iota delta [bind try_except py_getitem any_Exception].
  rewrite Hn, Ha.
  rewrite !bool_decide_eq_true_2 by eauto.
  cbv beta iota delta [andb DeepSeekAdapter.loads_value].
  rewrite Hargs, Htruthy. reflexivity.
Qed.

Lemma generate_structured_response_function_call_witness :
  let call := PDict (<["name" := PStr "analyze_paper"]>
                       (<["arguments" := PStr sample_arguments]> ∅)) in
  (10 <= String.length (BaseAIAdapter.api_key sample_adapter))%nat ∧
  (0 < BaseAIAdapter.max_retries sample_adapter)%Z ∧
  (∀ request, calling_provider request [] =
              Ok [DeepSeekAdapter.Message (Some ("analyze_paper", sample_arguments)) None]) ∧
  Json.loads sample_call_text = Ok call ∧
  Json.loads sample_arguments = Ok (PDict {[ "title" := PStr "Graph kernels" ]}) ∧
  truthy (PDict {[ "title" := PStr "Graph kernels" ]}) = true ∧
  DeepSeekAdapter.generate_structured_response calling_provider
      (fun _ => Ok sample_call_text) (fun _ => Ok "{}") Json.loads sample_adapter
      "Summarise the paper." (PDict ∅) [] =
    (Ok (PDict {[ "title" := PStr "Graph kernels" ]}), [BaseAIAdapter.Invoked]).
Proof.
  assert (H1 : (10 <= String.length (BaseAIAdapter.api_key sample_adapter))%nat)
    by (simpl; lia).
  assert (H2 : (0 < BaseAIAdapter.max_retries sample_adapter)%Z) by (simpl; lia).
  assert (H3 : ∀ request, calling_provider request [] =
            Ok [DeepSeekAdapter.Message (Some ("analyze_paper", sample_arguments)) None])
    by reflexivity.
  assert (H4 : Json.loads sample_call_text =
               Ok (PDict (<["name" := PStr "analyze_paper"]>
                            (<["arguments" := PStr sample_arguments]> ∅))))
    by (vm_compute; reflexivity).
  assert (H5 : Json.loads sample_arguments =
               Ok (PDict {[ "title" := PStr "Graph kernels" ]}))
    by (vm_compute; reflexivity).
  assert (H6 : truthy (PDict {[ "title" := PStr "Graph kernels" ]}) = true)
    by reflexivity.
  intros call.
  split; [exact H1|]. split; [exact H2|]. split; [exact H3|]. split; [exact H4|].
  split; [exact H5|]. split; [exact H6|].
  exact (generate_structured_response_function_call calling_provider
           (fun _ => Ok sample_call_text) (fun _ => Ok "{}") Json.loads sample_adapter
           "Summarise the paper." (PDict ∅) [] "analyze_paper" sample_arguments
           sample_call_text None [] (PDict {[ "title" := PStr "Graph kernels" ]})
           H1 H2 H3 eq_refl H4 H5 H6).
Defined.

(** * The search for a JSON object inside a reply *)

Lemma append_cons (c : ascii) (s t : string) : String c s ++ t = String c (s ++ t).
Proof. reflexivity. Qed.

Lemma upto_last_close_none (s : string) :
  has_char "}" s = false → upto_last_close s = None.
Proof.
  induction s as [|c s IH]; simpl; [reflexivity|].
  intros H. apply orb_false_iff in H as [Hc Hs].
  rewrite (IH Hs), Hc. reflexivity.
Qed.

Lemma upto_last_close_prefix (mid t r : string) :
  upto_last_close t = Some r → upto_last_close (mid ++ t) = Some (mid ++ r).
Proof.
  intros Ht. induction mid as [|c mid IH]; [exact Ht|].
  rewrite !append_cons. simpl. rewrite IH. reflexivity.
Qed.

Lemma upto_last_close_app (mid post : string) :
  has_char "}" post = false →
  upto_last_close (mid ++ "}" ++ post) = Some (mid ++ "}").
Proof.
  intros Hpost. apply upto_last_close_prefix.
  change ("}" ++ post) with (String "}" post). simpl.
  rewrite (upto_last_close_none post Hpost). reflexivity.
Qed.

Lemma upto_last_close_some (s r : string) :
  upto_last_close s = Some r →
  ∃ mid post, s = mid ++ "}" ++ post ∧ r = mid ++ "}" ∧ has_char "}" post = false.
Proof.
  revert r. induction s as [|c s IH]; simpl; intros r H; [discriminate|].
  destruct (upto_last_close s) as [r'|] eqn:Hs.
  - injection H as <-. destruct (IH r' eq_refl) as (mid & post & -> & -> & Hpost).
    exists (String c mid), post. split; [reflexivity|]. split; [reflexivity|].
    exact Hpost.
  - destruct (Ascii.eqb_spec c "}") as [->|Hne]; [|discriminate].
    injection H as <-. exists EmptyString, s.
    split; [reflexivity|]. split; [reflexivity|].
    clear IH. induction s as [|c s IH]; simpl in *; [reflexivity|].
    destruct (upto_last_close s); [discriminate|].
    destruct (Ascii.eqb c "}"); [discriminate|]. simpl. apply IH. reflexivity.
Qed.

(** The match of the pattern: the span from the first opening brace to
    the last closing brace behind it. *)
Lemma re_search_braces_span (pre mid post : string) :
  has_char "{" pre = false → has_char "}" post = false →
  re_search_braces (pre ++ "{" ++ mid ++ "}" ++ post) = Some ("{" ++ mid ++ "}").
Proof.
  intros Hpre Hpost. induction pre as [|c pre IH].
  - change (EmptyString ++ "{" ++ mid ++ "}" ++ post)
      with (String "{" (mid ++ "}" ++ post)).
    simpl. rewrite (upto_last_close_app mid post Hpost). reflexivity.
  - change (String c pre ++ "{" ++ mid ++ "}" ++ post)
      with (String c (pre ++ "{" ++ mid ++ "}" ++ post)).
    simpl.
    simpl in Hpre. apply orb_false_iff in Hpre as [Hc Hpre]. rewrite Hc.
    apply IH. exact Hpre.
Qed.

Lemma re_search_braces_some (text group : string) :
  re_search_braces text = Some group →
  ∃ pre mid post, text = pre ++ "{" ++ mid ++ "}" ++ post ∧
                  group = "{" ++ mid ++ "}" ∧
                  has_char "{" pre = false ∧ has_char "}" post = false.
Proof.
  induction text as [|c text IH]; simpl; intros H; [discriminate|].
  destruct (Ascii.eqb_spec c "{") as [->|Hne].
  - destruct (upto_last_close text) as [r|] eqn:Hr; [|discriminate].
    injection H as <-.
    destruct (upto_last_close_some _ _ Hr) as (mid & post & -> & -> & Hpost).
    exists EmptyString, mid, post.
    split; [reflexivity|]. split; [reflexivity|]. split; [reflexivity | exact Hpost].
  - destruct (IH H) as (pre & mid & post & -> & -> & Hpre & Hpost).
    exists (String c pre), mid, post.
    split; [reflexivity|]. split; [reflexivity|]. split; [|exact Hpost].
    simpl. rewrite Hpre. apply Ascii.eqb_neq in Hne. rewrite Hne. reflexivity.
Qed.

(** X6. The pattern [\{[\s\S]*\}] that the engine and the adapter
    search a reply with matches exactly the span from the first opening
    brace to the last closing brace: a text has a match [group] if and
    only if it is [pre ++ group ++ post] with [group] in braces, no
    opening brace in [pre] and no closing brace in [post]. *)
Theorem re_search_braces_first_to_last (text group : string) :
  re_search_braces text = Some group ↔
  ∃ pre mid post, text = pre ++ "{" ++ mid ++ "}" ++ post ∧
                  group = "{" ++ mid ++ "}" ∧
                  has_char "{" pre = false ∧ has_char "}" post = false.
Proof.
  split.
  - apply re_search_braces_some.
  - intros (pre & mid & post & -> & -> & Hpre & Hpost).
    apply re_search_braces_span; assumption.
Qed.

(** X7. A reply that carries an object in prose and on which
    [json.loads] raises. When the exception is a [JSONDecodeError] the
    parser decodes the span from the first opening to the last closing
    brace and returns its normalisation; whenever that span does not
    decode or its normalisation raises, it returns the degraded result
    built from the text, and it does not raise. Any other exception of
    [json.loads] on the whole reply, such as the [RecursionError] of a
    reply that opens with brackets nested beyond the interpreter's
    limit, is raised as it is. *)
Theorem parse_analysis_result_embedded_object
    (json_loads : string -> outcome pyval) (py_repr : pyval -> string)
    (pre mid post version : string) (e : exn) :
  let text := pre ++ "{" ++ mid ++ "}" ++ post in
  has_char "{" pre = false → has_char "}" post = false →
  json_loads text = Raise e →
  AIAnalysisEngine._parse_analysis_result json_loads py_repr text version =
    if is_JSONDecodeError e then
      Ok (match (let* r := json_loads ("{" ++ mid ++ "}") in
                 AIAnalysisEngine._normalize_analysis_result py_repr r version) with
          | Ok m => m
          | Raise _ => AIAnalysisEngine._create_basic_result_from_text text
          end)
    else Raise e.
Proof.
  intros text Hpre Hpost He.
  unfold AIAnalysisEngine._parse_analysis_result. rewrite He. simpl.
  destruct (is_JSONDecodeError e); [|reflexivity].
  unfold AIAnalysisEngine._extract_json_from_text.
  subst text. rewrite (re_search_braces_span pre mid post Hpre Hpost).
  destruct (json_loads ("{" ++ mid ++ "}")) as [r|e'] eqn:Hspan; simpl.
  - destruct (AIAnalysisEngine._normalize_analysis_result py_repr r version);
      reflexivity.
  - destruct (is_JSONDecodeError e'); reflexivity.
Qed.

Lemma parse_analysis_result_embedded_object_witness :
  let pre := "Here is the analysis: " in
  let mid := dquote ++ "title" ++ dquote ++ ": " ++ dquote ++ "Graph kernels" ++ dquote in
  let post := " I hope it helps." in
  let text := pre ++ "{" ++ mid ++ "}" ++ post in
  let deep := brackets 2000 in
  (has_char "{" pre = false ∧ has_char "}" post = false ∧
   Json.loads text = Raise Json.decode_error ∧
   AIAnalysisEngine._parse_analysis_result Json.loads Json.repr_unused text "EN" =
     if is_JSONDecodeError Json.decode_error then
       Ok (match (let* r := Json.loads ("{" ++ mid ++ "}") in
                  AIAnalysisEngine._normalize_analysis_result Json.repr_unused r "EN") with
           | Ok m => m
           | Raise _ => AIAnalysisEngine._create_basic_result_from_text text
           end)
     else Raise Json.decode_error) ∧
  (has_char "{" deep = false ∧ has_char "}" post = false ∧
   loads_with_limit 1000 (deep ++ "{" ++ mid ++ "}" ++ post) = Raise recursion_error ∧
   AIAnalysisEngine._parse_analysis_result (loads_with_limit 1000) Json.repr_unused
       (deep ++ "{" ++ mid ++ "}" ++ post) "EN" =
     if is_JSONDecodeError recursion_error then
       Ok (match (let* r := loads_with_limit 1000 ("{" ++ mid ++ "}") in
                  AIAnalysisEngine._normalize_analysis_result Json.repr_unused r "EN") with
           | Ok m => m
           | Raise _ =>
               AIAnalysisEngine._create_basic_result_from_text
                 (deep ++ "{" ++ mid ++ "}" ++ post)
           end)
     else Raise recursion_error).
Proof.
  intros pre mid post text deep.
  assert (H1 : has_char "{" pre = false) by reflexivity.
  assert (H2 : has_char "}" post = false) by reflexivity.
  assert (H3 : Json.loads text = Raise Json.decode_error) by (vm_compute; reflexivity).
  assert (H4 : has_char "{" deep = false) by (vm_compute; reflexivity).
  assert (H5 : loads_with_limit 1000 (deep ++ "{" ++ mid ++ "}" ++ post) =
               Raise recursion_error) by (vm_compute; reflexivity).
  split.
  - split; [exact H1|]. split; [exact H2|]. split; [exact H3|].
    exact (parse_analysis_result_embedded_object Json.loads Json.repr_unused
             pre mid post "EN" Json.decode_error H1 H2 H3).
  - split; [exact H4|]. split; [exact H2|]. split; [exact H5|].
    exact (parse_analysis_result_embedded_object (loads_with_limit 1000)
             Json.repr_unused deep mid post "EN" recursion_error H4 H2 H5).
Defined.

(** X8. On a reply with an opening brace and a closing brace behind
    it, [_extract_json_from_response] returns what the whole reply
    decodes to, whatever JSON value that is; when the reply does not
    decode it returns what the span from the first opening to the last
    closing brace decodes to, and raises [AIServiceError("No valid JSON
    found in response")] when that span does not decode either. *)
Theorem extract_json_from_response_embedded
    (json_loads : string -> outcome pyval) (pre mid post : string) :
  let text := pre ++ "{" ++ mid ++ "}" ++ post in
  has_char "{" pre = false → has_char "}" post = false →
  DeepSeekAdapter._extract_json_from_response json_loads text =
    match json_loads text with
    | Ok v => Ok v
    | Raise e =>
        if is_JSONDecodeError e then
          match json_loads ("{" ++ mid ++ "}") with
          | Ok v => Ok v
          | Raise e' =>
              if is_JSONDecodeError e'
              then Raise (Exn AIServiceError "No valid JSON found in response")
              else Raise e'
          end
        else Raise e
    end.
Proof.
  intros text Hpre Hpost. unfold DeepSeekAdapter._extract_json_from_response.
  destruct (json_loads text) as [v|e]; simpl; [reflexivity|].
  destruct (is_JSONDecodeError e); [|reflexivity].
  subst text. rewrite (re_search_braces_span pre mid post Hpre Hpost).
  destruct (json_loads ("{" ++ mid ++ "}")) as [v|e']; reflexivity.
Qed.

Lemma extract_json_from_response_embedded_witness :
  let pre := "Here is the analysis: " in
  let mid := dquote ++ "title" ++ dquote ++ ": " ++ dquote ++ "Graph kernels" ++ dquote in
  let post := " I hope it helps." in
  has_char "{" pre = false ∧ has_char "}" post = false ∧
  DeepSeekAdapter._extract_json_from_response Json.loads
      (pre ++ "{" ++ mid ++ "}" ++ post) =
    match Json.loads (pre ++ "{" ++ mid ++ "}" ++ post) with
    | Ok v => Ok v
    | Raise e =>
        if is_JSONDecodeError e then
          match Json.loads ("{" ++ mid ++ "}") with
          | Ok v => Ok v
          | Raise e' =>
              if is_JSONDecodeError e'
              then Raise (Exn AIServiceError "No valid JSON found in response")
              else Raise e'
          end
        else Raise e
    end.
Proof.
  intros pre mid post.
  assert (H1 : has_char "{" pre = false) by reflexivity.
  assert (H2 : has_char "}" post = false) by reflexivity.
  split; [exact H1|]. split; [exact H2|].
  exact (extract_json_from_response_embedded Json.loads pre mid post H1 H2).
Defined.

(** X9. [_extract_function_call] never raises a [JSONDecodeError] or a
    [KeyError]. A reply on which [json.loads] raises one of the two
    gives [None], and any other exception of [json.loads] is raised as
    it is; a reply that decodes to anything but a dictionary with the
    keys [name] and [arguments] gives [None]. For such a dictionary
    whose arguments are a string the result is what
    [json.loads(arguments)] returns, [None] where that raises a
    [JSONDecodeError] or a [KeyError], and its exception otherwise;
    arguments that are not a string raise a [TypeError]. *)
Theorem extract_function_call_outcomes
    (json_loads : string -> outcome pyval) (response : string) :
  (∀ e, DeepSeekAdapter._extract_function_call json_loads response = Raise e →
        DeepSeekAdapter.is_decode_or_key_error e = false) ∧
  (∀ e, json_loads response = Raise e →
        DeepSeekAdapter._extract_function_call json_loads response =
          if DeepSeekAdapter.is_decode_or_key_error e then Ok PNone else Raise e) ∧
  (decode_fails json_loads response →
   DeepSeekAdapter._extract_function_call json_loads response = Ok PNone) ∧
  (∀ v, json_loads response = Ok v →
        (∀ d, v = PDict d → d !! "name" = None ∨ d !! "arguments" = None) →
        DeepSeekAdapter._extract_function_call json_loads response = Ok PNone) ∧
  (∀ d name arguments,
     json_loads response = Ok (PDict d) →
     d !! "name" = Some name → d !! "arguments" = Some (PStr arguments) →
     DeepSeekAdapter._extract_function_call json_loads response =
       match json_loads arguments with
       | Ok v => Ok v
       | Raise e =>
           if DeepSeekAdapter.is_decode_or_key_error e then Ok PNone else Raise e
       end) ∧
  (∀ d name arguments,
     json_loads response = Ok (PDict d) →
     d !! "name" = Some name → d !! "arguments" = Some arguments →
     is_str arguments = false →
     DeepSeekAdapter._extract_function_call json_loads response =
       Raise (Exn TypeError ("the JSON object must be str, bytes or bytearray, not " ++
                             type_name arguments))).
Proof.
  unfold DeepSeekAdapter._extract_function_call.
  split; [|split; [|split; [|split; [|split]]]].
  - intros e. unfold try_except.
    destruct (let* data := json_loads response in _) as [v|e0]; [discriminate|].
    destruct (DeepSeekAdapter.is_decode_or_key_error e0) eqn:Hc; [discriminate|].
    intros [= <-]. exact Hc.
  - intros e He. rewrite He. reflexivity.
  - intros (e & He & Hdec). rewrite He. simpl.
    unfold DeepSeekAdapter.is_decode_or_key_error.
    unfold is_JSONDecodeError in Hdec. destruct (exn_cls e); try discriminate.
    reflexivity.
  - intros v Hv Hkeys. rewrite Hv. simpl.
    destruct v; try reflexivity.
    destruct (Hkeys d eq_refl) as [Hn|Ha].
    + rewrite Hn. rewrite (bool_decide_eq_false_2 (is_Some None)) by (intros [? ?]; done).
      reflexivity.
    + rewrite Ha. rewrite (bool_decide_eq_false_2 (is_Some None)) by (intros [? ?]; done).
      rewrite andb_false_r. reflexivity.
  - intros d name arguments Hv Hn Ha. rewrite Hv.
    cbv beta iota delta [bind try_except py_getitem].
    rewrite Hn, Ha. rewrite !bool_decide_eq_true_2 by eauto.
    cbv beta iota delta [andb DeepSeekAdapter.loads_value].
    destruct (json_loads arguments) as [v|e]; reflexivity.
  - intros d name arguments Hv Hn Ha Hstr. rewrite Hv.
    cbv beta iota delta [bind try_except py_getitem].
    rewrite Hn, Ha. rewrite !bool_decide_eq_true_2 by eauto.
    cbv beta iota delta [andb DeepSeekAdapter.loads_value].
    destruct arguments; try discriminate; reflexivity.
Qed.

Lemma extract_function_call_outcomes_witness :
  let d : gmap string pyval :=
    <["name" := PStr "analyze_paper"]> (<["arguments" := PStr sample_arguments]> ∅) in
  Json.loads sample_call_text = Ok (PDict d) ∧
  d !! "name" = Some (PStr "analyze_paper") ∧
  d !! "arguments" = Some (PStr sample_arguments) ∧
  Json.loads sample_arguments = Ok (PDict {[ "title" := PStr "Graph kernels" ]}) ∧
  DeepSeekAdapter._extract_function_call Json.loads sample_call_text =
    match Json.loads sample_arguments with
    | Ok v => Ok v
    | Raise e => if DeepSeekAdapter.is_decode_or_key_error e then Ok PNone else Raise e
    end.
Proof.
  intros d.
  assert (H1 : Json.loads sample_call_text = Ok (PDict d)) by (vm_compute; reflexivity).
  assert (H2 : d !! "name" = Some (PStr "analyze_paper")) by (vm_compute; reflexivity).
  assert (H3 : d !! "arguments" = Some (PStr sample_arguments))
    by (vm_compute; reflexivity).
  assert (H4 : Json.loads sample_arguments =
               Ok (PDict {[ "title" := PStr "Graph kernels" ]}))
    by (vm_compute; reflexivity).
  split; [exact H1|]. split; [exact H2|]. split; [exact H3|]. split; [exact H4|].
  destruct (extract_function_call_outcomes Json.loads sample_call_text)
    as (_ & _ & _ & _ & Hstring & _).
  exact (Hstring d (PStr "analyze_paper") sample_arguments H1 H2 H3).
Defined.

(** * The engine: what an analysis looks like *)

Section EngineFacts.

Variable W : Type.
Variable json_loads : string -> outcome pyval.
Variable json_dumps : pyval -> outcome string.
Variable py_repr : pyval -> string.
Variable ai_adapter : AIAnalysisEngine.ai_adapter W.
Variable config : AIAnalysisEngine.config.
Variable get_analysis_prompt : string -> string.
Variable tool_parameters : string -> pyval.

(** Where a returned mapping comes from: the normaliser or the degraded
    result. *)
Lemma parse_result_origin (text version : string) (m : gmap string pyval) :
  AIAnalysisEngine._parse_analysis_result json_loads py_repr text version = Ok m →
  (∃ r, AIAnalysisEngine._normalize_analysis_result py_repr r version = Ok m) ∨
  m = AIAnalysisEngine._create_basic_result_from_text text.
Proof.
  intros Hparse. unfold AIAnalysisEngine._parse_analysis_result in Hparse.
  destruct (json_loads text) as [v|e]; simpl in Hparse.
  - destruct (AIAnalysisEngine._normalize_analysis_result py_repr v version)
      as [m'|e'] eqn:Hn; simpl in Hparse.
    + left. exists v. congruence.
    + destruct (is_JSONDecodeError e'); [|discriminate].
      destruct (AIAnalysisEngine._extract_json_from_text json_loads text) as [r|e2];
        simpl in Hparse.
      * destruct (AIAnalysisEngine._normalize_analysis_result py_repr r version)
          as [m2|e3] eqn:Hn2; simpl in Hparse; [left; exists r|right]; congruence.
      * right. congruence.
  - destruct (is_JSONDecodeError e); [|discriminate].
    destruct (AIAnalysisEngine._extract_json_from_text json_loads text) as [r|e2];
      simpl in Hparse.
    + destruct (AIAnalysisEngine._normalize_analysis_result py_repr r version)
        as [m2|e3] eqn:Hn2; simpl in Hparse; [left; exists r|right]; congruence.
    + right. congruence.
Qed.

Lemma expected_fields_six (version field : string) :
  In field AIAnalysisEngine.score_fields →
  In field (AIAnalysisEngine.expected_fields version).
Proof.
  intros H. unfold AIAnalysisEngine.expected_fields. apply in_or_app. left. exact H.
Qed.

(** The six required fields of a returned mapping are strings, the
    seventh is a string, [None] or absent. *)
Lemma parse_result_fields (text version : string) (m : gmap string pyval) :
  AIAnalysisEngine._parse_analysis_result json_loads py_repr text version = Ok m →
  (∀ f, In f AIAnalysisEngine.score_fields → is_text m f) ∧
  (m !! "research_significance" = None ∨
   m !! "research_significance" = Some PNone ∨
   is_text m "research_significance").
Proof.
  intros Hparse. destruct (parse_result_origin _ _ _ Hparse) as [[r Hn]| ->].
  - destruct (normalize_result_shape py_repr _ _ _ Hn) as (Htext & _ & Hnone).
    split.
    + intros f Hf. apply Htext, expected_fields_six, Hf.
    + destruct (in_dec string_dec "research_significance"
                  (AIAnalysisEngine.expected_fields version)) as [Hin|Hout].
      * right. right. apply Htext, Hin.
      * left. apply Hnone, Hout.
  - destruct (basic_result_placeholders text) as (Hp & Hs & Hl & Hk & Hr).
    split.
    + intros f Hf. simpl in Hf.
      decompose [or] Hf; subst; try contradiction; eexists;
        [apply basic_result_title | apply basic_result_summary
        | exact Hp | exact Hs | exact Hl | exact Hk].
    + right. left. exact Hr.
Qed.

Lemma engine_analyze_paper_returns (paper : Paper.Paper) (w : W) :
  ∃ analysis,
    fst (AIAnalysisEngine.analyze_paper W json_loads json_dumps py_repr ai_adapter
           config get_analysis_prompt tool_parameters paper w) = Ok analysis ∧
    PaperAnalysis.paper_id analysis = Paper.id paper.
Proof.
  unfold AIAnalysisEngine.analyze_paper.
  destruct (AIAnalysisEngine.analyze_paper_body W json_loads json_dumps py_repr
              ai_adapter config get_analysis_prompt tool_parameters paper w)
    as [[a|e] w1] eqn:Hbody; simpl; [|eauto].
  exists a. split; [reflexivity|].
  unfold AIAnalysisEngine.analyze_paper_body in Hbody.
  destruct (AIAnalysisEngine._generate_analysis _ _ _ _ _ _ _ _) as [[result|e] w2];
    [|discriminate].
  destruct (AIAnalysisEngine._parse_analysis_result _ _ _ _) as [m|e]; [|discriminate].
  injection Hbody as <- _. reflexivity.
Qed.

End EngineFacts.

(** X10. Whatever the provider answers, the analysis the engine returns
    carries the paper's identifier and is of one of two shapes. A
    completed one keeps the raw reply, has no error message, names the
    configured prompt version and the adapter's model, counts at least
    one token, scores between 0 and 1, and its six required fields are
    strings (the seventh a string or [None]). A failed one is the fixed
    record with the error message, scoring 0. *)
Theorem analyze_paper_result_shape (W : Type)
    (json_loads : string -> outcome pyval) (json_dumps : pyval -> outcome string)
    (py_repr : pyval -> string) (ai_adapter : AIAnalysisEngine.ai_adapter W)
    (config : AIAnalysisEngine.config) (get_analysis_prompt : string -> string)
    (tool_parameters : string -> pyval) (paper : Paper.Paper) (w : W) :
  ∃ a w',
    AIAnalysisEngine.analyze_paper W json_loads json_dumps py_repr ai_adapter config
      get_analysis_prompt tool_parameters paper w = (Ok a, w') ∧
    PaperAnalysis.paper_id a = Paper.id paper ∧
    in_unit_interval (PaperAnalysis.confidence_score a) ∧
    ((PaperAnalysis.status a = COMPLETED ∧
      (∃ reply, PaperAnalysis.raw_response a = Some reply) ∧
      PaperAnalysis.error_message a = None ∧
      PaperAnalysis.prompt_version a = AIAnalysisEngine.prompt_version config ∧
      PaperAnalysis.model_used a = AIAnalysisEngine.model W ai_adapter ∧
      (1 <= PaperAnalysis.token_count a)%nat ∧
      is_str (PaperAnalysis.title a) = true ∧
      is_str (PaperAnalysis.summary a) = true ∧
      is_str (PaperAnalysis.problem a) = true ∧
      is_str (PaperAnalysis.solution a) = true ∧
      is_str (PaperAnalysis.limitations a) = true ∧
      is_str (PaperAnalysis.key_contributions a) = true ∧
      (PaperAnalysis.research_significance a = PNone ∨
       is_str (PaperAnalysis.research_significance a) = true)) ∨
     (∃ message,
        a = PaperAnalysis.failed EmptyString (Paper.id paper) "Analysis Failed" message ∧
        PaperAnalysis.status a = FAILED ∧
        PaperAnalysis.confidence_score a = 0%float)).
Proof.
  unfold AIAnalysisEngine.analyze_paper, AIAnalysisEngine.analyze_paper_body.
  destruct (AIAnalysisEngine._generate_analysis _ _ _ _ _ _ _ _) as [[result|e] w1].
  2:{ eexists _, _. split; [reflexivity|]. split; [reflexivity|].
      split; [split; reflexivity|]. right. eexists. repeat split. }
  destruct (AIAnalysisEngine._parse_analysis_result json_loads py_repr result
              (AIAnalysisEngine.prompt_version config)) as [m|e] eqn:Hparse.
  2:{ eexists _, _. split; [reflexivity|]. split; [reflexivity|].
      split; [split; reflexivity|]. right. eexists. repeat split. }
  destruct (parse_result_fields json_loads py_repr _ _ _ Hparse) as [Hsix Hsig].
  assert (Hfield : ∀ f dflt, In f AIAnalysisEngine.score_fields →
                             is_str (default dflt (m !! f)) = true).
  { intros f dflt Hf. destruct (Hsix f Hf) as [s ->]. reflexivity. }
  eexists _, _. split; [reflexivity|]. split; [reflexivity|].
  split; [apply confidence_score_bounds|].
  left. cbn [PaperAnalysis.status PaperAnalysis.raw_response
             PaperAnalysis.error_message PaperAnalysis.prompt_version
             PaperAnalysis.model_used PaperAnalysis.token_count PaperAnalysis.title
             PaperAnalysis.summary PaperAnalysis.problem PaperAnalysis.solution
             PaperAnalysis.limitations PaperAnalysis.key_contributions
             PaperAnalysis.research_significance].
  split; [reflexivity|]. split; [eauto|]. split; [reflexivity|].
  split; [reflexivity|]. split; [reflexivity|].
  split; [unfold BaseAIAdapter.estimate_tokens; lia|].
  split; [apply Hfield; simpl; auto 10|]. split; [apply Hfield; simpl; auto 10|].
  split; [apply Hfield; simpl; auto 10|]. split; [apply Hfield; simpl; auto 10|].
  split; [apply Hfield; simpl; auto 10|]. split; [apply Hfield; simpl; auto 10|].
  destruct Hsig as [->|[->|[s ->]]]; simpl; auto.
Qed.

(** X11. [_generate_analysis] raises nothing but an [AIServiceError],
    and only when the plain-text request itself raised: its message is
    "Failed to generate analysis: " followed by that of the request's
    error. A failure of the function-calling attempt or of the JSON
    extraction is never raised. *)
Theorem generate_analysis_failures (W : Type)
    (json_loads : string -> outcome pyval) (json_dumps : pyval -> outcome string)
    (ai_adapter : AIAnalysisEngine.ai_adapter W) (config : AIAnalysisEngine.config)
    (prompt : string) (tools : option pyval) (w : W) :
  match AIAnalysisEngine._generate_analysis W json_loads json_dumps ai_adapter
          config prompt tools w with
  | (Ok _, _) => True
  | (Raise e, w') =>
      exn_cls e = AIServiceError ∧
      ∃ e0 w0,
        AIAnalysisEngine.generate_response W ai_adapter prompt w0 = (Raise e0, w') ∧
        exn_msg e = "Failed to generate analysis: " ++ exn_msg e0
  end.
Proof.
  unfold AIAnalysisEngine._generate_analysis.
  destruct (match tools with Some _ => _ | None => _ end) as [[s|] w1];
    [exact I|].
  destruct (AIAnalysisEngine.generate_response W ai_adapter prompt w1)
    as [[reply|e0] w2] eqn:Hplain; [exact I|].
  split; [reflexivity|]. exists e0, w1. split; [exact Hplain | reflexivity].
Qed.

(** * The scorer: filling a field in never lowers the score *)

Section ScorerMonotone.

Variable py_repr : pyval -> string.

Lemma confidence_score_of_flags (m : gmap string pyval) :
  AIAnalysisEngine._calculate_confidence_score py_repr m =
    score_of_flags (map (AIAnalysisEngine.field_counts py_repr m)
                        AIAnalysisEngine.score_fields)
                   (AIAnalysisEngine.has_significance m).
Proof. reflexivity. Qed.

Lemma all_flags_complete (n : nat) (l : list bool) :
  length l = n → In l (all_flags n).
Proof.
  revert l. induction n as [|n IH]; intros [|b l] Hl; try discriminate.
  - left. reflexivity.
  - simpl. apply in_flat_map. exists l. split; [apply IH; simpl in Hl; lia|].
    destruct b; simpl; auto.
Qed.

Lemma flags_le_map (f g : string → bool) (fields : list string) :
  (∀ x, In x fields → f x = true → g x = true) →
  flags_le (map f fields) (map g fields) = true.
Proof.
  unfold flags_le. induction fields as [|x fields IH]; intros H; [reflexivity|].
  simpl. rewrite IH by (intros y Hy; apply H; right; exact Hy).
  rewrite andb_true_r. destruct (f x) eqn:Hf; [|reflexivity].
  rewrite (H x (or_introl eq_refl) Hf). reflexivity.
Qed.

Lemma in_true_false (b : bool) : In b [true; false].
Proof. destruct b; simpl; auto. Qed.

End ScorerMonotone.

(** X12. The confidence score is monotone: if every required field that
    counts in one mapping counts in another, and the significance of the
    first is matched by the second, the second scores at least as much,
    in the floating-point arithmetic of the code. *)
Theorem confidence_score_monotone (py_repr : pyval -> string)
    (m m' : gmap string pyval) :
  (∀ f, In f AIAnalysisEngine.score_fields →
        AIAnalysisEngine.field_counts py_repr m f = true →
        AIAnalysisEngine.field_counts py_repr m' f = true) →
  (AIAnalysisEngine.has_significance m = true →
   AIAnalysisEngine.has_significance m' = true) →
  PrimFloat.leb (AIAnalysisEngine._calculate_confidence_score py_repr m)
                (AIAnalysisEngine._calculate_confidence_score py_repr m') = true.
Proof.
  intros Hfields Hsig. rewrite !confidence_score_of_flags.
  set (a := map (AIAnalysisEngine.field_counts py_repr m) AIAnalysisEngine.score_fields).
  set (b := map (AIAnalysisEngine.field_counts py_repr m') AIAnalysisEngine.score_fields).
  assert (Hcheck : score_monotone_on_flags = true) by (vm_compute; reflexivity).
  unfold score_monotone_on_flags in Hcheck.
  rewrite forallb_forall in Hcheck.
  specialize (Hcheck a (all_flags_complete 6 a eq_refl)).
  rewrite forallb_forall in Hcheck.
  specialize (Hcheck b (all_flags_complete 6 b eq_refl)).
  rewrite forallb_forall in Hcheck.
  specialize (Hcheck (AIAnalysisEngine.has_significance m) (in_true_false _)).
  rewrite forallb_forall in Hcheck.
  specialize (Hcheck (AIAnalysisEngine.has_significance m') (in_true_false _)).
  assert (Hle : flags_le a b = true) by (apply flags_le_map; exact Hfields).
  rewrite Hle in Hcheck.
  destruct (AIAnalysisEngine.has_significance m) eqn:Hs.
  - rewrite (Hsig eq_refl) in *. exact Hcheck.
  - destruct (AIAnalysisEngine.has_significance m'); exact Hcheck.
Qed.

Lemma confidence_score_monotone_witness :
  let m : gmap string pyval := {[ "summary" := PStr "Kernels on graphs compare molecules." ]} in
  (∀ f, In f AIAnalysisEngine.score_fields →
        AIAnalysisEngine.field_counts Json.repr_unused m f = true →
        AIAnalysisEngine.field_counts Json.repr_unused complete_analysis f = true) ∧
  (AIAnalysisEngine.has_significance m = true →
   AIAnalysisEngine.has_significance complete_analysis = true) ∧
  PrimFloat.leb (AIAnalysisEngine._calculate_confidence_score Json.repr_unused m)
                (AIAnalysisEngine._calculate_confidence_score Json.repr_unused
                   complete_analysis) = true.
Proof.
  intros m.
  assert (H1 : ∀ f, In f AIAnalysisEngine.score_fields →
             AIAnalysisEngine.field_counts Json.repr_unused m f = true →
             AIAnalysisEngine.field_counts Json.repr_unused complete_analysis f = true).
  { intros f Hf _. simpl in Hf.
    decompose [or] Hf; subst; try contradiction; vm_compute; reflexivity. }
  assert (H2 : AIAnalysisEngine.has_significance m = true →
               AIAnalysisEngine.has_significance complete_analysis = true).
  { intros _. vm_compute. reflexivity. }
  split; [exact H1|]. split; [exact H2|].
  exact (confidence_score_monotone Json.repr_unused m complete_analysis H1 H2).
Defined.

(** * The tools configuration and the normaliser *)

Lemma normalized_keys (py_repr : pyval -> string) (r : pyval) (version : string)
    (m : gmap string pyval) :
  AIAnalysisEngine._normalize_analysis_result py_repr r version = Ok m →
  dom m =@{gset string} list_to_set (AIAnalysisEngine.expected_fields version).
Proof.
  intros Hn. destruct (normalize_result_shape py_repr _ _ _ Hn) as (Htext & _ & Hnone).
  apply set_eq. intros f. rewrite elem_of_dom, elem_of_list_to_set, list_elem_of_In.
  split.
  - intros Hsome.
    destruct (in_dec string_dec f (AIAnalysisEngine.expected_fields version))
      as [Hin|Hout]; [exact Hin|].
    rewrite (Hnone f Hout) in Hsome. destruct Hsome as [? ?]. discriminate.
  - intros Hin. destruct (Htext f Hin) as [s ->]. eauto.
Qed.

(** X13. For every prompt version the function schema that
    [ToolsLoader] hands out declares exactly the fields the normaliser
    produces for that version: the [required] list is the normaliser's
    list of expected fields, in its order, the [properties] have these
    names, and every normalised result has these keys and no other. *)
Theorem tools_schema_matches_normaliser (prompt_version : string) :
  ∃ tools parameters properties,
    ToolsLoader.get_tools_for_analysis prompt_version = Ok tools ∧
    ToolsLoader.function_parameters tools = Ok parameters ∧
    py_getitem parameters "properties" = Ok (PDict properties) ∧
    py_getitem parameters "required" =
      Ok (PList (map PStr (AIAnalysisEngine.expected_fields prompt_version))) ∧
    dom properties =@{gset string}
      list_to_set (AIAnalysisEngine.expected_fields prompt_version) ∧
    ∀ py_repr r m,
      AIAnalysisEngine._normalize_analysis_result py_repr r prompt_version = Ok m →
      dom m =@{gset string} dom properties.
Proof.
  set (significance := [("research_significance",
                         ToolsLoader.property "Research significance and impact")]).
  set (extra := if endswith prompt_version "_2_0" then significance else []).
  set (parameters :=
         ToolsLoader.parameters_object (ToolsLoader.base_properties ++ extra)
           (AIAnalysisEngine.expected_fields prompt_version)).
  set (description :=
         if endswith prompt_version "_2_0"
         then "Analyze and extract key information from an academic paper with enhanced analysis"
         else "Analyze and extract key information from an academic paper").
  assert (Hdom : dom (list_to_map (M := gmap string pyval)
                        (ToolsLoader.base_properties ++ extra))
                 =@{gset string}
                 list_to_set (AIAnalysisEngine.expected_fields prompt_version)).
  { rewrite dom_list_to_map_L. f_equal.
    subst extra significance. unfold AIAnalysisEngine.expected_fields.
    destruct (endswith prompt_version "_2_0"); reflexivity. }
  exists (ToolsLoader.functions_of description parameters), parameters,
         (list_to_map (ToolsLoader.base_properties ++ extra)).
  split.
  { unfold ToolsLoader.get_tools_for_analysis.
    subst description parameters extra significance.
    unfold AIAnalysisEngine.expected_fields.
    destruct (endswith prompt_version "_2_0"); vm_compute; reflexivity. }
  split.
  { subst description parameters extra significance.
    unfold AIAnalysisEngine.expected_fields.
    destruct (endswith prompt_version "_2_0"); vm_compute; reflexivity. }
  split.
  { subst parameters extra significance.
    destruct (endswith prompt_version "_2_0"); vm_compute; reflexivity. }
  split.
  { subst parameters extra significance.
    unfold AIAnalysisEngine.expected_fields.
    destruct (endswith prompt_version "_2_0"); vm_compute; reflexivity. }
  split; [exact Hdom|].
  intros py_repr r m Hn. rewrite Hdom.
  apply (normalized_keys py_repr r prompt_version m Hn).
Qed.

(** * Normalising a normalised mapping *)

Section Renormalise.

Variable py_repr : pyval -> string.

Lemma aliases_start_with_field (version field : string) :
  In field (AIAnalysisEngine.expected_fields version) →
  ∃ rest, aliases_of field = field :: rest.
Proof.
  intros Hin. unfold AIAnalysisEngine.expected_fields in Hin.
  apply in_app_or in Hin as [Hin|Hin].
  - simpl in Hin. decompose [or] Hin; subst; try contradiction;
      eexists; vm_compute; reflexivity.
  - destruct (endswith version "_2_0"); simpl in Hin; [|contradiction].
    destruct Hin as [<-|[]]. eexists. vm_compute. reflexivity.
Qed.

Lemma resolved_value_kept (m : gmap string pyval) (field s : string) (rest : list string) :
  aliases_of field = field :: rest →
  m !! field = Some (PStr s) → s ≠ EmptyString →
  resolved_value py_repr m field = PStr s.
Proof.
  intros Ha Hm Hs. unfold resolved_value. rewrite Ha. cbn [alias_value]. rewrite Hm.
  assert (Ht : truthy (PStr s) = true) by (apply truthy_PStr; exact Hs).
  rewrite Ht. cbn [py_str]. rewrite Ht. reflexivity.
Qed.

Lemma resolved_title_from_summary (m : gmap string pyval) (s : string) :
  m !! "title" = Some (PStr EmptyString) →
  m !! "summary" = Some (PStr s) → s ≠ EmptyString →
  resolved_value py_repr m "title" = PStr (str_take 100 s ++ "...").
Proof.
  intros Ht Hsum Hs. unfold resolved_value. rewrite aliases_of_title.
  cbn [alias_value]. rewrite Ht.
  change (truthy (PStr EmptyString)) with false. cbv iota.
  change (truthy PNone) with false. cbv iota.
  unfold fallback_value. change ("title" =? "title") with true. cbv iota.
  rewrite Hsum.
  destruct (String.eqb_spec s EmptyString) as [->|_]; [contradiction|].
  assert (Hne : truthy (PStr (str_take 100 s ++ "...")) = true).
  { apply truthy_PStr. apply append_nonempty_r. discriminate. }
  rewrite Hne. reflexivity.
Qed.

End Renormalise.

(** X14. Normalising the normaliser's own output: it never raises and
    changes nothing but an empty title, which the second pass fills with
    the first 100 characters of the summary and "...". A mapping whose
    title is not empty is a fixed point. *)
Theorem normalize_analysis_result_twice (py_repr : pyval -> string)
    (r : pyval) (version : string) (m : gmap string pyval) :
  AIAnalysisEngine._normalize_analysis_result py_repr r version = Ok m →
  ∃ m',
    AIAnalysisEngine._normalize_analysis_result py_repr (PDict m) version = Ok m' ∧
    (∀ f, f ≠ "title" → m' !! f = m !! f) ∧
    (m !! "title" ≠ Some (PStr EmptyString) → m' = m) ∧
    (m !! "title" = Some (PStr EmptyString) →
     ∃ s, m !! "summary" = Some (PStr s) ∧
          m' !! "title" = Some (PStr (str_take 100 s ++ "..."))).
Proof.
  intros Hn.
  destruct (normalize_result_shape py_repr _ _ _ Hn) as (Htext & Hfull & Hnone).
  assert (Hsum_in : In "summary" (AIAnalysisEngine.expected_fields version)).
  { unfold AIAnalysisEngine.expected_fields. apply in_or_app. left. simpl. auto. }
  assert (Htitle_in : In "title" (AIAnalysisEngine.expected_fields version)).
  { unfold AIAnalysisEngine.expected_fields. apply in_or_app. left. simpl. auto. }
  destruct (Hfull "summary" Hsum_in) as (s & Hsum & Hs); [simpl; auto|].
  assert (Hsettles : title_settles py_repr m = true).
  { unfold title_settles. rewrite Hsum. simpl. rewrite !orb_true_r. reflexivity. }
  destruct (field_resolution_on_settled_dicts py_repr m version Hsettles)
    as (m' & Hm' & Hin & Hout).
  assert (Hkept : ∀ f, In f (AIAnalysisEngine.expected_fields version) →
                       m !! f ≠ Some (PStr EmptyString) → m' !! f = m !! f).
  { intros f Hf Hne. rewrite (Hin f Hf).
    destruct (Htext f Hf) as [t Ht]. rewrite Ht. f_equal.
    destruct (aliases_start_with_field version f Hf) as [rest Ha].
    apply (resolved_value_kept py_repr m f t rest Ha Ht).
    intros ->. apply Hne. exact Ht. }
  assert (Hother : ∀ f, f ≠ "title" → m' !! f = m !! f).
  { intros f Hf.
    destruct (in_dec string_dec f (AIAnalysisEngine.expected_fields version))
      as [Hfin|Hfout].
    - apply Hkept; [exact Hfin|].
      destruct (expected_fields_sentence version f Hfin) as [->|Hsent];
        [contradiction|].
      destruct (Hfull f Hfin Hsent) as (t & Ht & Hne). rewrite Ht.
      intros [= ->]. contradiction.
    - rewrite (Hout f Hfout), (Hnone f Hfout). reflexivity. }
  exists m'. split; [exact Hm'|]. split; [exact Hother|]. split.
  - intros Hne. apply map_eq. intros f.
    destruct (String.eqb_spec f "title") as [->|Hf]; [|apply Hother; exact Hf].
    apply Hkept; assumption.
  - intros Ht. exists s. split; [exact Hsum|].
    rewrite (Hin "title" Htitle_in). f_equal.
    apply resolved_title_from_summary; assumption.
Qed.

Lemma normalize_analysis_result_twice_witness :
  AIAnalysisEngine._normalize_analysis_result Json.repr_unused (PDict ∅) "EN"
    = Ok normalized_empty_object ∧
  ∃ m',
    AIAnalysisEngine._normalize_analysis_result Json.repr_unused
      (PDict normalized_empty_object) "EN" = Ok m' ∧
    (∀ f, f ≠ "title" → m' !! f = normalized_empty_object !! f) ∧
    (normalized_empty_object !! "title" ≠ Some (PStr EmptyString) →
     m' = normalized_empty_object) ∧
    (normalized_empty_object !! "title" = Some (PStr EmptyString) →
     ∃ s, normalized_empty_object !! "summary" = Some (PStr s) ∧
          m' !! "title" = Some (PStr (str_take 100 s ++ "..."))).
Proof.
  assert (H : AIAnalysisEngine._normalize_analysis_result Json.repr_unused (PDict ∅) "EN"
              = Ok normalized_empty_object) by (vm_compute; reflexivity).
  split; [exact H|].
  exact (normalize_analysis_result_twice Json.repr_unused (PDict ∅) "EN"
           normalized_empty_object H).
Defined.

(** * Batches over the engine *)

(** X15. [BaseAnalysisEngine.batch_analyze] drops the papers whose task
    raised; over [AIAnalysisEngine.analyze_paper], which turns every
    failure into a result, nothing is dropped: the batch has one
    analysis per paper, in the order of the papers, each carrying its
    paper's identifier. *)
Theorem base_batch_analyze_over_engine_complete (W : Type)
    (json_loads : string -> outcome pyval) (json_dumps : pyval -> outcome string)
    (py_repr : pyval -> string) (ai_adapter : AIAnalysisEngine.ai_adapter W)
    (config : AIAnalysisEngine.config) (get_analysis_prompt : string -> string)
    (tool_parameters : string -> pyval) (world : Paper.Paper -> W)
    (papers : list Paper.Paper) :
  let task (paper : Paper.Paper) :=
    fst (AIAnalysisEngine.analyze_paper W json_loads json_dumps py_repr ai_adapter
           config get_analysis_prompt tool_parameters paper (world paper)) in
  let results := BaseAnalysisEngine.batch_analyze task papers in
  length results = length papers ∧
  ∀ i paper, papers !! i = Some paper →
    ∃ analysis, results !! i = Some analysis ∧
                task paper = Ok analysis ∧
                PaperAnalysis.paper_id analysis = Paper.id paper.
Proof.
  intros task results. subst results.
  rewrite base_batch_analyze_returned.
  assert (Hall : ∀ paper, ∃ analysis, task paper = Ok analysis ∧
                   PaperAnalysis.paper_id analysis = Paper.id paper).
  { intros paper. apply engine_analyze_paper_returns. }
  induction papers as [|p papers IH]; simpl.
  - split; [reflexivity|]. intros i paper Hi. destruct i; discriminate.
  - destruct (Hall p) as (a & Ha & Hid). rewrite Ha. simpl.
    destruct IH as [Hlen Hentries]. split; [simpl; f_equal; exact Hlen|].
    intros [|i] paper Hi; simpl in *.
    + injection Hi as <-. exists a. auto.
    + apply Hentries. exact Hi.
Qed.

(** * The orchestrator's batch *)

Lemma orchestrator_analyze_paper_returns (W : Type)
    (primary_engine : AnalysisOrchestrator.engine W)
    (fallback_engine : option (AnalysisOrchestrator.engine W))
    (paper : Paper.Paper) (w : W) :
  ∃ analysis,
    fst (AnalysisOrchestrator.analyze_paper W primary_engine fallback_engine paper w)
      = Ok analysis.
Proof.
  unfold AnalysisOrchestrator.analyze_paper.
  destruct (primary_engine paper w) as [[r|e] w1]; [simpl; eauto|].
  destruct fallback_engine as [fallback|]; [|simpl; eauto].
  destruct (fallback paper w1) as [[r|e2] w2]; simpl; eauto.
Qed.

Lemma gather_all_returned (tasks : list (outcome PaperAnalysis.PaperAnalysis)) :
  (∀ t, In t tasks → ∃ a, t = Ok a) →
  ∃ results, AnalysisOrchestrator.gather tasks = Ok results ∧
             map Ok results = tasks.
Proof.
  induction tasks as [|t tasks IH]; intros Hall.
  - exists []. split; reflexivity.
  - destruct (Hall t (or_introl eq_refl)) as [a ->].
    destruct IH as (results & Hg & Hmap); [intros t Ht; apply Hall; right; exact Ht|].
    exists (a :: results). simpl. rewrite Hg, Hmap. split; reflexivity.
Qed.

(** X16. The orchestrator's [batch_analyze] gathers its tasks without
    collecting exceptions, and needs not to: [analyze_paper] turns every
    failure of the engines into a result, so the batch returns one
    analysis per paper, in the order of the papers, and never raises. *)
Theorem orchestrator_batch_analyze_complete (W : Type)
    (primary_engine : AnalysisOrchestrator.engine W)
    (fallback_engine : option (AnalysisOrchestrator.engine W))
    (world : Paper.Paper -> W) (papers : list Paper.Paper) :
  let task (paper : Paper.Paper) :=
    fst (AnalysisOrchestrator.analyze_paper W primary_engine fallback_engine paper
           (world paper)) in
  ∃ results,
    AnalysisOrchestrator.batch_analyze task papers = Ok results ∧
    length results = length papers ∧
    ∀ i paper, papers !! i = Some paper →
      ∃ analysis, results !! i = Some analysis ∧ task paper = Ok analysis.
Proof.
  intros task. unfold AnalysisOrchestrator.batch_analyze.
  destruct (gather_all_returned (map task papers)) as (results & Hg & Hmap).
  { intros t Ht. apply in_map_iff in Ht as (paper & <- & _).
    apply orchestrator_analyze_paper_returns. }
  exists results. split; [exact Hg|].
  assert (Hlen : length results = length papers).
  { rewrite <- (length_map Ok results), Hmap, length_map. reflexivity. }
  split; [exact Hlen|].
  intros i paper Hi.
  assert (Hti : map task papers !! i = Some (task paper)).
  { rewrite list_lookup_fmap_Some. eauto. }
  rewrite <- Hmap in Hti. apply list_lookup_fmap_Some in Hti as (a & Ha & Hok).
  exists a. split; [exact Hok | exact Ha].
Qed.

(** * The command line: parsing, analysing, saving *)

Section CommandFacts.

Variable W : Type.
Variable parse_file : string -> W -> outcome Paper.Paper * W.
Variable orchestrator_analyze_paper :
  Paper.Paper -> W -> outcome PaperAnalysis.PaperAnalysis * W.
Variable mkdir_parent : string -> W -> outcome unit * W.
Variable dump : string -> PaperAnalysis.PaperAnalysis -> W -> outcome unit * W.
Variable analysis_file : string -> string -> string.

Lemma read_saved_attributes :
  AnalysisCommands.read_attributes AnalysisCommands.saved_attributes =
    Raise (Exn AttributeError missing_created_at).
Proof. vm_compute. reflexivity. Qed.

(** What [_save_analysis] does: it makes the directory and raises. *)
Lemma save_analysis_raises (analysis : PaperAnalysis.PaperAnalysis)
    (output_path : string) (w : W) :
  AnalysisCommands._save_analysis W mkdir_parent dump analysis output_path w =
    (Raise (Exn PaperAnalysisError
              ("Failed to save analysis: " ++
               match fst (mkdir_parent output_path w) with
               | Ok _ => missing_created_at
               | Raise e => exn_msg e
               end)),
     snd (mkdir_parent output_path w)).
Proof.
  unfold AnalysisCommands._save_analysis.
  destruct (mkdir_parent output_path w) as [[[]|e] w1]; [|reflexivity].
  rewrite read_saved_attributes. reflexivity.
Qed.

(** The three steps, with the saving step known to raise. *)
Lemma parse_analyze_save_run (file_path : string) (output_path : option string) (w : W) :
  AnalysisCommands.parse_analyze_save W parse_file orchestrator_analyze_paper
      mkdir_parent dump file_path output_path w =
    match parse_file file_path w with
    | (Raise e, w1) =>
        (Raise (Exn PaperAnalysisError ("Failed to parse paper: " ++ exn_msg e)), w1)
    | (Ok paper, w1) =>
        match orchestrator_analyze_paper paper w1 with
        | (Raise e, w2) => (Raise e, w2)
        | (Ok analysis, w2) =>
            match AnalysisCommands.given output_path with
            | None => (Ok analysis, w2)
            | Some p =>
                (Raise (Exn PaperAnalysisError
                          ("Failed to save analysis: " ++
                           match fst (mkdir_parent p w2) with
                           | Ok _ => missing_created_at
                           | Raise e => exn_msg e
                           end)),
                 snd (mkdir_parent p w2))
            end
        end
    end.
Proof.
  unfold AnalysisCommands.parse_analyze_save, AnalysisCommands._parse_paper.
  destruct (parse_file file_path w) as [[paper|e] w1]; [|reflexivity].
  destruct (orchestrator_analyze_paper paper w1) as [[analysis|e] w2]; [|reflexivity].
  destruct (AnalysisCommands.given output_path) as [p|]; [|reflexivity].
  rewrite save_analysis_raises. reflexivity.
Qed.

Lemma given_nonempty (p : string) :
  p ≠ EmptyString → AnalysisCommands.given (Some p) = Some p.
Proof.
  intros Hp. unfold AnalysisCommands.given.
  destruct (String.eqb_spec p EmptyString); [contradiction | reflexivity].
Qed.

(** A task of the batch that is given an output directory raises. *)
Lemma single_paper_with_output_dir_raises (file_path output_dir : string) (w : W) :
  output_dir ≠ EmptyString →
  analysis_file output_dir file_path ≠ EmptyString →
  ∃ e, fst (AnalysisCommands._analyze_single_paper_with_semaphore W parse_file
              orchestrator_analyze_paper mkdir_parent dump analysis_file file_path
              (Some output_dir) w) = Raise e.
Proof.
  intros Hdir Hfile. unfold AnalysisCommands._analyze_single_paper_with_semaphore.
  rewrite (given_nonempty _ Hdir), parse_analyze_save_run.
  destruct (parse_file file_path w) as [[paper|e] w1]; [|simpl; eauto].
  destruct (orchestrator_analyze_paper paper w1) as [[analysis|e] w2]; [|simpl; eauto].
  rewrite (given_nonempty _ Hfile). simpl. eauto.
Qed.

End CommandFacts.

(** X17. [_save_analysis] never writes a file. After making the parent
    directory it reads [analysis.created_at], an attribute a
    [PaperAnalysis] does not have, so it always raises a
    [PaperAnalysisError], with the message of the [AttributeError] or of
    the failed [mkdir], and [json.dump] is never reached: the outcome
    does not depend on it. *)
Theorem save_analysis_always_raises (W : Type)
    (mkdir_parent : string -> W -> outcome unit * W)
    (dump : string -> PaperAnalysis.PaperAnalysis -> W -> outcome unit * W)
    (analysis : PaperAnalysis.PaperAnalysis) (output_path : string) (w : W) :
  AnalysisCommands._save_analysis W mkdir_parent dump analysis output_path w =
    (Raise (Exn PaperAnalysisError
              ("Failed to save analysis: " ++
               match fst (mkdir_parent output_path w) with
               | Ok _ => "'PaperAnalysis' object has no attribute 'created_at'"
               | Raise e => exn_msg e
               end)),
     snd (mkdir_parent output_path w)).
Proof. apply save_analysis_raises. Qed.

(** X18. The outcomes of the command [analyze_paper]. It returns the
    orchestrator's analysis exactly when the file parses, the
    orchestrator returns and no output path is given; with an output
    path the analysis is made and then lost, because saving raises.
    Every exception comes out as a [PaperAnalysisError] whose message
    starts with "Failed to analyze paper: ". *)
Theorem analyze_paper_command_outcomes (W : Type)
    (parse_file : string -> W -> outcome Paper.Paper * W)
    (orchestrator_analyze_paper :
       Paper.Paper -> W -> outcome PaperAnalysis.PaperAnalysis * W)
    (mkdir_parent : string -> W -> outcome unit * W)
    (dump : string -> PaperAnalysis.PaperAnalysis -> W -> outcome unit * W)
    (input_path : string) (output_path : option string) (w : W) :
  AnalysisCommands.analyze_paper W parse_file orchestrator_analyze_paper mkdir_parent
      dump input_path output_path w =
    let failed (cause : string) : outcome PaperAnalysis.PaperAnalysis :=
      Raise (Exn PaperAnalysisError ("Failed to analyze paper: " ++ cause)) in
    match parse_file input_path w with
    | (Raise e, w1) => (failed ("Failed to parse paper: " ++ exn_msg e), w1)
    | (Ok paper, w1) =>
        match orchestrator_analyze_paper paper w1 with
        | (Raise e, w2) => (failed (exn_msg e), w2)
        | (Ok analysis, w2) =>
            match output_path with
            | None | Some EmptyString => (Ok analysis, w2)
            | Some p =>
                (failed ("Failed to save analysis: " ++
                         match fst (mkdir_parent p w2) with
                         | Ok _ => "'PaperAnalysis' object has no attribute 'created_at'"
                         | Raise e => exn_msg e
                         end),
                 snd (mkdir_parent p w2))
            end
        end
    end.
Proof.
  unfold AnalysisCommands.analyze_paper. rewrite parse_analyze_save_run.
  destruct (parse_file input_path w) as [[paper|e] w1]; [|reflexivity].
  destruct (orchestrator_analyze_paper paper w1) as [[analysis|e] w2]; [|reflexivity].
  destruct output_path as [[|c p]|]; reflexivity.
Qed.

(** X19. A batch with an output directory fails file by file. Once
    the files are listed, the directory is made and the bound on the
    tasks in flight is positive, every task raises when it comes to
    saving, so the returned list holds, for each file in order, the
    failed analysis ["failed_<i>"] of that file, whatever the parser
    and the orchestrator did. *)
Theorem batch_analyze_papers_with_output_dir (W : Type)
    (parse_file : string -> W -> outcome Paper.Paper * W)
    (orchestrator_analyze_paper :
       Paper.Paper -> W -> outcome PaperAnalysis.PaperAnalysis * W)
    (mkdir_parent : string -> W -> outcome unit * W)
    (dump : string -> PaperAnalysis.PaperAnalysis -> W -> outcome unit * W)
    (analysis_file : string -> string -> string) (path_name : string -> string)
    (_find_paper_files : string -> outcome (list string))
    (mkdir_output : string -> outcome unit)
    (world : string -> W) (input_dir output_dir : string) (concurrent : Z)
    (paper_files : list string) :
  output_dir ≠ EmptyString →
  (∀ file, analysis_file output_dir file ≠ EmptyString) →
  _find_paper_files input_dir = Ok paper_files →
  paper_files ≠ [] →
  mkdir_output output_dir = Ok tt →
  (0 < concurrent)%Z →
  let run_task (file : string) (dir : option string) :=
    fst (AnalysisCommands._analyze_single_paper_with_semaphore W parse_file
           orchestrator_analyze_paper mkdir_parent dump analysis_file file dir
           (world file)) in
  ∃ analyses,
    AnalysisCommands.batch_analyze_papers run_task path_name _find_paper_files
      mkdir_output input_dir (Some output_dir) concurrent =
      AnalysisCommands.Completed (Ok analyses) ∧
    length analyses = length paper_files ∧
    ∀ i file, paper_files !! i = Some file →
      ∃ analysis, analyses !! i = Some analysis ∧
        PaperAnalysis.status analysis = FAILED ∧
        PaperAnalysis.id analysis = "failed_" ++ pretty i ∧
        PaperAnalysis.paper_id analysis = file ∧
        PaperAnalysis.title analysis = PStr ("Failed: " ++ path_name file).
Proof.
  intros Hdir Hfile Hfound Hfiles Hmkdir Hpos run_task.
  rewrite batch_analyze_papers_run, Hfound. cbv zeta.
  destruct paper_files as [|file0 files]; [contradiction|].
  rewrite (given_nonempty _ Hdir), Hmkdir.
  destruct (Z.ltb_spec concurrent 0); [lia|].
  destruct (Z.eqb_spec concurrent 0); [lia|].
  eexists. split; [reflexivity|]. split; [apply length_imap|].
  intros i file Hi. rewrite list_lookup_imap, Hi. simpl.
  eexists. split; [reflexivity|]. unfold batch_entry.
  destruct (single_paper_with_output_dir_raises W parse_file orchestrator_analyze_paper
              mkdir_parent dump analysis_file file output_dir (world file) Hdir
              (Hfile file)) as [e He].
  fold (run_task file (Some output_dir)) in He. rewrite He. repeat split.
Qed.

Lemma batch_analyze_papers_with_output_dir_witness :
  let run_task (file : string) (dir : option string) :=
    fst (AnalysisCommands._analyze_single_paper_with_semaphore nat sample_parse_file
           sample_orchestrator sample_mkdir sample_dump sample_analysis_file file dir
           0%nat) in
  "out" ≠ EmptyString ∧
  (∀ file, sample_analysis_file "out" file ≠ EmptyString) ∧
  (fun _ : string => Ok five_files) "papers" = Ok five_files ∧
  five_files ≠ [] ∧
  (fun _ : string => Ok tt) "out" = @Ok unit tt ∧
  (0 < 3)%Z ∧
  ∃ analyses,
    AnalysisCommands.batch_analyze_papers run_task (fun file => file)
      (fun _ => Ok five_files) (fun _ => Ok tt) "papers" (Some "out") 3 =
      AnalysisCommands.Completed (Ok analyses) ∧
    length analyses = length five_files ∧
    ∀ i file, five_files !! i = Some file →
      ∃ analysis, analyses !! i = Some analysis ∧
        PaperAnalysis.status analysis = FAILED ∧
        PaperAnalysis.id analysis = "failed_" ++ pretty i ∧
        PaperAnalysis.paper_id analysis = file ∧
        PaperAnalysis.title analysis = PStr ("Failed: " ++ file).
Proof.
  intros run_task.
  assert (H1 : "out" ≠ EmptyString) by discriminate.
  assert (H2 : ∀ file, sample_analysis_file "out" file ≠ EmptyString)
    by (intros file; discriminate).
  assert (H3 : (fun _ : string => Ok five_files) "papers" = Ok five_files)
    by reflexivity.
  assert (H4 : five_files ≠ []) by discriminate.
  assert (H5 : (fun _ : string => Ok tt) "out" = @Ok unit tt) by reflexivity.
  assert (H6 : (0 < 3)%Z) by reflexivity.
  split; [exact H1|]. split; [exact H2|]. split; [exact H3|]. split; [exact H4|].
  split; [exact H5|]. split; [exact H6|].
  exact (batch_analyze_papers_with_output_dir nat sample_parse_file sample_orchestrator
           sample_mkdir sample_dump sample_analysis_file (fun file => file)
           (fun _ => Ok five_files) (fun _ => Ok tt) (fun _ => 0%nat) "papers" "out" 3
           five_files H1 H2 H3 H4 H5 H6).
Defined.

(** * A short credential, end to end *)

Section ShortKey.

Import BaseAIAdapter.

Variable create : DeepSeekAdapter.request -> list event ->
                  outcome (list DeepSeekAdapter.message).
Variable json_dumps : pyval -> outcome string.
Variable json_dumps_indent : pyval -> outcome string.
Variable json_loads : string -> outcome pyval.
Variable py_repr : pyval -> string.
Variable self : adapter.
Variable config : AIAnalysisEngine.config.
Variable get_analysis_prompt : string -> string.
Variable tool_parameters : string -> pyval.

Hypothesis short_key : (String.length (api_key self) < 10)%nat.

Lemma engine_short_key (paper : Paper.Paper) (h : list event) :
  AIAnalysisEngine.analyze_paper (list event) json_loads json_dumps py_repr
      (deepseek_adapter create json_dumps json_dumps_indent json_loads self)
      config get_analysis_prompt tool_parameters paper h =
    (Ok (PaperAnalysis.failed EmptyString (Paper.id paper) "Analysis Failed"
           "Failed to generate analysis: Invalid API key"), h).
Proof.
  unfold AIAnalysisEngine.analyze_paper, AIAnalysisEngine.analyze_paper_body,
    AIAnalysisEngine._generate_analysis, AIAnalysisEngine.get_tools_for_analysis.
  cbn [deepseek_adapter AIAnalysisEngine.generate_structured_response
       AIAnalysisEngine.generate_response].
  destruct (AIAnalysisEngine.enable_function_calling config).
  - rewrite (generate_structured_response_short_key create json_dumps json_dumps_indent
               json_loads self _ _ h short_key).
    destruct (json_dumps_indent _);
      rewrite (generate_response_short_key create json_dumps self _ None h short_key);
      reflexivity.
  - rewrite (generate_response_short_key create json_dumps self _ None h short_key).
    reflexivity.
Qed.

End ShortKey.

(** X20. A credential shorter than 10 characters, seen from the command
    line: the engine over the DeepSeek adapter returns the failed
    analysis "Failed to generate analysis: Invalid API key", the
    orchestrator hands it on without consulting its fallback engine,
    [test_connection] answers [False], and the provider is never
    invoked. *)
Theorem short_key_fails_without_provider_call
    (create : DeepSeekAdapter.request -> list BaseAIAdapter.event ->
              outcome (list DeepSeekAdapter.message))
    (json_dumps json_dumps_indent : pyval -> outcome string)
    (json_loads : string -> outcome pyval) (py_repr : pyval -> string)
    (self : BaseAIAdapter.adapter) (config : AIAnalysisEngine.config)
    (get_analysis_prompt : string -> string) (tool_parameters : string -> pyval)
    (fallback_engine : option (AnalysisOrchestrator.engine (list BaseAIAdapter.event)))
    (paper : Paper.Paper) (h : list BaseAIAdapter.event) :
  (String.length (BaseAIAdapter.api_key self) < 10)%nat →
  let engine :=
    AIAnalysisEngine.analyze_paper (list BaseAIAdapter.event) json_loads json_dumps
      py_repr (deepseek_adapter create json_dumps json_dumps_indent json_loads self)
      config get_analysis_prompt tool_parameters in
  let orchestrator :=
    AnalysisOrchestrator.analyze_paper (list BaseAIAdapter.event) engine
      fallback_engine in
  orchestrator paper h =
    (Ok (PaperAnalysis.failed EmptyString (Paper.id paper) "Analysis Failed"
           "Failed to generate analysis: Invalid API key"), h) ∧
  AnalysisCommands.test_connection (list BaseAIAdapter.event) orchestrator h =
    (false, h).
Proof.
  intros Hshort engine orchestrator. subst orchestrator engine.
  unfold AnalysisCommands.test_connection, AnalysisOrchestrator.analyze_paper.
  rewrite !(engine_short_key create json_dumps json_dumps_indent json_loads py_repr
              self config get_analysis_prompt tool_parameters Hshort).
  split; reflexivity.
Qed.

Lemma short_key_fails_without_provider_call_witness :
  let engine :=
    AIAnalysisEngine.analyze_paper (list BaseAIAdapter.event) Json.loads
      (fun _ => Ok "{}") Json.repr_unused
      (deepseek_adapter unreachable_provider (fun _ => Ok "{}") (fun _ => Ok "{}")
         Json.loads short_key_adapter)
      default_config (fun content => "Analyze: " ++ content) (fun _ => PDict ∅) in
  let orchestrator :=
    AnalysisOrchestrator.analyze_paper (list BaseAIAdapter.event) engine None in
  (String.length (BaseAIAdapter.api_key short_key_adapter) < 10)%nat ∧
  orchestrator (sample_paper "p1") [] =
    (Ok (PaperAnalysis.failed EmptyString (Paper.id (sample_paper "p1"))
           "Analysis Failed" "Failed to generate analysis: Invalid API key"), []) ∧
  AnalysisCommands.test_connection (list BaseAIAdapter.event) orchestrator [] =
    (false, []).
Proof.
  intros engine orchestrator.
  assert (H : (String.length (BaseAIAdapter.api_key short_key_adapter) < 10)%nat)
    by (simpl; lia).
  split; [exact H|].
  exact (short_key_fails_without_provider_call unreachable_provider (fun _ => Ok "{}")
           (fun _ => Ok "{}") Json.loads Json.repr_unused short_key_adapter
           default_config (fun content => "Analyze: " ++ content) (fun _ => PDict ∅)
           None (sample_paper "p1") [] H).
Defined.

(** * The parser registry *)

Section RegistryFacts.

Import ParserRegistry.

Lemma lookup_registered (p : parser) (exts : list string) :
  ∀ (map : gmap string parser) (key : string),
    fold_left (fun map ext => <[lower ext := p]> map) exts map !! key =
      if existsb (fun ext => String.eqb (lower ext) key) exts then Some p
      else map !! key.
Proof.
  induction exts as [|ext exts IH]; intros map key; [reflexivity|].
  simpl. rewrite IH.
  destruct (existsb (fun ext => String.eqb (lower ext) key) exts).
  - rewrite orb_true_r. reflexivity.
  - rewrite orb_false_r.
    destruct (String.eqb_spec (lower ext) key) as [->|Hne].
    + apply lookup_insert_eq.
    + apply lookup_insert_ne. exact Hne.
Qed.

Lemma register_parser_lookup (path_suffix : string → string) (self : registry)
    (p : parser) (file_path : string) :
  get_parser path_suffix (register_parser self p) file_path =
    if existsb (fun ext => String.eqb (lower ext) (lower (path_suffix file_path)))
               (supported_extensions p)
    then Some p
    else get_parser path_suffix self file_path.
Proof.
  unfold get_parser, register_parser. simpl. apply lookup_registered.
Qed.

End RegistryFacts.

(** X21. Registering and looking up: after [register_parser] the parser
    is found for every file whose suffix, in lower case, is one of its
    extensions in lower case, whatever parser held that suffix before;
    the lookup of every other file is unchanged. *)
Theorem register_parser_then_get_parser (path_suffix : string -> string)
    (self : ParserRegistry.registry) (p : ParserRegistry.parser) (file_path : string) :
  ParserRegistry.get_parser path_suffix (ParserRegistry.register_parser self p) file_path =
    if existsb (fun ext => String.eqb (lower ext) (lower (path_suffix file_path)))
               (ParserRegistry.supported_extensions p)
    then Some p
    else ParserRegistry.get_parser path_suffix self file_path.
Proof. apply register_parser_lookup. Qed.

(** X22. The registry the container builds has a parser for exactly the
    suffixes [_find_paper_files] accepts, those that in lower case are
    [.pdf], [.txt], [.md] or [.markdown]: the PDF parser for the first,
    the text parser for the others. On every path [can_parse] agrees
    with the filter of [_find_paper_files]. *)
Theorem container_registry_covers_paper_files (path_suffix : string -> string)
    (file_path : string) :
  let suffix := lower (path_suffix file_path) in
  ParserRegistry.get_parser path_suffix ParserRegistry._create_parser_registry file_path =
    (if String.eqb suffix ".pdf" then Some ParserRegistry.PDFParser
     else if String.eqb suffix ".txt" || String.eqb suffix ".md" ||
             String.eqb suffix ".markdown"
          then Some ParserRegistry.TextParser
          else None) ∧
  ParserRegistry.can_parse path_suffix ParserRegistry._create_parser_registry file_path =
    AnalysisCommands.is_paper_suffix (path_suffix file_path).
Proof.
  intros suffix.
  assert (Hget : ParserRegistry.get_parser path_suffix
                   ParserRegistry._create_parser_registry file_path =
                 (if String.eqb suffix ".pdf" then Some ParserRegistry.PDFParser
                  else if String.eqb suffix ".txt" || String.eqb suffix ".md" ||
                          String.eqb suffix ".markdown"
                       then Some ParserRegistry.TextParser
                       else None)).
  { unfold ParserRegistry._create_parser_registry.
    rewrite !register_parser_lookup. fold suffix.
    change (ParserRegistry.supported_extensions ParserRegistry.TextParser)
      with [".txt"; ".md"; ".markdown"].
    change (ParserRegistry.supported_extensions ParserRegistry.PDFParser) with [".pdf"].
    cbn [existsb].
    change (lower ".txt") with ".txt". change (lower ".md") with ".md".
    change (lower ".markdown") with ".markdown". change (lower ".pdf") with ".pdf".
    rewrite !(String.eqb_sym _ suffix), !orb_false_r.
    assert (Hinit : ParserRegistry.get_parser path_suffix ParserRegistry.init file_path
                    = None) by apply lookup_empty.
    rewrite Hinit. clearbody suffix.
    destruct (String.eqb_spec suffix ".pdf") as [Hp|Hp],
             (String.eqb_spec suffix ".txt") as [Ht|Ht],
             (String.eqb_spec suffix ".md") as [Hm|Hm],
             (String.eqb_spec suffix ".markdown") as [Hk|Hk];
      simpl; try reflexivity; subst; discriminate. }
  split; [exact Hget|].
  unfold ParserRegistry.can_parse. rewrite Hget.
  unfold AnalysisCommands.is_paper_suffix, AnalysisCommands.supported_extensions.
  fold suffix. cbn [existsb]. rewrite orb_false_r.
  destruct (String.eqb suffix ".pdf"); [reflexivity|].
  destruct (String.eqb suffix ".txt"), (String.eqb suffix ".md"),
    (String.eqb suffix ".markdown"); reflexivity.
Qed.

(** X23. A file whose suffix [_find_paper_files] does not accept,
    handed to the command [analyze_paper]: the container's registry has
    no parser for it, and the error comes out wrapped twice, as "Failed to analyze
    paper: Failed to parse paper: No parser found for file: <path>",
    before the file system, the orchestrator or the provider is
    touched. *)
Theorem analyze_paper_command_unsupported_file (path_suffix : string -> string)
    (W : Type)
    (validate_file : ParserRegistry.parser -> string -> W -> bool)
    (parse : ParserRegistry.parser -> string -> W -> outcome Paper.Paper * W)
    (orchestrator_analyze_paper :
       Paper.Paper -> W -> outcome PaperAnalysis.PaperAnalysis * W)
    (mkdir_parent : string -> W -> outcome unit * W)
    (dump : string -> PaperAnalysis.PaperAnalysis -> W -> outcome unit * W)
    (input_path : string) (output_path : option string) (w : W) :
  AnalysisCommands.is_paper_suffix (path_suffix input_path) = false →
  AnalysisCommands.analyze_paper W
      (ParserRegistry.parse_file path_suffix W validate_file parse
         ParserRegistry._create_parser_registry)
      orchestrator_analyze_paper mkdir_parent dump input_path output_path w =
    (Raise (Exn PaperAnalysisError
              ("Failed to analyze paper: Failed to parse paper: " ++
               "No parser found for file: " ++ input_path)), w).
Proof.
  intros Hsuffix.
  assert (Hnone : ParserRegistry.get_parser path_suffix
                    ParserRegistry._create_parser_registry input_path = None).
  { unfold ParserRegistry._create_parser_registry.
    rewrite !register_parser_lookup.
    unfold AnalysisCommands.is_paper_suffix, AnalysisCommands.supported_extensions
      in Hsuffix.
    cbn [existsb] in Hsuffix.
    change (ParserRegistry.supported_extensions ParserRegistry.TextParser)
      with [".txt"; ".md"; ".markdown"].
    change (ParserRegistry.supported_extensions ParserRegistry.PDFParser) with [".pdf"].
    cbn [existsb].
    change (lower ".txt") with ".txt". change (lower ".md") with ".md".
    change (lower ".markdown") with ".markdown". change (lower ".pdf") with ".pdf".
    rewrite !(String.eqb_sym _ (lower (path_suffix input_path))).
    apply orb_false_iff in Hsuffix as [Hp Hsuffix].
    apply orb_false_iff in Hsuffix as [Ht Hsuffix].
    apply orb_false_iff in Hsuffix as [Hm Hsuffix].
    apply orb_false_iff in Hsuffix as [Hk _].
    rewrite Hp, Ht, Hm, Hk. simpl. apply lookup_empty. }
  unfold AnalysisCommands.analyze_paper, AnalysisCommands.parse_analyze_save,
    AnalysisCommands._parse_paper, ParserRegistry.parse_file.
  rewrite Hnone. reflexivity.
Qed.

Lemma analyze_paper_command_unsupported_file_witness :
  AnalysisCommands.is_paper_suffix ".docx" = false ∧
  AnalysisCommands.analyze_paper nat
      (ParserRegistry.parse_file (fun _ => ".docx") nat (fun _ _ _ => true)
         (fun _ file w => (Ok (sample_paper file), w))
         ParserRegistry._create_parser_registry)
      sample_orchestrator sample_mkdir sample_dump "notes.docx" None 0%nat =
    (Raise (Exn PaperAnalysisError
              ("Failed to analyze paper: Failed to parse paper: " ++
               "No parser found for file: " ++ "notes.docx")), 0%nat).
Proof.
  assert (H : AnalysisCommands.is_paper_suffix ".docx" = false) by reflexivity.
  split; [exact H|].
  exact (analyze_paper_command_unsupported_file (fun _ => ".docx") nat (fun _ _ _ => true)
           (fun _ file w => (Ok (sample_paper file), w)) sample_orchestrator
           sample_mkdir sample_dump "notes.docx" None 0%nat H).
Defined.

(** * The title of a paper *)

Section StripFacts.

Lemma lstrip_shape (s : string) :
  lstrip s = EmptyString ∨ ∃ c r, lstrip s = String c r ∧ is_space c = false.
Proof.
  induction s as [|c s IH]; simpl; [left; reflexivity|].
  destruct (is_space c) eqn:Hc; [exact IH|]. right. eauto.
Qed.

Lemma lstrip_empty (s : string) : lstrip s = EmptyString → all_space s = true.
Proof.
  induction s as [|c s IH]; simpl; [reflexivity|].
  destruct (is_space c); [exact IH | discriminate].
Qed.

Lemma lstrip_head (c : ascii) (r : string) :
  is_space c = false → lstrip (String c r) = String c r.
Proof. intros Hc. simpl. rewrite Hc. reflexivity. Qed.

Lemma rstrip_all_space (s : string) : all_space s = true → rstrip s = EmptyString.
Proof.
  induction s as [|c s IH]; simpl; [reflexivity|].
  intros H. apply andb_true_iff in H as [Hc Hs]. rewrite (IH Hs), Hc. reflexivity.
Qed.

Lemma rstrip_empty (s : string) : rstrip s = EmptyString → all_space s = true.
Proof.
  induction s as [|c s IH]; simpl; [reflexivity|].
  destruct (rstrip s) as [|c' r]; [|discriminate].
  destruct (is_space c) eqn:Hc; [|discriminate].
  intros _. rewrite (IH eq_refl). reflexivity.
Qed.

Lemma rstrip_head (c : ascii) (s : string) :
  is_space c = false → ∃ r, rstrip (String c s) = String c r.
Proof.
  intros Hc. simpl. destruct (rstrip s); [rewrite Hc|]; eauto.
Qed.

Lemma rstrip_idempotent (s : string) : rstrip (rstrip s) = rstrip s.
Proof.
  induction s as [|c s IH]; [reflexivity|].
  simpl. destruct (rstrip s) as [|c' r] eqn:Hr.
  - destruct (is_space c) eqn:Hc; [reflexivity|]. simpl. rewrite Hc. reflexivity.
  - change (rstrip (String c (String c' r))) with
      (match rstrip (String c' r) with
       | EmptyString => if is_space c then EmptyString else String c EmptyString
       | r0 => String c r0
       end).
    rewrite IH. reflexivity.
Qed.

Lemma strip_idempotent (s : string) : strip (strip s) = strip s.
Proof.
  unfold strip. destruct (lstrip_shape s) as [->|(c & r & -> & Hc)]; [reflexivity|].
  destruct (rstrip_head c r Hc) as [r' Hr]. rewrite Hr, (lstrip_head c r' Hc), <- Hr.
  apply rstrip_idempotent.
Qed.

Lemma strip_empty (s : string) : strip s = EmptyString → all_space s = true.
Proof.
  unfold strip. intros H. apply rstrip_empty in H.
  destruct (lstrip_shape s) as [He|(c & r & He & Hc)].
  - apply lstrip_empty, He.
  - rewrite He in H. simpl in H. rewrite Hc in H. discriminate.
Qed.

Lemma rstrip_fixed (s : string) : rstrip (strip s) = strip s.
Proof. unfold strip. apply rstrip_idempotent. Qed.

Lemma no_newline_lstrip (s : string) : no_newline s = true → no_newline (lstrip s) = true.
Proof.
  induction s as [|c s IH]; simpl; [reflexivity|].
  intros H. destruct (is_space c).
  - apply IH. destruct (Ascii.eqb c nl); [discriminate | exact H].
  - exact H.
Qed.

Lemma no_newline_rstrip (s : string) : no_newline s = true → no_newline (rstrip s) = true.
Proof.
  induction s as [|c s IH]; simpl; [reflexivity|].
  destruct (Ascii.eqb c nl) eqn:Hc; [discriminate|]. intros H.
  specialize (IH H). destruct (rstrip s) as [|c' r].
  - destruct (is_space c); simpl; [reflexivity|]. rewrite Hc. reflexivity.
  - simpl. rewrite Hc. exact IH.
Qed.

Lemma no_newline_strip (s : string) : no_newline s = true → no_newline (strip s) = true.
Proof. intros H. apply no_newline_rstrip, no_newline_lstrip, H. Qed.

Lemma split_lines_no_newline (s : string) : Forall (fun l => no_newline l = true) (split_lines s).
Proof.
  induction s as [|c s IH]; simpl; [repeat constructor|].
  destruct (Ascii.eqb c nl) eqn:Hc; [constructor; [reflexivity | exact IH]|].
  destruct (split_lines s) as [|l ls]; [repeat constructor; simpl; rewrite Hc; reflexivity|].
  inversion IH as [|? ? Hl Hls]; subst. constructor; [|exact Hls].
  simpl. rewrite Hc. exact Hl.
Qed.

End StripFacts.

Section TitleFacts.

Lemma substring_all (s : string) : substring 0 (String.length s) s = s.
Proof. induction s as [|c s IH]; simpl; [reflexivity | rewrite IH; reflexivity]. Qed.

Lemma str_drop_two (a b : ascii) (rest : string) :
  str_drop 2 (String a (String b rest)) = rest.
Proof.
  unfold str_drop. simpl. rewrite Nat.sub_0_r. apply substring_all.
Qed.

Lemma prefix_heading (line : string) :
  String.prefix "# " line = true → ∃ rest, line = String "#" (String " " rest).
Proof.
  intros H. apply String.prefix_correct in H.
  destruct line as [|a [|b rest]]; simpl in H; try discriminate.
  injection H as <- <-. eauto.
Qed.

Lemma heading_text_nonempty (line rest : string) :
  strip line = String "#" (String " " rest) → strip rest ≠ EmptyString.
Proof.
  intros Hline Hrest. apply strip_empty in Hrest.
  pose proof (rstrip_fixed line) as Hfixed. rewrite Hline in Hfixed.
  simpl in Hfixed. rewrite (rstrip_all_space rest Hrest) in Hfixed.
  discriminate.
Qed.

Lemma title_among_spec (lines : list string) (t : string) :
  Forall (fun l => no_newline l = true) lines →
  Paper.title_among lines = Some t →
  t ≠ EmptyString ∧ strip t = t ∧ no_newline t = true.
Proof.
  induction lines as [|line lines IH]; intros Hlines Ht; [discriminate|].
  inversion Hlines as [|? ? Hline Hrest]; subst.
  simpl in Ht.
  destruct (String.prefix "# " (strip line)) eqn:Hheading.
  - injection Ht as <-.
    destruct (prefix_heading _ Hheading) as [rest Hs].
    rewrite Hs, str_drop_two.
    split; [exact (heading_text_nonempty line rest Hs)|].
    split; [apply strip_idempotent|].
    apply no_newline_strip.
    pose proof (no_newline_strip line Hline) as Hn. rewrite Hs in Hn.
    simpl in Hn. exact Hn.
  - destruct (negb (String.eqb (strip line) EmptyString) &&
              negb (String.prefix "#" (strip line)) &&
              (String.length (strip line) <? 100)%nat) eqn:Hplain.
    + injection Ht as <-.
      apply andb_true_iff in Hplain as [Hplain _].
      apply andb_true_iff in Hplain as [Hne _].
      split.
      * intros He. rewrite He in Hne. discriminate.
      * split; [apply strip_idempotent | apply no_newline_strip; exact Hline].
    + apply IH; assumption.
Qed.

Lemma Forall_firstn {A : Type} (P : A → Prop) (n : nat) (l : list A) :
  Forall P l → Forall P (firstn n l).
Proof.
  revert n. induction l as [|x l IH]; intros [|n] H; simpl; try constructor.
  - inversion H; assumption.
  - apply IH. inversion H; assumption.
Qed.

End TitleFacts.

(** X24. The title [Paper] takes from its content, if it finds one among
    the first ten lines, is never empty, has no white space at either
    end and lies on one line. *)
Theorem extract_title_from_content_shape (content title : string) :
  Paper._extract_title_from_content content = Some title →
  title ≠ EmptyString ∧ strip title = title ∧ no_newline title = true.
Proof.
  unfold Paper._extract_title_from_content. apply title_among_spec.
  apply Forall_firstn, split_lines_no_newline.
Qed.

Lemma extract_title_from_content_shape_witness :
  Paper._extract_title_from_content sample_markdown = Some "Graph kernels" ∧
  "Graph kernels" ≠ EmptyString ∧ strip "Graph kernels" = "Graph kernels" ∧
  no_newline "Graph kernels" = true.
Proof.
  assert (H : Paper._extract_title_from_content sample_markdown = Some "Graph kernels")
    by (vm_compute; reflexivity).
  split; [exact H|].
  exact (extract_title_from_content_shape sample_markdown "Graph kernels" H).
Defined.

(** * What the container passes on *)

(** X25. The engine the container builds never sees the analysis
    settings. It is given [Settings.to_dict()], whose keys are [ai],
    [analysis], [logging] and [storage], and looks up [prompt_version],
    [max_paper_length] and [enable_function_calling] at the top level:
    whatever the settings say, it runs with the defaults [EN_2_0],
    128000 characters and function calling enabled, and so always
    expects the seven fields of the enhanced prompt. The adapter it
    builds retries three times, whatever [max_retries] is set to. *)
Theorem container_engine_runs_on_defaults (settings : Settings.Settings) :
  DIContainer.engine_config settings =
    Some (AIAnalysisEngine.Config "EN_2_0" 128000 true) ∧
  (∀ config, DIContainer.engine_config settings = Some config →
     AIAnalysisEngine.expected_fields (AIAnalysisEngine.prompt_version config) =
       ["title"; "summary"; "problem"; "solution"; "limitations";
        "key_contributions"; "research_significance"]) ∧
  (∀ class adapter,
     DIContainer._create_ai_adapter (Settings.ai settings) = Ok (class, adapter) →
     BaseAIAdapter.max_retries adapter = 3%Z ∧
     BaseAIAdapter.api_key adapter = Settings.api_key (Settings.ai settings) ∧
     BaseAIAdapter.model adapter = Settings.model (Settings.ai settings)).
Proof.
  assert (Hconfig : DIContainer.engine_config settings =
                    Some (AIAnalysisEngine.Config "EN_2_0" 128000 true)).
  { unfold DIContainer.engine_config, AIAnalysisEngine.read_config, Settings.to_dict.
    assert (Hnone : ∀ key (m : gmap string pyval),
              key ≠ "ai" → key ≠ "analysis" → key ≠ "logging" → key ≠ "storage" →
              m = list_to_map
                    [ ("ai", Settings.ai_dict (Settings.ai settings));
                      ("analysis", Settings.analysis_dict (Settings.analysis settings));
                      ("logging", Settings.logging_dict (Settings.logging settings));
                      ("storage", Settings.storage_dict (Settings.storage settings)) ] →
              m !! key = None).
    { intros key m H1 H2 H3 H4 ->. cbn [list_to_map foldr fst snd].
      rewrite !lookup_insert_ne by (intros E; symmetry in E; contradiction).
      apply lookup_empty. }
    rewrite (Hnone "prompt_version" _ ltac:(done) ltac:(done) ltac:(done) ltac:(done)
               eq_refl).
    rewrite (Hnone "max_paper_length" _ ltac:(done) ltac:(done) ltac:(done) ltac:(done)
               eq_refl).
    rewrite (Hnone "enable_function_calling" _ ltac:(done) ltac:(done) ltac:(done)
               ltac:(done) eq_refl).
    reflexivity. }
  split; [exact Hconfig|]. split.
  - intros config Hc. rewrite Hconfig in Hc. injection Hc as <-.
    vm_compute. reflexivity.
  - intros class adapter Hcreate. unfold DIContainer._create_ai_adapter in Hcreate.
    destruct (String.eqb (lower (Settings.provider (Settings.ai settings))) "openai").
    + injection Hcreate as <- <-. repeat split.
    + destruct (String.eqb (lower (Settings.provider (Settings.ai settings))) "deepseek");
        [|discriminate].
      injection Hcreate as <- <-. repeat split.
Qed.

(** * The admission gate: progress *)

Section GateProgress.

Import AnalysisCommands.

Lemma steps_ahead_insert (ps : list phase) :
  ∀ (i : nat) (old new : phase),
    ps !! i = Some old →
    (steps_ahead (<[i := new]> ps) + steps_ahead [old] =
     steps_ahead ps + steps_ahead [new])%nat.
Proof.
  induction ps as [|p ps IH]; intros [|i] old new Hi; try discriminate.
  - injection Hi as ->. simpl. destruct old, new; simpl; lia.
  - simpl in Hi. specialize (IH i old new Hi). simpl.
    destruct p; simpl in *; lia.
Qed.

Lemma step_steps_ahead (g g' : gate) :
  step g g' → S (steps_ahead (tasks g')) = steps_ahead (tasks g).
Proof.
  intros Hstep. inversion Hstep as [g0 i Hq Hv|g0 i Hr]; subst; simpl.
  - pose proof (steps_ahead_insert (tasks g) i Queued Running Hq) as H.
    simpl in H. lia.
  - pose proof (steps_ahead_insert (tasks g) i Running Finished Hr) as H.
    simpl in H. lia.
Qed.

Lemma step_length (g g' : gate) :
  step g g' → length (tasks g') = length (tasks g).
Proof.
  intros Hstep. inversion Hstep; subst; simpl; apply length_insert.
Qed.

Lemma reachable_length (concurrent files : nat) (g : gate) :
  reachable concurrent files g → length (tasks g) = files.
Proof.
  induction 1 as [|g g' _ IH Hstep].
  - simpl. apply repeat_length.
  - rewrite (step_length _ _ Hstep). exact IH.
Qed.

Lemma no_running_count (ps : list phase) :
  (∀ i, ps !! i ≠ Some Running) → count_running ps = 0%nat.
Proof.
  induction ps as [|p ps IH]; intros H; [reflexivity|].
  simpl. rewrite IH by (intros i; apply (H (S i))).
  destruct p; try reflexivity. exfalso. apply (H 0%nat). reflexivity.
Qed.

Lemma steps_ahead_zero (ps : list phase) :
  steps_ahead ps = 0%nat ↔ ∀ i p, ps !! i = Some p → p = Finished.
Proof.
  induction ps as [|p ps IH]; simpl.
  - split; [intros _ i p Hi; destruct i; discriminate | reflexivity].
  - split.
    + intros H. destruct p; try discriminate.
      intros [|i] q Hi; simpl in Hi; [congruence|].
      apply (proj1 IH H i q Hi).
    + intros H. rewrite (H 0%nat p eq_refl).
      apply IH. intros i q Hi. apply (H (S i) q Hi).
Qed.

Lemma unfinished_task (ps : list phase) :
  steps_ahead ps ≠ 0%nat →
  (∃ i, ps !! i = Some Running) ∨
  ((∀ i, ps !! i ≠ Some Running) ∧ ∃ i, ps !! i = Some Queued).
Proof.
  induction ps as [|p ps IH]; simpl; intros H; [contradiction|].
  destruct p.
  - destruct (decide (steps_ahead ps = 0%nat)) as [Hz|Hnz].
    + right. split; [|exists 0%nat; reflexivity].
      intros [|i] Hi; [discriminate|]. simpl in Hi.
      pose proof (proj1 (steps_ahead_zero ps) Hz i Running Hi). discriminate.
    + destruct (IH Hnz) as [[i Hi]|[Hno [i Hi]]].
      * left. exists (S i). exact Hi.
      * right. split; [|exists 0%nat; reflexivity].
        intros [|j] Hj; [discriminate|]. exact (Hno j Hj).
  - left. exists 0%nat. reflexivity.
  - destruct (IH H) as [[i Hi]|[Hno [i Hi]]].
    + left. exists (S i). exact Hi.
    + right. split; [|exists (S i); exact Hi].
      intros [|j] Hj; [discriminate|]. exact (Hno j Hj).
Qed.

Lemma gate_can_step (concurrent files : nat) (g : gate) :
  reachable concurrent files g → (0 < concurrent)%nat →
  steps_ahead (tasks g) ≠ 0%nat → ∃ g', step g g'.
Proof.
  intros Hreach Hpos Hahead.
  destruct (unfinished_task (tasks g) Hahead) as [[i Hi]|[Hno [i Hi]]].
  - eexists. apply (step_release g i Hi).
  - eexists. apply (step_acquire g i Hi).
    pose proof (gate_invariant concurrent files g Hreach) as Hinv.
    unfold in_flight in Hinv. rewrite (no_running_count _ Hno) in Hinv. lia.
Qed.

Lemma gate_closed_never_moves (files : nat) (g : gate) :
  reachable 0 files g → g = start 0 files.
Proof.
  induction 1 as [|g g' Hreach IH Hstep]; [reflexivity|].
  subst g. exfalso. inversion Hstep as [g0 i Hq Hv|g0 i Hr]; subst.
  - simpl in Hv. lia.
  - simpl in Hr. apply list_elem_of_lookup_2, list_elem_of_In, repeat_spec in Hr.
    discriminate.
Qed.

End GateProgress.

(** X26. The gate neither deadlocks nor loops. A reachable state has
    one phase per file and at most [2 * files] acquisitions and
    releases ahead of it; every step takes exactly one off that count;
    with a positive bound a step is possible as long as the count is
    not zero; and when it is zero every task has finished and the
    counter is back at its bound. With the bound 0 no task ever
    starts. *)
Theorem gate_progress (concurrent files : nat) (g : AnalysisCommands.gate) :
  AnalysisCommands.reachable concurrent files g →
  length (AnalysisCommands.tasks g) = files ∧
  (steps_ahead (AnalysisCommands.tasks g) <= 2 * files)%nat ∧
  (∀ g', AnalysisCommands.step g g' →
         S (steps_ahead (AnalysisCommands.tasks g')) =
         steps_ahead (AnalysisCommands.tasks g)) ∧
  ((0 < concurrent)%nat → steps_ahead (AnalysisCommands.tasks g) ≠ 0%nat →
   ∃ g', AnalysisCommands.step g g') ∧
  (steps_ahead (AnalysisCommands.tasks g) = 0%nat →
   AnalysisCommands.value g = concurrent ∧
   ∀ i p, AnalysisCommands.tasks g !! i = Some p → p = AnalysisCommands.Finished) ∧
  (concurrent = 0%nat → g = AnalysisCommands.start 0 files).
Proof.
  intros Hreach.
  split; [exact (reachable_length _ _ _ Hreach)|].
  split.
  { clear -Hreach. induction Hreach as [|g g' _ IH Hstep].
    - simpl. induction files as [|n IHn]; simpl; lia.
    - pose proof (step_steps_ahead _ _ Hstep). lia. }
  split; [intros g'; apply step_steps_ahead|].
  split; [intros Hpos Hahead; exact (gate_can_step _ _ _ Hreach Hpos Hahead)|].
  split.
  - intros Hzero.
    pose proof (proj1 (steps_ahead_zero _) Hzero) as Hfin.
    split; [|exact Hfin].
    pose proof (gate_invariant concurrent files g Hreach) as Hinv.
    unfold AnalysisCommands.in_flight in Hinv.
    rewrite no_running_count in Hinv; [lia|].
    intros i Hi. pose proof (Hfin i _ Hi). discriminate.
  - intros ->. apply gate_closed_never_moves. exact Hreach.
Qed.

Lemma gate_progress_witness :
  let g := AnalysisCommands.start 2 5 in
  AnalysisCommands.reachable 2 5 g ∧
  length (AnalysisCommands.tasks g) = 5%nat ∧
  (steps_ahead (AnalysisCommands.tasks g) <= 2 * 5)%nat ∧
  (∀ g', AnalysisCommands.step g g' →
         S (steps_ahead (AnalysisCommands.tasks g')) =
         steps_ahead (AnalysisCommands.tasks g)) ∧
  ((0 < 2)%nat → steps_ahead (AnalysisCommands.tasks g) ≠ 0%nat →
   ∃ g', AnalysisCommands.step g g') ∧
  (steps_ahead (AnalysisCommands.tasks g) = 0%nat →
   AnalysisCommands.value g = 2%nat ∧
   ∀ i p, AnalysisCommands.tasks g !! i = Some p → p = AnalysisCommands.Finished) ∧
  (2%nat = 0%nat → g = AnalysisCommands.start 0 5).
Proof.
  intros g.
  assert (H : AnalysisCommands.reachable 2 5 g) by apply AnalysisCommands.reachable_start.
  split; [exact H|].
  exact (gate_progress 2 5 g H).
Defined.

(** * The batch of the command line *)

(** The call [gather] is resumed exactly when the gate can drain: with
    the bound the semaphore was created with, some run of acquisitions
    and releases ends with every task finished. *)
Lemma gate_drains (concurrent files : nat) (g : AnalysisCommands.gate) :
  (0 < concurrent)%nat →
  AnalysisCommands.reachable concurrent files g →
  ∃ g', AnalysisCommands.reachable concurrent files g' ∧
        steps_ahead (AnalysisCommands.tasks g') = 0%nat.
Proof.
  intros Hpos. remember (steps_ahead (AnalysisCommands.tasks g)) as k eqn:Hk.
  revert g Hk. induction k as [|k IH]; intros g Hk Hreach.
  - exists g. auto.
  - destruct (gate_can_step concurrent files g Hreach Hpos) as [g' Hstep];
      [rewrite <- Hk; discriminate|].
    apply (IH g').
    + pose proof (step_steps_ahead _ _ Hstep). lia.
    + exact (AnalysisCommands.reachable_step _ _ _ _ Hreach Hstep).
Qed.

Lemma gather_resumed_iff_gate_drains (A : Type) (concurrent : nat)
    (tasks : list (outcome A)) :
  is_Some (AnalysisCommands.gather (Z.of_nat concurrent) tasks) ↔
  ∃ g, AnalysisCommands.reachable concurrent (length tasks) g ∧
       steps_ahead (AnalysisCommands.tasks g) = 0%nat.
Proof.
  destruct tasks as [|task tasks].
  - split; [|intros _; eexists; reflexivity].
    intros _. exists (AnalysisCommands.start concurrent 0).
    split; [apply AnalysisCommands.reachable_start | reflexivity].
  - cbn [AnalysisCommands.gather]. destruct concurrent as [|n].
    + split; [intros [? ?]; discriminate|].
      intros (g & Hreach & Hzero).
      apply gate_closed_never_moves in Hreach. subst g. discriminate.
    + split; [|intros _; eexists; reflexivity].
      intros _.
      apply (gate_drains (S n) _ (AnalysisCommands.start (S n) (length (task :: tasks))));
        [lia|].
      apply AnalysisCommands.reachable_start.
Qed.

(** X27. [batch_analyze_papers] in closed form, over every input.
    When the files cannot be listed it raises "Batch analysis failed: "
    with the error of the listing; with no file it raises "Batch
    analysis failed: No paper files found in <dir>"; when the output
    directory cannot be made it raises "Batch analysis failed: " with
    the error of [mkdir]; with a negative bound it raises "Batch
    analysis failed: Semaphore initial value must be >= 0"; with the
    bound 0 it is never resumed; otherwise it returns one analysis per
    file, in the order of the files: the result of the file's task, or,
    where the task raised, the failed analysis ["failed_<i>"] with the
    file as paper and the task's error as message. Nothing is
    dropped. *)
Theorem batch_analyze_papers_one_entry_per_file
    (run_task : string -> option string -> outcome PaperAnalysis.PaperAnalysis)
    (path_name : string -> string) (_find_paper_files : string -> outcome (list string))
    (mkdir_output : string -> outcome unit)
    (input_dir : string) (output_dir : option string) (concurrent : Z) :
  AnalysisCommands.batch_analyze_papers run_task path_name _find_paper_files
      mkdir_output input_dir output_dir concurrent =
    let failed (message : string) :=
      AnalysisCommands.Completed
        (Raise (Exn PaperAnalysisError ("Batch analysis failed: " ++ message))) in
    match _find_paper_files input_dir with
    | Raise e => failed (exn_msg e)
    | Ok [] => failed ("No paper files found in " ++ input_dir)
    | Ok ((_ :: _) as paper_files) =>
        match (match AnalysisCommands.given output_dir with
               | Some dir => mkdir_output dir
               | None => Ok tt
               end) with
        | Raise e => failed (exn_msg e)
        | Ok _ =>
            if (concurrent <? 0)%Z then failed "Semaphore initial value must be >= 0"
            else if (concurrent =? 0)%Z then AnalysisCommands.NeverCompletes
            else
              AnalysisCommands.Completed
                (Ok (imap (fun i file =>
                             match run_task file output_dir with
                             | Ok result => result
                             | Raise e =>
                                 PaperAnalysis.failed ("failed_" ++ pretty i) file
                                   ("Failed: " ++ path_name file) (exn_msg e)
                             end) paper_files))
        end
    end.
Proof. apply batch_analyze_papers_run. Qed.

(** * The score of the degraded result *)

Section DegradedScore.

Variable py_repr : pyval -> string.

Lemma length_str_take (n : nat) (s : string) :
  String.length (str_take n s) = Nat.min n (String.length s).
Proof.
  unfold str_take. revert n. induction s as [|c s IH]; intros [|n]; simpl;
    try reflexivity.
  rewrite IH. reflexivity.
Qed.

Lemma length_append (s t : string) :
  String.length (s ++ t) = (String.length s + String.length t)%nat.
Proof.
  induction s as [|c s IH]; [reflexivity|].
  change (String c s ++ t) with (String c (s ++ t)). simpl. rewrite IH. reflexivity.
Qed.

Lemma length_lstrip (s : string) : (String.length (lstrip s) <= String.length s)%nat.
Proof.
  induction s as [|c s IH]; simpl; [lia|].
  destruct (is_space c); simpl; lia.
Qed.

Lemma length_rstrip (s : string) : (String.length (rstrip s) <= String.length s)%nat.
Proof.
  induction s as [|c s IH]; simpl; [lia|].
  destruct (rstrip s) as [|c' r]; [destruct (is_space c)|]; simpl in *; lia.
Qed.

Lemma length_strip (s : string) : (String.length (strip s) <= String.length s)%nat.
Proof.
  unfold strip. pose proof (length_rstrip (lstrip s)). pose proof (length_lstrip s). lia.
Qed.

Lemma length_first_line (text : string) :
  (String.length (first_line text) <= String.length text)%nat.
Proof.
  destruct (first_line_spec text) as [_ [Heq|[r Heq]]].
  - rewrite <- Heq. lia.
  - rewrite Heq at 2. rewrite length_append. lia.
Qed.

Lemma field_counts_text (m : gmap string pyval) (field s : string) :
  m !! field = Some (PStr s) →
  AIAnalysisEngine.field_counts py_repr m field = (20 <? String.length s)%nat.
Proof.
  intros Hm. unfold AIAnalysisEngine.field_counts. rewrite Hm. simpl.
  destruct (20 <? String.length s)%nat eqn:Hl; [|apply andb_false_r].
  rewrite long_string_nonempty by exact Hl. reflexivity.
Qed.

Lemma basic_result_flags (text : string) :
  map (AIAnalysisEngine.field_counts py_repr
         (AIAnalysisEngine._create_basic_result_from_text text))
      AIAnalysisEngine.score_fields =
    [ (20 <? String.length (strip (first_line text)))%nat;
      (20 <? String.length text)%nat; true; true; true; true ].
Proof.
  destruct (basic_result_placeholders text) as (Hp & Hs & Hl & Hk & _).
  cbn [map AIAnalysisEngine.score_fields].
  rewrite (field_counts_text _ _ _ (basic_result_title text)).
  rewrite (field_counts_text _ _ _ (basic_result_summary text)).
  rewrite (field_counts_text _ _ _ Hp), (field_counts_text _ _ _ Hs),
    (field_counts_text _ _ _ Hl), (field_counts_text _ _ _ Hk).
  f_equal; [|f_equal].
  - destruct (String.eqb_spec (strip (first_line text)) EmptyString) as [->|_];
      [reflexivity|].
    rewrite length_str_take.
    destruct (20 <? String.length (strip (first_line text)))%nat eqn:Hl20.
    + apply Nat.ltb_lt in Hl20. apply Nat.ltb_lt. lia.
    + apply Nat.ltb_ge in Hl20. apply Nat.ltb_ge. lia.
  - destruct (500 <? String.length text)%nat eqn:H500.
    + apply Nat.ltb_lt in H500.
      rewrite length_append, length_str_take, Nat.min_l by lia.
      change (String.length "...") with 3%nat.
      transitivity true; [reflexivity|]. symmetry. apply Nat.ltb_lt. lia.
    + reflexivity.
Qed.

Lemma long_title_long_text (text : string) :
  (20 <? String.length (strip (first_line text)))%nat = true →
  (20 <? String.length text)%nat = true.
Proof.
  intros H. apply Nat.ltb_lt in H. apply Nat.ltb_lt.
  pose proof (length_strip (first_line text)). pose proof (length_first_line text). lia.
Qed.

End DegradedScore.

(** X28. A reply from which nothing could be extracted still scores
    high. The four placeholders of the degraded result are longer than
    20 characters and count, so its confidence is 0.6 for a reply of at
    most 20 characters, 0.85 (0.8500000000000001 as the code adds it up)
    for a longer one, and 1.0 when the first
    line of the reply, stripped, is itself longer than 20 characters. *)
Theorem degraded_result_confidence (py_repr : pyval -> string) (text : string) :
  AIAnalysisEngine._calculate_confidence_score py_repr
      (AIAnalysisEngine._create_basic_result_from_text text) =
    (if (20 <? String.length (strip (first_line text)))%nat then 1
     else if (20 <? String.length text)%nat then 0.85000000000000009
     else 0.6)%float.
Proof.
  rewrite confidence_score_of_flags, basic_result_flags.
  assert (Hsig : AIAnalysisEngine.has_significance
                   (AIAnalysisEngine._create_basic_result_from_text text) = false).
  { unfold AIAnalysisEngine.has_significance.
    destruct (basic_result_placeholders text) as (_ & _ & _ & _ & ->). reflexivity. }
  rewrite Hsig.
  destruct (20 <? String.length (strip (first_line text)))%nat eqn:Htitle.
  - rewrite (long_title_long_text text Htitle). vm_compute. reflexivity.
  - destruct (20 <? String.length text)%nat; vm_compute; reflexivity.
Qed.
